(** * NDB / JS evaluation (ndb.py): a shallow embedding and its properties

    The development follows the class [NDB] of [ndb.py]:
    - numpy's float64 values are modelled by [float]: a real number, one of
      the two infinities, or NaN.  Arithmetic is exact on the reals (no
      rounding, no overflow, a single zero) and follows IEEE 754 on the
      special values;
    - one-dimensional arrays are lists, two-dimensional arrays are
      [matrix] records (a column count and a list of rows);
    - Python exceptions are the [Raise] outcome of the [result] monad;
    - the collaborators that the class calls but does not define (K-means,
      the random permutation, [np.argsort], [scipy.stats.norm.cdf]) are the
      fields of an environment record [Env];
    - the file system seen by [pickle] and [os.path.isfile] and the calls
      made to the collaborators are kept in a [world].  Console output is
      not modelled. *)

From Stdlib Require Import Reals Lra.
From stdpp Require Import gmap strings list sorting.

(** ** Floating-point values *)

Inductive float : Type :=
  | Fin (x : R)
  | PInf
  | NInf
  | NaN.

#[global] Instance R_eq_dec : EqDecision R := Req_dec_T.
#[global] Instance Rlt_decision (x y : R) : Decision (x < y)%R := Rlt_dec x y.
#[global] Instance Rle_decision (x y : R) : Decision (x <= y)%R := Rle_dec x y.

Module F.

Definition zero : float := Fin 0.
Definition one : float := Fin 1.
Definition of_nat (n : nat) : float := Fin (INR n).
Definition of_Z (z : Z) : float := Fin (IZR z).

Definition isfinite (a : float) : bool :=
  match a with Fin _ => true | _ => false end.

Definition isnan (a : float) : bool :=
  match a with NaN => true | _ => false end.

Definition neg (a : float) : float :=
  match a with
  | Fin x => Fin (- x)
  | PInf => NInf
  | NInf => PInf
  | NaN => NaN
  end.

Definition add (a b : float) : float :=
  match a, b with
  | NaN, _ | _, NaN => NaN
  | Fin x, Fin y => Fin (x + y)
  | PInf, NInf | NInf, PInf => NaN
  | PInf, _ | _, PInf => PInf
  | NInf, _ | _, NInf => NInf
  end.

Definition sub (a b : float) : float := add a (neg b).

(** The infinity that has the sign of the real [x], NaN when [x] is zero. *)
Definition signed_inf (x : R) (positive : float) : float :=
  if bool_decide (0 < x)%R then positive
  else if bool_decide (x < 0)%R then neg positive
  else NaN.

Definition mul (a b : float) : float :=
  match a, b with
  | NaN, _ | _, NaN => NaN
  | Fin x, Fin y => Fin (x * y)
  | Fin x, PInf | PInf, Fin x => signed_inf x PInf
  | Fin x, NInf | NInf, Fin x => signed_inf x NInf
  | PInf, PInf | NInf, NInf => PInf
  | PInf, NInf | NInf, PInf => NInf
  end.

(** Division by the (unsigned, hence positive) zero gives an infinity of
    the sign of the numerator, and NaN for 0/0, as numpy does for arrays. *)
Definition div (a b : float) : float :=
  match a, b with
  | NaN, _ | _, NaN => NaN
  | Fin x, Fin y =>
      if bool_decide (y = 0%R) then signed_inf x PInf else Fin (x / y)
  | Fin _, _ => Fin 0
  | PInf, Fin y => if bool_decide (y < 0)%R then NInf else PInf
  | NInf, Fin y => if bool_decide (y < 0)%R then PInf else NInf
  | _, _ => NaN
  end.

Definition abs (a : float) : float :=
  match a with
  | Fin x => Fin (Rabs x)
  | PInf | NInf => PInf
  | NaN => NaN
  end.

Definition sqrt (a : float) : float :=
  match a with
  | Fin x => if bool_decide (x < 0)%R then NaN else Fin (R_sqrt.sqrt x)
  | PInf => PInf
  | NInf | NaN => NaN
  end.

Definition log (a : float) : float :=
  match a with
  | Fin x =>
      if bool_decide (0 < x)%R then Fin (ln x)
      else if bool_decide (x = 0%R) then NInf
      else NaN
  | PInf => PInf
  | NInf | NaN => NaN
  end.

(** Comparisons: every comparison with NaN is false, except [!=]. *)
Definition eqb (a b : float) : bool :=
  match a, b with
  | Fin x, Fin y => bool_decide (x = y)
  | PInf, PInf | NInf, NInf => true
  | _, _ => false
  end.

Definition neqb (a b : float) : bool := negb (eqb a b).

Definition ltb (a b : float) : bool :=
  match a, b with
  | NaN, _ | _, NaN => false
  | Fin x, Fin y => bool_decide (x < y)%R
  | NInf, NInf | PInf, _ => false
  | NInf, _ | _, PInf => true
  | Fin _, NInf => false
  end.

Definition leb (a b : float) : bool :=
  match a, b with
  | NaN, _ | _, NaN => false
  | Fin x, Fin y => bool_decide (x <= y)%R
  | NInf, _ | _, PInf => true
  | _, _ => false
  end.

End F.

(** ** Exceptions *)

Inductive exn : Type :=
  | AssertionError
  | ValueError
  | IndexError
  | ZeroDivisionError
  | AttributeError
  | TypeError
  | UnpicklingError.

Inductive result (A : Type) : Type :=
  | Ok (a : A)
  | Raise (e : exn).
Arguments Ok {A} a.
Arguments Raise {A} e.

#[global] Instance result_ret : MRet result := λ A a, Ok a.
#[global] Instance result_bind : MBind result := λ A B f m,
  match m with
  | Ok a => f a
  | Raise e => Raise e
  end.

(** [assert c], and the bounds check of an indexing operation. *)
Definition assert (c : bool) : result unit :=
  if c then Ok tt else Raise AssertionError.

Definition assert_index (c : bool) : result unit :=
  if c then Ok tt else Raise IndexError.

(** ** numpy on one-dimensional arrays *)

(** numpy's broadcasting rule for two one-dimensional shapes: equal
    lengths, or one operand of length one; anything else is a ValueError. *)
Definition broadcast_shape (n m : nat) : result nat :=
  if decide (n = m) then Ok n
  else if decide (n = 1) then Ok m
  else if decide (m = 1) then Ok n
  else Raise ValueError.

Definition zip_broadcast {A B C : Type} (f : A → B → C)
    (a : list A) (b : list B) : list C :=
  if decide (length a = length b) then zip_with f a b
  else match a, b with
       | [x], _ => map (f x) b
       | _, [y] => map (λ x, f x y) a
       | _, _ => []
       end.

(** An elementwise binary operation on two arrays. *)
Definition broadcast2 {A B C : Type} (f : A → B → C)
    (a : list A) (b : list B) : result (list C) :=
  _ ← broadcast_shape (length a) (length b);
  Ok (zip_broadcast f a b).

(** A loop whose body can raise. *)
Fixpoint for_each {A B : Type} (f : A → result B) (l : list A)
    : result (list B) :=
  match l with
  | [] => Ok []
  | x :: l' => y ← f x; ys ← for_each f l'; Ok (y :: ys)
  end.

(** [a[mask]] for a boolean mask: the lengths must agree. *)
Fixpoint select {A : Type} (a : list A) (mask : list bool) : list A :=
  match a, mask with
  | x :: a', m :: mask' =>
      if m then x :: select a' mask' else select a' mask'
  | _, _ => []
  end.

Definition mask_index {A : Type} (a : list A) (mask : list bool)
    : result (list A) :=
  if decide (length mask = length a) then Ok (select a mask)
  else Raise IndexError.

(** [np.any] and [np.all] of a boolean array. *)
Definition np_any (a : list bool) : bool := existsb (λ b : bool, b) a.
Definition np_all (a : list bool) : bool := forallb (λ b : bool, b) a.

(** [np.sum] of a one-dimensional array. *)
Definition np_sum (a : list float) : float := foldl F.add F.zero a.

(** ** The statistical primitives *)

(** [NDB.kl_divergence] *)
Definition kl_divergence (p q : list float) : result float :=
  _ ← assert (np_all (map F.isfinite p));
  _ ← assert (np_all (map F.isfinite q));
  bad ← broadcast2 andb (map (λ x, F.neqb x F.zero) p)
                        (map (λ x, F.eqb x F.zero) q);
  _ ← assert (negb (np_any bad));
  let p_pos := map (λ x, F.ltb F.zero x) p in
  pp ← mask_index p p_pos;
  qp ← mask_index q p_pos;
  ratio ← broadcast2 F.div pp qp;
  terms ← broadcast2 F.mul pp (map F.log ratio);
  Ok (np_sum terms).

(** [NDB.jensen_shannon_divergence] *)
Definition jensen_shannon_divergence (p q : list float) : result float :=
  s ← broadcast2 F.add p q;
  let m := map (λ x, F.mul x (Fin 0.5)) s in
  a ← kl_divergence p m;
  b ← kl_divergence q m;
  Ok (F.mul (Fin 0.5) (F.add a b)).

(** Python's [a / b] on two ints. *)
Definition py_truediv (a b : nat) : result float :=
  if decide (b = 0) then Raise ZeroDivisionError
  else Ok (Fin (INR a / INR b)).

Section ZTest.

(** [scipy.stats.norm.cdf], applied to one element. *)
Variable norm_cdf : float → float.

(** [NDB.two_proportions_z_test] *)
Definition two_proportions_z_test (p1 : list float) (n1 : nat)
    (p2 : list float) (n2 : nat) (significance_level : float)
    : result (list bool) :=
  num ← broadcast2 F.add (map (λ x, F.mul x (F.of_nat n1)) p1)
                         (map (λ x, F.mul x (F.of_nat n2)) p2);
  let p := map (λ x, F.div x (F.of_nat (n1 + n2))) num in
  pq ← broadcast2 F.mul p (map (λ x, F.sub F.one x) p);
  r1 ← py_truediv 1 n1;
  r2 ← py_truediv 1 n2;
  let se := map F.sqrt (map (λ x, F.mul x (F.add r1 r2)) pq) in
  d ← broadcast2 F.sub p1 p2;
  z ← broadcast2 F.div d se;
  let p_values :=
    map (λ x, F.mul (Fin 2) (norm_cdf (F.mul (Fin (-1)) (F.abs x)))) z in
  Ok (map (λ x, F.ltb x significance_level) p_values).

End ZTest.

(** ** Two-dimensional arrays *)

Record matrix : Type := Matrix { ncols : nat; rows : list (list float) }.

Definition nrows (m : matrix) : nat := length (rows m).

(** Every numpy array is rectangular. *)
Definition wf_matrix (m : matrix) : Prop :=
  Forall (λ r : list float, length r = ncols m) (rows m).

(** The whitening statistics are Python floats before a fit with whitening
    and one-dimensional arrays after it. *)
Inductive stat : Type :=
  | Scalar (x : float)
  | Vector (v : list float).

(** [m op s] for a matrix and a scalar or a one-dimensional array. *)
Definition matrix_op (f : float → float → float) (m : matrix) (s : stat)
    : result matrix :=
  match s with
  | Scalar x => Ok (Matrix (ncols m) (map (map (λ a, f a x)) (rows m)))
  | Vector v =>
      d ← broadcast_shape (ncols m) (length v);
      Ok (Matrix d (map (λ r, zip_broadcast f r v) (rows m)))
  end.

Definition column (m : matrix) (j : nat) : list float :=
  map (λ r, nth j r F.zero) (rows m).

(** [np.mean(m, axis=0)]: the sum of each column over the number of rows. *)
Definition np_mean_axis0 (m : matrix) : list float :=
  map (λ j, F.div (np_sum (column m j)) (F.of_nat (nrows m)))
      (seq 0 (ncols m)).

(** [np.std(m, axis=0)]: the root of the mean squared deviation. *)
Definition np_std_axis0 (m : matrix) : list float :=
  map (λ j,
         let mu := F.div (np_sum (column m j)) (F.of_nat (nrows m)) in
         let dev := map (λ x, F.sub x mu) (column m j) in
         F.sqrt (F.div (np_sum (map (λ x, F.mul x x) dev))
                       (F.of_nat (nrows m))))
      (seq 0 (ncols m)).

(** [np.linalg.norm(m, ord=2, axis=1)] *)
Definition np_linalg_norm_axis1 (m : matrix) : list float :=
  map (λ r, F.sqrt (np_sum (map (λ x, F.mul x x) r))) (rows m).

(** [np.argmin] of one row, as numpy scans it: a later element replaces
    the current minimum when it is not [>=] it, and the scan stops at the
    first NaN. *)
Fixpoint argmin_scan (mp : float) (min_ind i : nat) (l : list float) : nat :=
  match l with
  | [] => min_ind
  | x :: l' =>
      if negb (F.leb mp x)
      then if F.isnan x then i else argmin_scan x i (S i) l'
      else argmin_scan mp min_ind (S i) l'
  end.

Definition np_argmin (l : list float) : nat :=
  match l with
  | [] => 0
  | x :: l' => if F.isnan x then 0 else argmin_scan x 0 1 l'
  end.

(** [np.argmin(D, axis=1)] for a matrix of [k] columns. *)
Definition np_argmin_axis1 (k : nat) (D : list (list float))
    : result (list nat) :=
  if decide (k = 0) then Raise ValueError else Ok (map np_argmin D).

(** [np.unique(labels, return_counts=True)]: the distinct values in
    increasing order, and how often each occurs. *)
Definition count (v : nat) (labels : list nat) : nat :=
  length (filter (λ x, x = v) labels).

Definition np_unique (labels : list nat) : list nat * list nat :=
  let vals := filter (λ v, v ∈ labels) (seq 0 (S (max_list labels))) in
  (vals, map (λ v, count v labels) vals).

(** [a[idx]] for an array of indices. *)
Definition take_indices {A : Type} (a : list A) (idx : list nat)
    : result (list A) :=
  for_each (λ i, match a !! i with
                 | Some x => Ok x
                 | None => Raise IndexError
                 end) idx.

(** [m[:, idx]] *)
Definition take_columns (m : matrix) (idx : list nat) : result matrix :=
  _ ← assert_index (forallb (λ i, bool_decide (i < ncols m)) idx);
  Ok (Matrix (length idx) (map (λ r, map (λ j, nth j r F.zero) idx) (rows m))).

(** ** The NDB object *)

(** The dictionary returned by [evaluate]. *)
Record results : Type := Results {
  res_NDB : nat;
  res_JS : float;
  res_Proportions : list float;
  res_N : nat;
  res_Bin_Assignment : list nat;
  res_Different_Bins : list bool
}.

Record NDB : Type := MkNDB {
  number_of_bins : nat;
  significance_level : float;
  whitening : bool;
  ndb_eps : float;
  training_mean : stat;
  training_std : stat;
  max_dims : option nat;
  bin_centers : option matrix;
  bin_proportions : option (list float);
  ref_sample_size : option nat;
  cached_results : gmap string results
}.

Definition set_whitening_stats (self : NDB) (mean std : stat) : NDB :=
  MkNDB (number_of_bins self) (significance_level self) (whitening self)
        (ndb_eps self) mean std (max_dims self) (bin_centers self)
        (bin_proportions self) (ref_sample_size self) (cached_results self).

Definition set_max_dims (self : NDB) (m : option nat) : NDB :=
  MkNDB (number_of_bins self) (significance_level self) (whitening self)
        (ndb_eps self) (training_mean self) (training_std self) m
        (bin_centers self) (bin_proportions self) (ref_sample_size self)
        (cached_results self).

Definition set_bins (self : NDB) (proportions : list float)
    (centers : matrix) (n : nat) : NDB :=
  MkNDB (number_of_bins self) (significance_level self) (whitening self)
        (ndb_eps self) (training_mean self) (training_std self)
        (max_dims self) (Some centers) (Some proportions) (Some n)
        (cached_results self).

Definition set_cached_results (self : NDB) (c : gmap string results) : NDB :=
  MkNDB (number_of_bins self) (significance_level self) (whitening self)
        (ndb_eps self) (training_mean self) (training_std self)
        (max_dims self) (bin_centers self) (bin_proportions self)
        (ref_sample_size self) c.

(** The fitted state: what a fit or a restore sets and an evaluation reads. *)
Definition fitted_state (self : NDB)
    : option matrix * option (list float) * option nat * stat * stat :=
  (bin_centers self, bin_proportions self, ref_sample_size self,
   training_mean self, training_std self).

(** Python's truth value of an optional string argument: [None] and the
    empty string are false. *)
Definition truthy (s : option string) : bool :=
  match s with
  | None => false
  | Some s => negb (String.eqb s "")
  end.

(** ** The collaborators and the world *)

(** The dictionary that is pickled to the bins file. *)
Record bins_data : Type := BinsData {
  bd_proportions : option (list float);
  bd_centers : option matrix;
  bd_n : option nat;
  bd_mean : stat;
  bd_std : stat
}.

(** A file holds a pickled bins dictionary or something [pickle] rejects. *)
Inductive file : Type :=
  | Pickled (d : bins_data)
  | Unreadable.

Inductive event : Type :=
  | EvKMeans (k : nat) (X : matrix)
  | EvPermutation (d : nat)
  | EvLoad (path : string)
  | EvDump (path : string).

Record world : Type := World {
  files : gmap string file;
  trace : list event
}.

Definition emit (w : world) (e : event) : world :=
  World (files w) (trace w ++ [e]).

Record Env : Type := MkEnv {
  (** [KMeans(n_clusters=k, ...).fit(X).labels_] *)
  kmeans_fit : nat → matrix → result (list nat);
  (** [np.random.permutation(d)] *)
  permutation : nat → list nat;
  (** [np.argsort] of an integer array *)
  np_argsort : list Z → list nat;
  (** [scipy.stats.norm.cdf] *)
  norm_cdf : float → float
}.

(** What numpy promises of [argsort]: the result lists every index once,
    and reading the array in that order gives non-decreasing values. *)
Definition argsort_spec (argsort : list Z → list nat) : Prop :=
  ∀ a : list Z,
    argsort a ≡ₚ seq 0 (length a) ∧
    ∀ (i j u v : nat) (x y : Z), i ≤ j →
      argsort a !! i = Some u → argsort a !! j = Some v →
      a !! u = Some x → a !! v = Some y → (x ≤ y)%Z.

(** ** The methods of the class *)

(** [os.path.isfile] and [pickle.load] *)
Definition isfile (w : world) (path : string) : bool :=
  bool_decide (is_Some (files w !! path)).

Definition pickle_load (w : world) (path : string) : result bins_data :=
  match files w !! path with
  | Some (Pickled d) => Ok d
  | _ => Raise UnpicklingError
  end.

Definition restore (self : NDB) (d : bins_data) : NDB :=
  MkNDB (number_of_bins self) (significance_level self) (whitening self)
        (ndb_eps self) (bd_mean d) (bd_std d) (max_dims self)
        (bd_centers d) (bd_proportions d) (bd_n d) (cached_results self).

(** [NDB.__read_from_bins_file] *)
Definition read_from_bins_file (w : world) (self : NDB)
    (bins_file : option string) : result (bool * NDB * world) :=
  match bins_file with
  | Some path =>
      if truthy bins_file && isfile w path
      then d ← pickle_load w path;
           Ok (true, restore self d, emit w (EvLoad path))
      else Ok (false, self, w)
  | None => Ok (false, self, w)
  end.

(** [NDB.__write_to_bins_file] *)
Definition write_to_bins_file (w : world) (self : NDB)
    (bins_file : option string) : world :=
  match bins_file with
  | Some path =>
      if truthy bins_file
      then World (<[path := Pickled (BinsData (bin_proportions self)
                                              (bin_centers self)
                                              (ref_sample_size self)
                                              (training_mean self)
                                              (training_std self))]>
                    (files w))
                 (trace w ++ [EvDump path])
      else w
  | None => w
  end.

(** [NDB.construct_bins].  The state of the object after a raised exception
    is not tracked. *)
Definition construct_bins (env : Env) (w : world) (self : NDB)
    (training_samples : matrix) (bins_file : option string)
    : result (NDB * world) :=
  '(restored, self, w) ← read_from_bins_file w self bins_file;
  if restored : bool then Ok (self, w) else
  let n := nrows training_samples in
  let d := ncols training_samples in
  let k := number_of_bins self in
  let self :=
    if whitening self
    then set_whitening_stats self
           (Vector (np_mean_axis0 training_samples))
           (Vector (map (λ s, F.add s (ndb_eps self))
                        (np_std_axis0 training_samples)))
    else self in
  let self :=
    match max_dims self with
    | None => if bool_decide (1000 < d) then set_max_dims self (Some (d / 6))
              else self
    | Some _ => self
    end in
  centered ← matrix_op F.sub training_samples (training_mean self);
  whitened_samples ← matrix_op F.div centered (training_std self);
  let d_used :=
    match max_dims self with None => d | Some m => d `min` m end in
  let d_indices := permutation env d in
  let w := emit w (EvPermutation d) in
  _ ← (if decide (k = 0) then Raise ZeroDivisionError else Ok tt);
  X ← take_columns whitened_samples (take d_used d_indices);
  let w := emit w (EvKMeans k X) in
  labels ← kmeans_fit env k X;
  bin_centers ←
    for_each (λ i,
        sel ← mask_index (rows whitened_samples)
                         (map (λ l, bool_decide (l = i)) labels);
        _ ← (if decide (ncols whitened_samples = d) then Ok tt
             else Raise ValueError);
        Ok (np_mean_axis0 (Matrix (ncols whitened_samples) sel)))
      (seq 0 k);
  let unique := np_unique labels in
  let label_vals := unique.1 in
  let label_counts := unique.2 in
  let bin_order :=
    np_argsort env (map (λ c, (- Z.of_nat c)%Z) label_counts) in
  sorted_counts ← take_indices label_counts bin_order;
  let proportions :=
    map (λ c, F.div (F.of_nat c) (F.of_nat (sum_list label_counts)))
        sorted_counts in
  centers ← take_indices bin_centers bin_order;
  let self := set_bins self proportions (Matrix d centers) n in
  Ok (self, write_to_bins_file w self bins_file).

(** [NDB.__init__] *)
Definition NDB_init (env : Env) (w : world) (training_data : option matrix)
    (number_of_bins : nat) (significance_level : float) (whitening : bool)
    (max_dims : option nat) (bins_file : option string)
    : result (NDB * world) :=
  let self :=
    MkNDB number_of_bins significance_level whitening (Fin 1e-6)
          (Scalar (Fin 0)) (Scalar (Fin 1)) max_dims None None None ∅ in
  match training_data with
  | Some X => construct_bins env w self X bins_file
  | None => Ok (self, w)
  end.

(** The rows of [D]: entry [i] of row [r] is the distance of sample [r]
    to center [i]; [D] starts as zeros. *)
Definition distance_rows (n : nat) (cols : list (list float))
    : list (list float) :=
  map (λ r, map (λ col, nth r col F.zero) cols) (seq 0 n).

(** [probs[label_vals] = label_counts / n] on [probs = np.zeros([k])];
    the labels come from [np.argmin] over [k] columns, so that every index
    is in range. *)
Definition scatter_proportions (k n : nat) (label_vals label_counts : list nat)
    : list float :=
  foldl (λ probs vc, <[vc.1 := F.div (F.of_nat vc.2) (F.of_nat n)]> probs)
        (replicate k F.zero) (zip label_vals label_counts).

(** [NDB.__calculate_bin_proportions] *)
Definition calculate_bin_proportions (self : NDB) (samples : matrix)
    : result (list float * list nat) :=
  match bin_centers self with
  | None => Raise AttributeError
  | Some centers =>
      _ ← assert (bool_decide (ncols samples = ncols centers));
      let n := nrows samples in
      let k := nrows centers in
      centered ← matrix_op F.sub samples (training_mean self);
      whitened_samples ← matrix_op F.div centered (training_std self);
      cols ← for_each (λ c,
                 diff ← matrix_op F.sub whitened_samples (Vector c);
                 Ok (np_linalg_norm_axis1 diff))
               (rows centers);
      labels ← np_argmin_axis1 k (distance_rows n cols);
      let unique := np_unique labels in
      let label_vals := unique.1 in
      let label_counts := unique.2 in
      Ok (scatter_proportions k n label_vals label_counts, labels)
  end.

Definition count_nonzero (a : list bool) : nat :=
  length (filter (λ b, b = true) a).

Definition get_attr {A : Type} (o : option A) : result A :=
  match o with
  | Some a => Ok a
  | None => Raise TypeError
  end.

(** [NDB.evaluate] *)
Definition evaluate (env : Env) (self : NDB) (query_samples : matrix)
    (model_label : option string) : result (results * NDB) :=
  let n := nrows query_samples in
  '(query_bin_proportions, query_bin_assignments) ←
    calculate_bin_proportions self query_samples;
  ref_proportions ← get_attr (bin_proportions self);
  ref_n ← get_attr (ref_sample_size self);
  different_bins ←
    two_proportions_z_test (norm_cdf env) ref_proportions ref_n
      query_bin_proportions n (significance_level self);
  let ndb := count_nonzero different_bins in
  js ← jensen_shannon_divergence ref_proportions query_bin_proportions;
  let results :=
    Results ndb js query_bin_proportions n query_bin_assignments
            different_bins in
  match model_label with
  | Some label =>
      if truthy model_label
      then Ok (results,
               set_cached_results self
                 (<[label := results]> (cached_results self)))
      else Ok (results, self)
  | None => Ok (results, self)
  end.

(** ** What the specification says of the primitives *)

(** The terms of the Kullback-Leibler sum: [p_i * log (p_i / q_i)] over the
    indices where [p_i > 0]. *)
Definition kl_terms (p q : list float) : list float :=
  map (λ ab, F.mul ab.1 (F.log (F.div ab.1 ab.2)))
      (filter (λ ab, F.ltb F.zero ab.1 = true) (zip p q)).

(** An entry of [p] or [q] is not finite, or some [p_i] is not zero where
    [q_i] is zero. *)
Definition kl_violation (p q : list float) : Prop :=
  (∃ x, x ∈ p ++ q ∧ F.isfinite x = false) ∨
  (∃ i a b, p !! i = Some a ∧ q !! i = Some b ∧ a ≠ F.zero ∧ b = F.zero).

(** The two-proportion z-test on one pair of proportions, as the
    specification words it. *)
Section ZTestSpec.

Variable Phi : float → float.
Variables (n1 n2 : nat).

Definition pooled_proportion (p1 p2 : float) : float :=
  F.div (F.add (F.mul p1 (F.of_nat n1)) (F.mul p2 (F.of_nat n2)))
        (F.add (F.of_nat n1) (F.of_nat n2)).

Definition standard_error (p1 p2 : float) : float :=
  let p := pooled_proportion p1 p2 in
  F.sqrt (F.mul (F.mul p (F.sub F.one p))
                (F.add (F.div F.one (F.of_nat n1))
                       (F.div F.one (F.of_nat n2)))).

Definition z_score (p1 p2 : float) : float :=
  F.div (F.sub p1 p2) (standard_error p1 p2).

Definition two_tailed_p_value (p1 p2 : float) : float :=
  F.mul (Fin 2) (Phi (F.neg (F.abs (z_score p1 p2)))).

Definition significantly_different (alpha : float) (p1 p2 : float) : bool :=
  F.ltb (two_tailed_p_value p1 p2) alpha.

End ZTestSpec.

(** One sample against the whitening statistics, and its Euclidean
    distance to one center. *)
Definition row_op (f : float → float → float) (x : list float) (s : stat)
    : list float :=
  match s with
  | Scalar a => map (λ t, f t a) x
  | Vector v => zip_broadcast f x v
  end.

Definition whiten (self : NDB) (x : list float) : list float :=
  row_op F.div (row_op F.sub x (training_mean self)) (training_std self).

Definition l2_distance (x c : list float) : float :=
  F.sqrt (np_sum (map (λ t, F.mul t t) (zip_broadcast F.sub x c))).

(** Finite arrays and statistics, and a std that has no zero entry. *)
Definition finite_array (a : list float) : Prop :=
  Forall (λ x, F.isfinite x = true) a.

Definition finite_stat (s : stat) : Prop :=
  match s with
  | Scalar a => F.isfinite a = true
  | Vector v => finite_array v
  end.

Definition nonzero_stat (s : stat) : Prop :=
  match s with
  | Scalar a => a ≠ F.zero
  | Vector v => Forall (λ x, x ≠ F.zero) v
  end.

(** A statistic that broadcasts against rows of [d] columns. *)
Definition stat_fits (d : nat) (s : stat) : Prop :=
  match s with
  | Scalar _ => True
  | Vector v => length v = d
  end.

(** An array of finite, non-negative entries. *)
Definition nonneg_finite (p : list float) : Prop :=
  Forall (λ x, ∃ r : R, x = Fin r ∧ (0 <= r)%R) p.

(** ** Fitting from samples *)

(** A matrix without infinities and NaN. *)
Definition finite_matrix (X : matrix) : Prop :=
  Forall (Forall (λ x, F.isfinite x = true)) (rows X).

(** No readable snapshot is named: [__read_from_bins_file] returns false. *)
Definition no_snapshot (w : world) (bins_file : option string) : Prop :=
  match bins_file with
  | Some path => truthy bins_file && isfile w path = false
  | None => True
  end.

(** The object after the whitening statistics and [max_dims] are set. *)
Definition fit_prepare (self : NDB) (X : matrix) : NDB :=
  let self :=
    if whitening self
    then set_whitening_stats self (Vector (np_mean_axis0 X))
           (Vector (map (λ s, F.add s (ndb_eps self)) (np_std_axis0 X)))
    else self in
  match max_dims self with
  | None => if bool_decide (1000 < ncols X)
            then set_max_dims self (Some (ncols X / 6)) else self
  | Some _ => self
  end.

(** [construct_bins] from the whitening of the samples on, for an object
    whose statistics are set (lemma [construct_bins_fit]). *)
Definition cluster_and_store (env : Env) (w : world) (self : NDB)
    (training_samples : matrix) (bins_file : option string)
    : result (NDB * world) :=
  let n := nrows training_samples in
  let d := ncols training_samples in
  let k := number_of_bins self in
  centered ← matrix_op F.sub training_samples (training_mean self);
  whitened_samples ← matrix_op F.div centered (training_std self);
  let d_used :=
    match max_dims self with None => d | Some m => d `min` m end in
  let d_indices := permutation env d in
  let w := emit w (EvPermutation d) in
  _ ← (if decide (k = 0) then Raise ZeroDivisionError else Ok tt);
  X ← take_columns whitened_samples (take d_used d_indices);
  let w := emit w (EvKMeans k X) in
  labels ← kmeans_fit env k X;
  bin_centers ←
    for_each (λ i,
        sel ← mask_index (rows whitened_samples)
                         (map (λ l, bool_decide (l = i)) labels);
        _ ← (if decide (ncols whitened_samples = d) then Ok tt
             else Raise ValueError);
        Ok (np_mean_axis0 (Matrix (ncols whitened_samples) sel)))
      (seq 0 k);
  let unique := np_unique labels in
  let label_vals := unique.1 in
  let label_counts := unique.2 in
  let bin_order :=
    np_argsort env (map (λ c, (- Z.of_nat c)%Z) label_counts) in
  sorted_counts ← take_indices label_counts bin_order;
  let proportions :=
    map (λ c, F.div (F.of_nat c) (F.of_nat (sum_list label_counts)))
        sorted_counts in
  centers ← take_indices bin_centers bin_order;
  let self := set_bins self proportions (Matrix d centers) n in
  Ok (self, write_to_bins_file w self bins_file).

(** The centers that the loop over the labels computes: the mean of the
    whitened samples of each label. *)
Definition label_means (self : NDB) (X : matrix) (labels : list nat)
    : list (list float) :=
  map (λ i, np_mean_axis0
              (Matrix (ncols X)
                 (select (map (whiten self) (rows X))
                         (map (λ l, bool_decide (l = i)) labels))))
      (seq 0 (number_of_bins self)).

(** The columns on which the samples are clustered, and the matrix that
    K-means is given: those columns of the whitened samples. *)
Definition clustering_columns (env : Env) (self : NDB) (d : nat) : list nat :=
  take (match max_dims self with None => d | Some m => d `min` m end)
       (permutation env d).

Definition kmeans_input (env : Env) (self : NDB) (X : matrix) : matrix :=
  let idx := clustering_columns env self (ncols X) in
  Matrix (length idx)
         (map (λ r, map (λ j, nth j r F.zero) idx)
              (map (whiten self) (rows X))).

(** What [__write_to_bins_file] adds to the trace. *)
Definition dump_events (bins_file : option string) : list event :=
  match bins_file with
  | Some path => if truthy bins_file then [EvDump path] else []
  | None => []
  end.

(** The mean of the whitened samples that carry the label [u]. *)
Definition cluster_mean (self : NDB) (X : matrix) (labels : list nat)
    (u : nat) : list float :=
  np_mean_axis0
    (Matrix (ncols X)
       (select (map (whiten self) (rows X))
               (map (λ l, bool_decide (l = u)) labels))).

(** No cluster is empty: the labels are below [k] and each one occurs. *)
Definition all_clusters_used (k : nat) (labels : list nat) : Prop :=
  Forall (λ l, l < k) labels ∧ ∀ j, j < k → j ∈ labels.

(** The contract of the clustering primitive: on [n] samples it returns
    [n] labels below [k]. *)
Definition kmeans_contract (env : Env) (k n : nat) : Prop :=
  ∀ X, nrows X = n →
    ∃ labels, kmeans_fit env k X = Ok labels ∧
      length labels = n ∧ Forall (λ l, l < k) labels.

(** The contract of the permutation source. *)
Definition permutation_contract (env : Env) (d : nat) : Prop :=
  permutation env d ≡ₚ seq 0 d.

(** What an evaluation returns to its caller: the results, or the
    exception. *)
Definition results_of (r : result (results * NDB)) : result results :=
  match r with
  | Ok (res, _) => Ok res
  | Raise e => Raise e
  end.

(** ** Plotting *)

(** [plot_results] raises what the rest of the class raises, and KeyError
    for a label that is not in the cache. *)
Inductive plot_exn : Type :=
  | Exn (e : exn)
  | KeyError (key : string).

(** The legend entry of a series: 'Train', or the three arguments of the
    format '%s (%i : %.4f)', which are kept as they are. *)
Inductive series_label : Type :=
  | TrainLabel
  | ModelLabel (model : string) (ndb : nat) (js : float).

(** The calls of pyplot that [plot_results] issues, with their arguments;
    the title keeps the argument of its format. *)
Inductive plt_call : Type :=
  | PltBar (x height : list float) (bottom : option (list float))
           (width : float) (label : series_label) (color : option string)
  | PltPlot (x y : list float) (fmt : string) (label : series_label)
  | PltLegend (loc : string)
  | PltYlim (bottom top : float)
  | PltGrid (visible : bool)
  | PltTitle (K : nat)
  | PltShow.

(** A computation that calls pyplot: from the calls issued so far to the
    calls issued at its end, with its value or the exception that ended
    it. *)
Inductive outcome (A : Type) : Type :=
  | Done (a : A)
  | Failed (e : plot_exn).
Arguments Done {A} a.
Arguments Failed {A} e.

Definition plotting (A : Type) : Type :=
  list plt_call → list plt_call * outcome A.

#[global] Instance plotting_ret : MRet plotting := λ A a calls, (calls, Done a).
#[global] Instance plotting_bind : MBind plotting := λ A B f m calls,
  match m calls with
  | (calls', Done a) => f a calls'
  | (calls', Failed e) => (calls', Failed e)
  end.

Definition lift {A : Type} (r : result A) : plotting A := λ calls,
  (calls, match r with Ok a => Done a | Raise e => Failed (Exn e) end).

(** [d[key]] on the cache. *)
Definition dict_get (d : gmap string results) (key : string)
    : plotting results := λ calls,
  (calls, match d !! key with
          | Some r => Done r
          | None => Failed (KeyError key)
          end).

(** [np.max] of a one-dimensional array: a NaN wins, and the empty array
    has no maximum. *)
Definition np_max (a : list float) : result float :=
  match a with
  | [] => Raise ValueError
  | x :: l =>
      Ok (foldl (λ m y, if F.isnan m then m
                        else if F.isnan y then y
                        else if F.ltb m y then y else m) x l)
  end.

(** Python's [max(a, b)] and [min(a, b)]: the second argument is taken
    only when it compares strictly beyond the first. *)
Definition py_max (a b : float) : float := if F.ltb a b then b else a.
Definition py_min (a b : float) : float := if F.ltb b a then b else a.

(** [np.arange(0, K) + c] *)
Definition arange_plus (K : nat) (c : float) : list float :=
  map (λ i, F.add (F.of_nat i) c) (seq 0 K).

(** The order of Python's strings, and [sorted(list(d.keys()))]. *)
Definition string_le (a b : string) : Prop := String.leb a b = true.

#[global] Instance string_le_dec : RelDecision string_le :=
  λ a b, decide (String.leb a b = true).

Definition sorted_keys (d : gmap string results) : list string :=
  merge_sort string_le (map_to_list d).*1.

(** The models to plot: those asked for, or every cached label when the
    argument is None or empty. *)
Definition selected_models (models_to_plot : option (list string))
    (d : gmap string results) : list string :=
  match models_to_plot with
  | Some (m :: ms) => m :: ms
  | _ => sorted_keys d
  end.

(** The local function [calc_se] of [plot_results]. *)
Definition calc_se (p1 : list float) (n1 : nat) (p2 : list float) (n2 : nat)
    : result (list float) :=
  num ← broadcast2 F.add (map (λ x, F.mul x (F.of_nat n1)) p1)
                         (map (λ x, F.mul x (F.of_nat n2)) p2);
  let p := map (λ x, F.div x (F.of_nat (n1 + n2))) num in
  pq ← broadcast2 F.mul p (map (λ x, F.sub F.one x) p);
  r1 ← py_truediv 1 n1;
  r2 ← py_truediv 1 n2;
  Ok (map F.sqrt (map (λ x, F.mul x (F.add r1 r2)) pq)).

Section Plot.

(** pyplot: a call is made after the calls before it, and returns or
    raises. *)
Variable plt : list plt_call → plt_call → result unit.

Definition call (c : plt_call) : plotting unit := λ calls,
  (calls ++ [c], match plt calls c with
                 | Ok _ => Done tt
                 | Raise e => Failed (Exn e)
                 end).

(** The loop over the models: [i] counts them, [ymax] is the largest
    proportion so far. *)
Fixpoint plot_models (self : NDB) (K : nat) (w : float) (i : nat)
    (ymax : float) (models_to_plot : list string) : plotting float :=
  match models_to_plot with
  | [] => mret ymax
  | model :: rest =>
      results ← dict_get (cached_results self) model;
      let label := ModelLabel model (res_NDB results) (res_JS results) in
      top ← lift (np_max (res_Proportions results));
      let ymax := py_max ymax top in
      _ ← (if bool_decide (K ≤ 70)
           then call (PltBar (arange_plus K (F.mul (F.add (F.of_nat i) F.one) w))
                             (res_Proportions results) None w label None)
           else call (PltPlot (arange_plus K (Fin 0.5))
                              (res_Proportions results) "--*" label));
      plot_models self K w (S i) ymax rest
  end.

(** [NDB.plot_results] *)
Definition plot_results (self : NDB) (models_to_plot : option (list string))
    : plotting unit :=
  let K := number_of_bins self in
  let w := F.div F.one (F.of_nat (size (cached_results self) + 1)) in
  bp ← lift (match bin_proportions self with
             | Some bp => Ok bp
             | None => Raise AttributeError
             end);
  _ ← lift (assert (bool_decide (K = length bp)));
  _ ← lift (assert (bool_decide (size (cached_results self) ≠ 0)));
  let models_to_plot :=
    selected_models models_to_plot (cached_results self) in
  first ← lift (match models_to_plot with
                | m :: _ => Ok m
                | [] => Raise IndexError
                end);
  r0 ← dict_get (cached_results self) first;
  n1 ← lift (get_attr (ref_sample_size self));
  train_se ← lift (calc_se bp n1 bp (res_N r0));
  bottom ← lift (broadcast2 F.sub bp train_se);
  _ ← call (PltBar (arange_plus K (Fin 0.5))
                   (map (λ x, F.mul x (Fin 2)) train_se) (Some bottom)
                   (Fin 1) TrainLabel (Some "gray"%string));
  ymax ← plot_models self K w 0 (Fin 0) models_to_plot;
  _ ← call (PltLegend "best");
  top ← lift (np_max bp);
  _ ← call (PltYlim (Fin 0) (py_min ymax (F.mul top (Fin 4))));
  _ ← call (PltGrid true);
  _ ← call (PltTitle K);
  call PltShow.

End Plot.

(** The models whose series a list of calls draws. *)
Definition drawn_models (calls : list plt_call) : list string :=
  omap (λ c, match c with
             | PltBar _ _ _ _ (ModelLabel m _ _) _
             | PltPlot _ _ _ (ModelLabel m _ _) => Some m
             | _ => None
             end) calls.

(** A computation that does not call [plt.show], one that ends in an
    exception before [plt.show] is called, and a pyplot that accepts
    every call. *)
Definition quiet {A : Type} (m : plotting A) : Prop :=
  ∀ h, PltShow ∉ h → PltShow ∉ (m h).1.

Definition stops {A : Type} (m : plotting A) (h : list plt_call) : Prop :=
  ∃ calls e, m h = (calls, Failed e) ∧ PltShow ∉ calls.

Definition accepts (plt : list plt_call → plt_call → result unit) : Prop :=
  ∀ h c, plt h c = Ok tt.

(** The cached results of evaluations: at least one sample, at least
    one bin. *)
Definition results_plottable (self : NDB) : Prop :=
  ∀ l r, cached_results self !! l = Some r →
         res_N r ≠ 0 ∧ res_Proportions r ≠ [].

(** The objects that successful evaluations lead to. *)
Inductive evaluated (env : Env) : NDB → NDB → Prop :=
  | evaluated_refl self : evaluated env self self
  | evaluated_step self s Q label res s' :
      evaluated env self s → evaluate env s Q label = Ok (res, s') →
      evaluated env self s'.

(** ** A small instance of the collaborators

    A stable argsort by merging, a K-means that puts sample [i] in
    cluster [min i (k - 1)], the identity permutation, and a constant in
    place of the normal distribution function.  The properties below hold
    for every environment; this one shows that their hypotheses can be
    met. *)

Definition key_le (x y : Z * nat) : Prop := (x.1 ≤ y.1)%Z.

#[global] Instance key_le_dec : RelDecision key_le :=
  λ x y, decide (x.1 ≤ y.1)%Z.

Definition example_argsort (a : list Z) : list nat :=
  (merge_sort key_le (zip a (seq 0 (length a)))).*2.

Definition example_kmeans (k : nat) (X : matrix) : result (list nat) :=
  Ok (map (λ i, i `min` (k - 1)) (seq 0 (nrows X))).

Definition example_env : Env :=
  MkEnv example_kmeans (λ d, seq 0 d) example_argsort (λ _, Fin 0.5).


Definition empty_world : world := World ∅ [].

(** Three samples for two bins: the example K-means labels them 0, 1, 1. *)
Definition three_samples : matrix := Matrix 1 [[Fin 0]; [Fin 2]; [Fin 4]].

(** A snapshot, and a world in which it is stored. *)
Definition example_bins : bins_data :=
  BinsData (Some [Fin 0.75; Fin 0.25]) (Some (Matrix 1 [[Fin 0]; [Fin 1]]))
           (Some 4) (Scalar (Fin 0)) (Scalar (Fin 1)).

Definition snapshot_world : world :=
  World {[ "bins.pkl"%string := Pickled example_bins ]} [].

(** A fitted object with the centers 0 and 1, and a query whose first
    sample is at the same distance from both. *)
Definition example_fitted : NDB :=
  MkNDB 2 (Fin 0.05) false (Fin 1e-6) (Scalar (Fin 0)) (Scalar (Fin 1)) None
        (Some (Matrix 1 [[Fin 0]; [Fin 1]])) (Some [Fin 0.75; Fin 0.25])
        (Some 4) ∅.

Definition example_query : matrix := Matrix 1 [[Fin 0.5]; [Fin 2]].

(** A K-means outcome with an empty cluster: of three samples two
    coincide, three clusters are asked for, and the labels are 0, 0, 2. *)
Definition duplicate_samples : matrix :=
  Matrix 1 [[Fin 0]; [Fin 0]; [Fin 3]].

Definition skipping_env : Env :=
  MkEnv (λ _ _, Ok [0; 0; 2]) (λ d, seq 0 d) example_argsort (λ _, Fin 0.5).

(** The fitted object with a cached result under the label 'Good'. *)
Definition example_cached : NDB :=
  set_cached_results example_fitted
    {[ "Good"%string := Results 0 (Fin 0) [Fin 0.5; Fin 0.5] 2 [0; 1]
                                [false; false] ]}.

(** A pyplot that accepts every call. *)
Definition accepting_plt (calls : list plt_call) (c : plt_call)
    : result unit := Ok tt.

(** * Properties *)

(** ** [np.unique] *)

Lemma count_pos (v : nat) (labels : list nat) :
  v ∈ labels → 1 ≤ count v labels.
Proof.
  intros Hv. unfold count.
  assert (Hin : v ∈ filter (λ x, x = v) labels)
    by (by apply list_elem_of_filter).
  destruct (filter _ labels); [by apply not_elem_of_nil in Hin | simpl; lia].
Qed.

Lemma unique_counts_pos (labels : list nat) :
  Forall (λ c, 1 ≤ c) (np_unique labels).2.
Proof.
  unfold np_unique. simpl. apply Forall_map, Forall_forall.
  intros v Hv. apply list_elem_of_filter in Hv as [Hv _].
  by apply count_pos.
Qed.

Lemma unique_length_le (labels : list nat) (k : nat) :
  Forall (λ l, l < k) labels → length (np_unique labels).2 ≤ k.
Proof.
  intros Hlt. unfold np_unique. simpl. rewrite length_map.
  transitivity (length (seq 0 k)); [|by rewrite length_seq].
  apply submseteq_length, NoDup_submseteq.
  - apply NoDup_filter. change (NoDup (seq 0 (S (max_list labels)))).
    apply NoDup_seq.
  - intros v Hv. apply list_elem_of_filter in Hv as [Hv _].
    rewrite Forall_forall in Hlt. apply Hlt in Hv.
    apply elem_of_seq. lia.
Qed.

Lemma unique_counts_nonempty (labels : list nat) :
  labels ≠ [] → (np_unique labels).2 ≠ [].
Proof.
  destruct labels as [|x labels]; [done|]. intros _.
  unfold np_unique. cbn [snd].
  assert (Hx : x ∈ filter (λ v, v ∈ x :: labels)
                     (seq 0 (S (max_list (x :: labels))))).
  { apply list_elem_of_filter. split; [left|].
    apply elem_of_seq. simpl. lia. }
  intros Hnil. apply fmap_nil_inv in Hnil. rewrite Hnil in Hx.
  by apply not_elem_of_nil in Hx.
Qed.

Lemma np_unique_values (labels : list nat) :
  (np_unique labels).1
  = filter (λ v, v ∈ labels) (seq 0 (S (max_list labels))).
Proof. reflexivity. Qed.

Lemma np_unique_counts (labels : list nat) :
  (np_unique labels).2 = map (λ v, count v labels) (np_unique labels).1.
Proof. reflexivity. Qed.

Lemma elem_of_unique_values (labels : list nat) (v : nat) :
  v ∈ (np_unique labels).1 ↔ v ∈ labels.
Proof.
  rewrite np_unique_values, list_elem_of_filter, elem_of_seq. split.
  - by intros [? _].
  - intros Hv. split; [done|].
    pose proof (max_list_elem_of_le _ _ Hv). lia.
Qed.

Opaque np_unique.

(** ** Floats, broadcasting and masks *)

Arguments F.add : simpl never.
Arguments F.sub : simpl never.
Arguments F.mul : simpl never.
Arguments F.div : simpl never.
Arguments F.sqrt : simpl never.
Arguments F.log : simpl never.
Arguments F.abs : simpl never.
Arguments F.eqb : simpl never.
Arguments F.neqb : simpl never.
Arguments F.ltb : simpl never.
Arguments F.leb : simpl never.

Lemma eqb_zero (x : float) : F.eqb x F.zero = true ↔ x = F.zero.
Proof.
  unfold F.zero, F.eqb. destruct x; try (split; congruence).
  rewrite bool_decide_eq_true. split; congruence.
Qed.

Lemma add_comm (a b : float) : F.add a b = F.add b a.
Proof. destruct a, b; unfold F.add; try reflexivity. f_equal. lra. Qed.

Lemma np_all_Forall {A : Type} (f : A → bool) (l : list A) :
  np_all (map f l) = true ↔ Forall (λ x, f x = true) l.
Proof.
  induction l as [|x l IH]; simpl.
  - split; [constructor | reflexivity].
  - rewrite andb_true_iff, Forall_cons. unfold np_all in IH. tauto.
Qed.

Lemma broadcast2_same {A B C : Type} (f : A → B → C) a b :
  length a = length b → broadcast2 f a b = Ok (zip_with f a b).
Proof.
  intros H. unfold broadcast2, broadcast_shape, zip_broadcast.
  rewrite !decide_True by done. reflexivity.
Qed.

Lemma mask_index_same {A : Type} (a : list A) (mask : list bool) :
  length mask = length a → mask_index a mask = Ok (select a mask).
Proof. intros H. unfold mask_index. by rewrite decide_True. Qed.

Lemma select_length {A B : Type} (a : list A) (b : list B) mask :
  length a = length b → length (select a mask) = length (select b mask).
Proof.
  revert b mask. induction a as [|x a IH]; intros [|y b] [|m mask] H;
    simpl in *; try done.
  destruct m; simpl; auto.
Qed.

Lemma np_any_bad (p q : list float) :
  length p = length q →
  np_any (zip_with andb (map (λ x, F.neqb x F.zero) p)
                        (map (λ x, F.eqb x F.zero) q)) = true ↔
  ∃ i a b, p !! i = Some a ∧ q !! i = Some b ∧ a ≠ F.zero ∧ b = F.zero.
Proof.
  revert q. induction p as [|a p IH]; intros [|b q] Hlen; simpl in *;
    try done.
  - split; [done | intros (i & a & b & H & _); done].
  - rewrite orb_true_iff, IH by lia. split.
    + intros [H | (i & a' & b' & H)].
      * apply andb_true_iff in H as [Ha Hb]. exists 0, a, b.
        apply eqb_zero in Hb. unfold F.neqb in Ha.
        apply negb_true_iff in Ha. repeat split; try done.
        intros ->. by rewrite (proj2 (eqb_zero _)) in Ha.
      * exists (S i), a', b'. done.
    + intros ([|i] & a' & b' & Ha & Hb & Hn & Hz); simpl in *.
      * left. simplify_eq. apply andb_true_iff. split.
        -- unfold F.neqb. apply negb_true_iff.
           destruct (F.eqb a' F.zero) eqn:E; [|done].
           by apply eqb_zero in E.
        -- by apply eqb_zero.
      * right. eauto 10.
Qed.

Lemma kl_terms_select (p q : list float) :
  length p = length q →
  let p_pos := map (λ x, F.ltb F.zero x) p in
  zip_with F.mul (select p p_pos)
    (map F.log (zip_with F.div (select p p_pos) (select q p_pos)))
  = kl_terms p q.
Proof.
  unfold kl_terms. revert q.
  induction p as [|a p IH]; intros [|b q] Hlen; simpl in *; try done.
  rewrite filter_cons. simpl.
  destruct (F.ltb F.zero a) eqn:E; simpl.
  - f_equal. apply IH. lia.
  - apply IH. lia.
Qed.

Lemma kl_divergence_ok (p q : list float) :
  length p = length q → ¬ kl_violation p q →
  kl_divergence p q = Ok (np_sum (kl_terms p q)).
Proof.
  intros Hlen Hv. unfold kl_divergence.
  assert (Hp : np_all (map F.isfinite p) = true).
  { apply np_all_Forall, Forall_forall. intros x Hx.
    destruct (F.isfinite x) eqn:E; [done|]. exfalso. apply Hv. left.
    exists x. split; [set_solver | done]. }
  assert (Hq : np_all (map F.isfinite q) = true).
  { apply np_all_Forall, Forall_forall. intros x Hx.
    destruct (F.isfinite x) eqn:E; [done|]. exfalso. apply Hv. left.
    exists x. split; [set_solver | done]. }
  rewrite Hp, Hq. simpl.
  rewrite broadcast2_same by (by rewrite !length_map). simpl.
  destruct (np_any _) eqn:E.
  { exfalso. apply Hv. right. by apply np_any_bad. }
  simpl. rewrite !mask_index_same by (by rewrite length_map). simpl.
  rewrite broadcast2_same by (by apply select_length). simpl.
  rewrite broadcast2_same.
  2:{ rewrite length_map, length_zip_with.
      rewrite <- (select_length p q) by done. lia. }
  simpl. by rewrite kl_terms_select.
Qed.

Lemma kl_divergence_raises (p q : list float) :
  length p = length q → kl_violation p q →
  kl_divergence p q = Raise AssertionError.
Proof.
  intros Hlen Hv. unfold kl_divergence.
  destruct (np_all (map F.isfinite p)) eqn:Hp; [|done].
  destruct (np_all (map F.isfinite q)) eqn:Hq; [|done].
  simpl. rewrite broadcast2_same by (by rewrite !length_map). simpl.
  destruct Hv as [(x & Hx & Hfin) | Hbad].
  - exfalso. apply np_all_Forall in Hp, Hq.
    rewrite Forall_forall in Hp, Hq.
    apply elem_of_app in Hx as [Hx | Hx];
      [apply Hp in Hx | apply Hq in Hx]; congruence.
  - apply np_any_bad in Hbad; [|done]. by rewrite Hbad.
Qed.



(** ** Jensen-Shannon divergence *)

Lemma zip_with_add_comm (p q : list float) :
  zip_with F.add p q = zip_with F.add q p.
Proof.
  revert q. induction p as [|a p IH]; intros [|b q]; simpl; try done.
  by rewrite add_comm, IH.
Qed.

Lemma kl_divergence_outcome (p q : list float) :
  length p = length q →
  (∃ v, kl_divergence p q = Ok v) ∨ kl_divergence p q = Raise AssertionError.
Proof.
  intros Hlen. destruct (Classical_Prop.classic (kl_violation p q)) as [H|H].
  - right. by apply kl_divergence_raises.
  - left. eexists. by apply kl_divergence_ok.
Qed.

Lemma mean_lookup (p q : list float) i b :
  map (λ x, F.mul x (Fin 0.5)) (zip_with F.add p q) !! i = Some b →
  ∃ a c, p !! i = Some a ∧ q !! i = Some c ∧
         b = F.mul (F.add a c) (Fin 0.5).
Proof.
  rewrite list_lookup_fmap, lookup_zip_with.
  destruct (p !! i) as [a|]; simpl; [|done].
  destruct (q !! i) as [c|]; simpl; [|done].
  intros [= <-]. eauto.
Qed.

Lemma kl_against_mean_valid (p q : list float) :
  length p = length q → nonneg_finite p → nonneg_finite q →
  ¬ kl_violation p (map (λ x, F.mul x (Fin 0.5)) (zip_with F.add p q)).
Proof.
  intros Hlen Hp Hq. unfold nonneg_finite in *.
  rewrite Forall_lookup in Hp, Hq.
  intros [(x & Hx & Hfin) | (i & a & b & Ha & Hb & Hn & Hz)].
  - apply elem_of_app in Hx as [Hx | Hx];
      apply list_elem_of_lookup in Hx as [i Hi].
    + destruct (Hp _ _ Hi) as (r & -> & _). done.
    + apply mean_lookup in Hi as (a & c & Ha & Hc & ->).
      destruct (Hp _ _ Ha) as (ra & -> & _).
      destruct (Hq _ _ Hc) as (rc & -> & _). by unfold F.add, F.mul in Hfin.
  - apply mean_lookup in Hb as (a' & c & Ha' & Hc & ->).
    simplify_eq. destruct (Hp _ _ Ha) as (ra & -> & Hra).
    destruct (Hq _ _ Hc) as (rc & -> & Hrc).
    unfold F.add, F.mul, F.zero in *. simplify_eq.
    apply Hn. f_equal. lra.
Qed.

(** On finite, non-negative arrays of equal length the divergence is
    defined: no assertion of [kl_divergence] fails. *)
Lemma jensen_shannon_divergence_returns (p q : list float) :
  length p = length q → nonneg_finite p → nonneg_finite q →
  ∃ v, jensen_shannon_divergence p q = Ok v.
Proof.
  intros Hlen Hp Hq. unfold jensen_shannon_divergence.
  rewrite broadcast2_same by done. simpl.
  assert (Hlm : length p = length (map (λ x, F.mul x (Fin 0.5))
                                       (zip_with F.add p q))).
  { rewrite length_map, length_zip_with. lia. }
  rewrite (kl_divergence_ok p);
    [simpl | done | by apply kl_against_mean_valid].
  rewrite (kl_divergence_ok q); [simpl; eauto | lia |].
  rewrite zip_with_add_comm. apply kl_against_mean_valid; [lia | done..].
Qed.

(** C7.  [jensen_shannon_divergence] is symmetric on arrays of equal
    length: the two calls return the same value, or both raise the same
    exception when the preconditions of [kl_divergence] fail. *)
Theorem jensen_shannon_divergence_sym (p q : list float) :
  length p = length q →
  jensen_shannon_divergence p q = jensen_shannon_divergence q p.
Proof.
  intros Hlen. unfold jensen_shannon_divergence.
  rewrite !broadcast2_same by done. simpl.
  rewrite (zip_with_add_comm q p).
  set (m := map _ (zip_with F.add p q)).
  assert (Hm : length m = length p).
  { unfold m. rewrite length_map, length_zip_with. lia. }
  destruct (kl_divergence_outcome p m) as [[a ->] | ->]; [lia| |];
    (destruct (kl_divergence_outcome q m) as [[b ->] | ->]; [lia| |]);
    simpl; try reflexivity.
  by rewrite add_comm.
Qed.

Lemma jensen_shannon_divergence_sym_witness :
  let p := [Fin 0.5; Fin 0.5; Fin 0] in
  let q := [Fin 0.25; Fin 0; Fin 0.75] in
  length p = length q ∧
  jensen_shannon_divergence p q = jensen_shannon_divergence q p.
Proof.
  split; [reflexivity|].
  apply (jensen_shannon_divergence_sym [Fin 0.5; Fin 0.5; Fin 0]
                                       [Fin 0.25; Fin 0; Fin 0.75]).
  reflexivity.
Defined.

(** ** The two-proportion z-test *)

Lemma mul_minus_one (x : float) : F.mul (Fin (-1)) x = F.neg x.
Proof.
  unfold F.mul, F.neg, F.signed_inf. destruct x; trivial.
  - f_equal. lra.
  - rewrite bool_decide_eq_false_2, bool_decide_eq_true_2 by lra. done.
  - rewrite bool_decide_eq_false_2, bool_decide_eq_true_2 by lra. done.
Qed.

Lemma py_truediv_one (n : nat) :
  n ≠ 0 → py_truediv 1 n = Ok (F.div F.one (F.of_nat n)).
Proof.
  intros Hn. unfold py_truediv, F.div, F.one, F.of_nat.
  rewrite decide_False by done.
  rewrite bool_decide_eq_false_2 by (by apply not_0_INR). done.
Qed.

Lemma of_nat_add (n m : nat) :
  F.of_nat (n + m) = F.add (F.of_nat n) (F.of_nat m).
Proof. unfold F.of_nat, F.add. by rewrite plus_INR. Qed.

Lemma z_test_elementwise (Phi : float → float)
    (p1 p2 : list float) (n1 n2 : nat) (alpha : float) :
  length p1 = length p2 → n1 ≠ 0 → n2 ≠ 0 →
  two_proportions_z_test Phi p1 n1 p2 n2 alpha
  = Ok (zip_with (significantly_different Phi n1 n2 alpha) p1 p2).
Proof.
  intros Hlen Hn1 Hn2. unfold two_proportions_z_test.
  rewrite (broadcast2_same F.add) by (by rewrite !length_map). simpl.
  rewrite (broadcast2_same F.mul) by (by rewrite !length_map). simpl.
  rewrite !py_truediv_one by done. simpl.
  rewrite (broadcast2_same F.sub) by done. simpl.
  rewrite (broadcast2_same F.div).
  2:{ repeat (rewrite ?length_map, ?length_zip_with). lia. }
  simpl. f_equal. clear Hn1 Hn2. revert p2 Hlen.
  induction p1 as [|a p1 IH]; intros [|b p2] Hlen; simpl in *; try done.
  f_equal; [|apply IH; lia].
  unfold significantly_different, two_tailed_p_value, z_score,
    standard_error, pooled_proportion.
  by rewrite mul_minus_one, of_nat_add.
Qed.

(** C6.  On proportion arrays of equal length and non-zero sample sizes,
    [two_proportions_z_test] returns, element by element, whether the
    two-tailed p-value [2 * Phi (- |z|)] is below the significance level,
    where [z = (p1 - p2) / se], [se = sqrt (p (1 - p) (1/n1 + 1/n2))] and
    [p = (p1 n1 + p2 n2) / (n1 + n2)]. *)
Theorem two_proportions_z_test_spec (Phi : float → float)
    (p1 p2 : list float) (n1 n2 : nat) (alpha : float) :
  length p1 = length p2 → n1 ≠ 0 → n2 ≠ 0 →
  two_proportions_z_test Phi p1 n1 p2 n2 alpha
  = Ok (zip_with (significantly_different Phi n1 n2 alpha) p1 p2).
Proof. apply z_test_elementwise. Qed.

(** ** The effect of [evaluate] on the object *)

(** Case analysis on the first computation of a sequence that returned. *)
Tactic Notation "ok_bind" hyp(H) :=
  match type of H with
  | (mbind _ ?m) = Ok _ =>
      let E := fresh "E" in
      destruct m eqn:E; simpl in H; [|discriminate H]
  end.

Tactic Notation "ok_bind" hyp(H) "as" simple_intropattern(a) ident(E) :=
  match type of H with
  | (mbind _ ?m) = Ok _ =>
      destruct m as [a|] eqn:E; simpl in H; [|discriminate H]
  end.

Lemma evaluate_outcome env self X label r self' :
  evaluate env self X label = Ok (r, self') →
  self' = if truthy label
          then set_cached_results self
                 (<[default ""%string label := r]> (cached_results self))
          else self.
Proof.
  unfold evaluate. intros H.
  ok_bind H. destruct a as [qp qa]. do 4 ok_bind H.
  destruct label as [l|]; [|by simplify_eq].
  destruct (truthy (Some l)); by simplify_eq.
Qed.

Lemma evaluate_empty_label env self X :
  evaluate env self X (Some ""%string) = evaluate env self X None.
Proof. reflexivity. Qed.

(** C10.  An evaluation with the empty string as label behaves as one
    without a label: when it returns, the object, and so its results
    cache, is the one before the call, and the results are those of the
    call without a label. *)
Theorem evaluate_empty_label_not_cached env self X r self' :
  evaluate env self X (Some ""%string) = Ok (r, self') →
  self' = self ∧
  cached_results self' = cached_results self ∧
  evaluate env self X None = Ok (r, self).
Proof.
  intros H. pose proof (evaluate_outcome _ _ _ _ _ _ H) as Hs.
  simpl in Hs. subst self'. rewrite <- evaluate_empty_label. done.
Qed.

(** C9 (amended).  When [evaluate] returns, every attribute of the object
    other than the results cache is unchanged, in particular the fitted
    state; the cache is changed exactly when the label is a non-empty
    string, and then the results are stored under the label, replacing an
    earlier entry; with no label or the empty label the object is the one
    before the call. *)
Theorem evaluate_frame env self X label r self' :
  evaluate env self X label = Ok (r, self') →
  self' = set_cached_results self (cached_results self') ∧
  fitted_state self' = fitted_state self ∧
  match label with
  | Some l =>
      if decide (l = ""%string) then self' = self
      else cached_results self' = <[l := r]> (cached_results self)
  | None => self' = self
  end.
Proof.
  intros H. apply evaluate_outcome in H. subst self'.
  destruct label as [l|]; simpl.
  - destruct (decide (l = ""%string)) as [->|Hne]; simpl.
    + by destruct self.
    + replace (String.eqb l "") with false; simpl; [done|].
      symmetry. by apply String.eqb_neq.
  - by destruct self.
Qed.

(** ** Bin assignment *)

Lemma matrix_op_inv f m s M :
  matrix_op f m s = Ok M → rows M = map (λ r, row_op f r s) (rows m).
Proof.
  destruct s as [x|v]; simpl.
  - by intros [= <-].
  - intros H. ok_bind H. by simplify_eq.
Qed.

Lemma matrix_op_fits f m s :
  stat_fits (ncols m) s →
  matrix_op f m s
  = Ok (Matrix (ncols m) (map (λ r, row_op f r s) (rows m))).
Proof.
  destruct s as [x|v]; simpl; [done|]. intros ->.
  unfold broadcast_shape. by rewrite decide_True.
Qed.

Arguments matrix_op : simpl never.

Lemma for_each_inv_map {A B : Type} (f : A → result B) (g : A → B) l ys :
  (∀ x y, f x = Ok y → y = g x) → for_each f l = Ok ys → ys = map g l.
Proof.
  intros Hf. revert ys. induction l as [|x l IH]; simpl; intros ys H.
  - by simplify_eq.
  - ok_bind H. ok_bind H. simplify_eq. f_equal; auto.
Qed.

Lemma for_each_ok {A B : Type} (f : A → result B) (g : A → B) l :
  Forall (λ x, f x = Ok (g x)) l → for_each f l = Ok (map g l).
Proof.
  induction 1 as [|x l Hx _ IH]; simpl; [done|]. by rewrite Hx, IH.
Qed.

Lemma map_nth_seq {A B : Type} (g : A → B) (l : list A) (d : A) :
  map (λ r, g (nth r l d)) (seq 0 (length l)) = map g l.
Proof.
  induction l as [|x l IH] using rev_ind; [done|].
  rewrite length_app. simpl. rewrite Nat.add_1_r.
  rewrite seq_S, !map_app. simpl. f_equal.
  - rewrite <- IH. apply map_ext_in. intros r Hr.
    apply in_seq in Hr. by rewrite app_nth1 by lia.
  - by rewrite app_nth2, Nat.sub_diag by lia.
Qed.

Lemma distance_rows_eq (W : list (list float)) (centers : list (list float)) :
  distance_rows (length W)
    (map (λ c, map (λ w, l2_distance w c) W) centers)
  = map (λ w, map (l2_distance w) centers) W.
Proof.
  unfold distance_rows. rewrite <- (map_nth_seq _ W []).
  apply map_ext_in. intros r Hr. apply in_seq in Hr.
  rewrite map_map. apply map_ext. intros c.
  rewrite <- (map_nth_seq (λ w, l2_distance w c) W []).
  rewrite (nth_indep _ F.zero (l2_distance (nth r W []) c))
    by (rewrite length_map, length_seq; lia).
  rewrite (map_nth (λ r, l2_distance (nth r W []) c)).
  by rewrite seq_nth by lia.
Qed.

(** The labels that [__calculate_bin_proportions] computes. *)
Lemma calculate_bin_proportions_inv self X probs labels :
  calculate_bin_proportions self X = Ok (probs, labels) →
  ∃ centers, bin_centers self = Some centers ∧
    ncols X = ncols centers ∧ nrows centers ≠ 0 ∧
    labels = map (λ x, np_argmin (map (l2_distance (whiten self x))
                                      (rows centers))) (rows X) ∧
    probs = scatter_proportions (nrows centers) (nrows X)
              (np_unique labels).1 (np_unique labels).2.
Proof.
  unfold calculate_bin_proportions. intros H.
  destruct (bin_centers self) as [centers|]; [|done].
  exists centers. split; [done|].
  ok_bind H as [] Ea. unfold assert in Ea. case_bool_decide; [|done].
  ok_bind H as centered Ec.
  ok_bind H as W Ew.
  ok_bind H as cols Ecols.
  ok_bind H as lbls El.
  apply matrix_op_inv in Ec, Ew.
  apply (for_each_inv_map _
           (λ c, map (λ w, l2_distance w c) (rows W))) in Ecols.
  2:{ intros c y Hy. ok_bind Hy as diff Ed. simplify_eq.
      apply (matrix_op_inv F.sub W (Vector c)) in Ed.
      unfold np_linalg_norm_axis1.
      rewrite Ed, map_map. done. }
  assert (Hn : nrows X = length (rows W)).
  { rewrite Ew, Ec, !length_map. done. }
  unfold np_argmin_axis1 in El. case_decide; [done|].
  subst cols. rewrite Hn, distance_rows_eq in El.
  rewrite Ew, Ec, !map_map in El. injection El as <-.
  by injection H as <- <-.
Qed.

(** The order on floats that are not NaN. *)
Ltac float_cases :=
  unfold F.leb, F.ltb, F.isnan in *;
  repeat match goal with
         | x : float |- _ => destruct x
         end;
  repeat match goal with
         | H : bool_decide _ = true |- _ => apply bool_decide_eq_true in H
         | H : bool_decide _ = false |- _ => apply bool_decide_eq_false in H
         end;
  try done;
  rewrite ?bool_decide_eq_true, ?bool_decide_eq_false; try lra.

Lemma leb_refl a : F.isnan a = false → F.leb a a = true.
Proof. intros. float_cases. Qed.

Lemma leb_total a b :
  F.isnan a = false → F.isnan b = false →
  F.leb a b = false → F.ltb b a = true.
Proof. intros. float_cases. Qed.

Lemma ltb_leb a b : F.ltb a b = true → F.leb a b = true.
Proof. intros. float_cases. Qed.

Lemma ltb_trans a b c :
  F.ltb a b = true → F.ltb b c = true → F.ltb a c = true.
Proof. intros. float_cases. Qed.

Lemma ltb_leb_trans a b c :
  F.ltb a b = true → F.leb b c = true → F.ltb a c = true.
Proof. intros. float_cases. Qed.

Lemma leb_trans a b c :
  F.leb a b = true → F.leb b c = true → F.leb a c = true.
Proof. intros. float_cases. Qed.

Lemma argmin_scan_spec (l : list float) (mp : float) (min_ind i : nat) :
  F.isnan mp = false → Forall (λ y, F.isnan y = false) l →
  let j := argmin_scan mp min_ind i l in
  (j = min_ind ∧ ∀ t y, l !! t = Some y → F.leb mp y = true) ∨
  (∃ t x, j = i + t ∧ l !! t = Some x ∧ F.ltb x mp = true ∧
     ∀ t' y, l !! t' = Some y →
       F.leb x y = true ∧ (t' < t → F.ltb x y = true)).
Proof.
  revert mp min_ind i.
  induction l as [|x l IH]; intros mp min_ind i Hmp Hl; simpl.
  { left. split; [done|]. intros t y Ht. done. }
  apply Forall_cons in Hl as [Hx Hl].
  destruct (F.leb mp x) eqn:Hle; simpl.
  - destruct (IH mp min_ind (S i) Hmp Hl) as [[Hj Hall] | (t & x' & Hj & Ht & Hlt & Hall)].
    + left. split; [done|]. intros [|t] y Hy; simpl in Hy; [by simplify_eq|].
      eauto.
    + right. exists (S t), x'. split; [lia|]. split; [done|]. split; [done|].
      intros [|t'] y Hy; simpl in Hy.
      * simplify_eq.
        assert (F.ltb x' y = true) by eauto using ltb_leb_trans.
        split; [by apply ltb_leb | done].
      * destruct (Hall _ _ Hy) as [H1 H2]. split; [done|].
        intros. apply H2. lia.
  - rewrite Hx.
    assert (Hxmp : F.ltb x mp = true) by (by apply leb_total).
    destruct (IH x i (S i) Hx Hl) as [[Hj Hall] | (t & x' & Hj & Ht & Hlt & Hall)].
    + right. exists 0, x. split; [lia|]. split; [done|]. split; [done|].
      intros [|t'] y Hy; simpl in Hy.
      * simplify_eq. split; [by apply leb_refl | lia].
      * split; [eauto | lia].
    + right. exists (S t), x'. split; [lia|]. split; [done|].
      split; [eauto using ltb_trans|].
      intros [|t'] y Hy; simpl in Hy.
      * simplify_eq. split; [by apply ltb_leb | done].
      * destruct (Hall _ _ Hy) as [H1 H2]. split; [done|].
        intros. apply H2. lia.
Qed.

(** [np.argmin] on a non-empty row without NaN: the first index of a
    least element. *)
Lemma np_argmin_spec (l : list float) :
  l ≠ [] → Forall (λ y, F.isnan y = false) l →
  ∃ x, l !! np_argmin l = Some x ∧
    ∀ i y, l !! i = Some y →
      F.leb x y = true ∧ (i < np_argmin l → F.ltb x y = true).
Proof.
  destruct l as [|x0 l]; [done|]. intros _ Hl.
  apply Forall_cons in Hl as [Hx0 Hl]. simpl. rewrite Hx0.
  destruct (argmin_scan_spec l x0 0 1 Hx0 Hl)
    as [[Hj Hall] | (t & x & Hj & Ht & Hlt & Hall)]; simpl in *.
  - rewrite Hj. exists x0. split; [done|].
    intros [|i] y Hy; simpl in Hy.
    + simplify_eq. split; [by apply leb_refl | lia].
    + split; [eauto | lia].
  - rewrite Hj. exists x. split; [done|].
    intros [|i] y Hy; simpl in Hy.
    + simplify_eq. split; [by apply ltb_leb | done].
    + destruct (Hall _ _ Hy) as [H1 H2]. split; [done|].
      intros. apply H2. lia.
Qed.

Lemma evaluate_inv env self X label res self' :
  evaluate env self X label = Ok (res, self') →
  calculate_bin_proportions self X
  = Ok (res_Proportions res, res_Bin_Assignment res) ∧
  res_N res = nrows X.
Proof.
  unfold evaluate. intros H.
  ok_bind H as [qp qa] Ec. ok_bind H as ps Ep. ok_bind H as nref En.
  ok_bind H as db Ed. ok_bind H as js Ej.
  destruct label as [l|]; [destruct (truthy (Some l))|];
    simplify_eq; simpl; by split.
Qed.

Lemma nearest_center self X probs labels centers r x :
  calculate_bin_proportions self X = Ok (probs, labels) →
  bin_centers self = Some centers →
  rows X !! r = Some x →
  Forall (λ c, F.isnan (l2_distance (whiten self x) c) = false)
         (rows centers) →
  ∃ j cj, labels !! r = Some j ∧ rows centers !! j = Some cj ∧
    ∀ j' c', rows centers !! j' = Some c' →
      F.leb (l2_distance (whiten self x) cj)
            (l2_distance (whiten self x) c') = true ∧
      (j' < j → F.ltb (l2_distance (whiten self x) cj)
                      (l2_distance (whiten self x) c') = true).
Proof.
  intros H Hc Hx Hnan.
  apply calculate_bin_proportions_inv in H
    as (centers' & Hc' & _ & Hk & -> & _).
  simplify_eq. set (D := map (l2_distance (whiten self x)) (rows centers')).
  destruct (np_argmin_spec D) as (d & Hd & Hmin).
  { unfold D. intros HD. apply (f_equal length) in HD.
    rewrite length_map in HD. by apply Hk. }
  { unfold D. by apply Forall_map. }
  apply (list_lookup_fmap_Some_1 (l2_distance (whiten self x)))
    in Hd as (cj & -> & Hcj).
  exists (np_argmin D), cj. split.
  { by apply (list_lookup_fmap_Some_2
                (λ x, np_argmin (map (l2_distance (whiten self x))
                                     (rows centers')))). }
  split; [done|]. intros j' c' Hj'. apply Hmin.
  by apply (list_lookup_fmap_Some_2 (l2_distance (whiten self x))).
Qed.


(** ** When an evaluation returns *)

Lemma div_of_nat (c n : nat) :
  n ≠ 0 → ∃ r : R, F.div (F.of_nat c) (F.of_nat n) = Fin r ∧ (0 <= r)%R.
Proof.
  intros Hn. exists (INR c / INR n)%R. unfold F.div, F.of_nat.
  rewrite bool_decide_eq_false_2 by (by apply not_0_INR). split; [done|].
  assert (0 <= INR c)%R by apply pos_INR.
  assert (0 < INR n)%R by (apply lt_0_INR; lia).
  apply Rmult_le_pos; [done|]. left. by apply Rinv_0_lt_compat.
Qed.

Lemma scatter_proportions_length k n vals counts :
  length (scatter_proportions k n vals counts) = k.
Proof.
  unfold scatter_proportions.
  rewrite <- (length_replicate k F.zero) at 2.
  generalize (replicate k F.zero). generalize (zip vals counts).
  induction l as [|vc l IH]; intros acc; simpl; [done|].
  by rewrite IH, length_insert.
Qed.

Lemma scatter_proportions_nonneg k n vals counts :
  n ≠ 0 → nonneg_finite (scatter_proportions k n vals counts).
Proof.
  intros Hn. unfold scatter_proportions.
  assert (H0 : nonneg_finite (replicate k F.zero)).
  { apply Forall_replicate. exists 0%R. split; [done | lra]. }
  revert H0. generalize (replicate k F.zero). generalize (zip vals counts).
  induction l as [|vc l IH]; intros acc Hacc; simpl; [done|].
  apply IH. apply Forall_insert; [done|]. by apply div_of_nat.
Qed.

Lemma calculate_bin_proportions_returns self X centers :
  bin_centers self = Some centers → wf_matrix centers →
  nrows centers ≠ 0 → ncols X = ncols centers →
  stat_fits (ncols X) (training_mean self) →
  stat_fits (ncols X) (training_std self) →
  ∃ labels,
    calculate_bin_proportions self X
    = Ok (scatter_proportions (nrows centers) (nrows X)
            (np_unique labels).1 (np_unique labels).2, labels).
Proof.
  intros Hc Hwf Hk Hd Hm Hs. unfold calculate_bin_proportions.
  rewrite Hc. unfold assert. rewrite bool_decide_eq_true_2 by done. simpl.
  rewrite matrix_op_fits by done. simpl.
  rewrite matrix_op_fits by done. simpl.
  erewrite (for_each_ok _ (λ c, np_linalg_norm_axis1 (Matrix _ _))).
  2:{ eapply Forall_impl; [exact Hwf|]. intros c Hlen. simpl in Hlen.
      rewrite matrix_op_fits by (simpl; congruence). simpl. reflexivity. }
  simpl. unfold np_argmin_axis1. rewrite decide_False by done. simpl.
  eauto.
Qed.

Arguments jensen_shannon_divergence : simpl never.
Arguments scatter_proportions : simpl never.

(** A fitted object evaluates a non-empty query of the right width. *)
Lemma evaluate_returns env self X label centers ps nref :
  bin_centers self = Some centers → wf_matrix centers →
  nrows centers ≠ 0 → ncols X = ncols centers →
  stat_fits (ncols X) (training_mean self) →
  stat_fits (ncols X) (training_std self) →
  bin_proportions self = Some ps → length ps = nrows centers →
  nonneg_finite ps →
  ref_sample_size self = Some nref → nref ≠ 0 → nrows X ≠ 0 →
  ∃ res self', evaluate env self X label = Ok (res, self').
Proof.
  intros Hc Hwf Hk Hd Hm Hs Hps Hlen Hnn Hn Hnref HX.
  destruct (calculate_bin_proportions_returns self X centers)
    as [labels Hcalc]; try done.
  unfold evaluate. rewrite Hcalc, Hps, Hn. simpl.
  rewrite z_test_elementwise; try done.
  2:{ by rewrite scatter_proportions_length. }
  simpl.
  destruct (jensen_shannon_divergence_returns ps
              (scatter_proportions (nrows centers) (nrows X)
                 (np_unique labels).1 (np_unique labels).2)) as [v Hv].
  { by rewrite scatter_proportions_length. }
  { done. }
  { by apply scatter_proportions_nonneg. }
  rewrite Hv. simpl.
  destruct label as [l|]; [destruct (truthy (Some l))|]; eauto.
Qed.

(** ** The example collaborators meet their contracts *)

#[global] Instance key_le_trans : Transitive key_le.
Proof. intros x y z. unfold key_le. lia. Qed.

#[global] Instance key_le_total : Total key_le.
Proof. intros x y. unfold key_le. lia. Qed.

Lemma StronglySorted_lookup {A : Type} (R : relation A) (l : list A) i j a b :
  StronglySorted R l → i < j → l !! i = Some a → l !! j = Some b → R a b.
Proof.
  intros Hs. revert i j. induction Hs as [|x l Hs IH Hall]; intros i j Hij.
  { done. }
  destruct i as [|i], j as [|j]; simpl; try lia.
  - intros [= <-] Hb. rewrite Forall_forall in Hall. apply Hall.
    by eapply list_elem_of_lookup_2.
  - apply IH. lia.
Qed.

Lemma example_argsort_spec : argsort_spec example_argsort.
Proof.
  intros a. unfold example_argsort.
  set (s := merge_sort key_le (zip a (seq 0 (length a)))).
  assert (Hperm : s ≡ₚ zip a (seq 0 (length a)))
    by apply merge_sort_Permutation.
  assert (Hmem : ∀ t x u, s !! t = Some (x, u) → a !! u = Some x).
  { intros t x u Ht. apply list_elem_of_lookup_2 in Ht.
    rewrite Hperm in Ht. apply list_elem_of_lookup_1 in Ht as [t' Ht'].
    apply lookup_zip_Some in Ht' as [Ha Hu].
    apply lookup_seq in Hu as [-> _]. done. }
  split.
  - rewrite Hperm. by rewrite snd_zip by (by rewrite length_seq).
  - intros i j u v x y Hij Hi Hj Hx Hy.
    apply list_lookup_fmap_Some_1 in Hi as ([x' u'] & -> & Hi).
    apply list_lookup_fmap_Some_1 in Hj as ([y' v'] & -> & Hj).
    simpl in *.
    pose proof (Hmem _ _ _ Hi). pose proof (Hmem _ _ _ Hj). simplify_eq.
    destruct (decide (i = j)) as [->|Hne]; [by simplify_eq|].
    assert (Hs : StronglySorted key_le s).
    { apply StronglySorted_merge_sort; apply _. }
    apply (StronglySorted_lookup _ _ i j _ _ Hs ltac:(lia) Hi Hj).
Qed.

(** ** Restoring from a snapshot *)

Lemma read_from_bins_file_found w self path d :
  path ≠ ""%string → files w !! path = Some (Pickled d) →
  read_from_bins_file w self (Some path)
  = Ok (true, restore self d, emit w (EvLoad path)).
Proof.
  intros Hne Hf. unfold read_from_bins_file, truthy, isfile, pickle_load.
  rewrite Hf. replace (String.eqb path "") with false
    by (symmetry; by apply String.eqb_neq).
  rewrite bool_decide_eq_true_2 by eauto. done.
Qed.

Lemma read_from_bins_file_none w self bins_file :
  no_snapshot w bins_file →
  read_from_bins_file w self bins_file = Ok (false, self, w).
Proof.
  unfold no_snapshot, read_from_bins_file.
  destruct bins_file as [path|]; [|done]. by intros ->.
Qed.

(** C4.  When a bins file is named (by a non-empty path) and holds a
    readable snapshot, [construct_bins] returns the object with
    [bin_proportions], [bin_centers], [ref_sample_size] and the whitening
    mean and std taken from the snapshot, whatever the samples and the
    collaborators are, and the only collaborator call it makes is the
    load of the file: the clustering primitive is not called. *)
Theorem construct_bins_restores env w self X path d :
  path ≠ ""%string → files w !! path = Some (Pickled d) →
  ∃ self' w',
    construct_bins env w self X (Some path) = Ok (self', w') ∧
    bin_proportions self' = bd_proportions d ∧
    bin_centers self' = bd_centers d ∧
    ref_sample_size self' = bd_n d ∧
    training_mean self' = bd_mean d ∧
    training_std self' = bd_std d ∧
    trace w' = trace w ++ [EvLoad path] ∧
    (∀ env' X', construct_bins env' w self X' (Some path) = Ok (self', w')).
Proof.
  intros Hne Hf. exists (restore self d), (emit w (EvLoad path)).
  assert (Hr : ∀ env' X', construct_bins env' w self X' (Some path)
                          = Ok (restore self d, emit w (EvLoad path))).
  { intros env' X'. unfold construct_bins.
    by rewrite (read_from_bins_file_found _ _ _ d). }
  repeat split; done.
Qed.

(** ** Fitting from samples *)

Lemma construct_bins_fit env w self X bins_file :
  no_snapshot w bins_file →
  construct_bins env w self X bins_file
  = cluster_and_store env w (fit_prepare self X) X bins_file.
Proof.
  intros Hn. unfold construct_bins.
  rewrite read_from_bins_file_none by done.
  unfold fit_prepare. destruct self as [k a wh eps m s md bc bp n c].
  destruct wh, md as [md|]; simpl; try reflexivity;
    destruct (bool_decide (1000 < ncols X)); reflexivity.
Qed.

Lemma for_each_length {A B : Type} (f : A → result B) l ys :
  for_each f l = Ok ys → length ys = length l.
Proof.
  revert ys. induction l as [|x l IH]; simpl; intros ys H.
  - by simplify_eq.
  - ok_bind H as y Ey. ok_bind H as ys' Eys. simplify_eq. simpl.
    f_equal. by apply IH.
Qed.

Lemma take_indices_inv {A : Type} (a : list A) idx r :
  take_indices a idx = Ok r → Forall2 (λ i x, a !! i = Some x) idx r.
Proof.
  unfold take_indices. revert r.
  induction idx as [|i idx IH]; simpl; intros r H.
  - simplify_eq. constructor.
  - ok_bind H as y Ey. ok_bind H as ys Eys. simplify_eq.
    constructor; [|by apply IH].
    destruct (a !! i); by simplify_eq.
Qed.

Lemma take_indices_ok {A : Type} (a : list A) idx :
  Forall (λ i, i < length a) idx → ∃ r, take_indices a idx = Ok r.
Proof.
  unfold take_indices. induction 1 as [|i idx Hi _ [r IH]]; simpl.
  - eauto.
  - apply lookup_lt_is_Some_2 in Hi as [x Hx]. rewrite Hx. simpl.
    rewrite IH. simpl. eauto.
Qed.

(** What a fit that returns has computed. *)
Lemma cluster_and_store_inv env w self X bins_file self' w' :
  cluster_and_store env w self X bins_file = Ok (self', w') →
  ∃ X' labels sorted_counts centers,
    let counts := (np_unique labels).2 in
    let order := np_argsort env (map (λ c, (- Z.of_nat c)%Z) counts) in
    number_of_bins self ≠ 0 ∧
    kmeans_fit env (number_of_bins self) X' = Ok labels ∧
    length labels = nrows X ∧
    take_indices counts order = Ok sorted_counts ∧
    take_indices (label_means self X labels) order = Ok centers ∧
    self' = set_bins self
              (map (λ c, F.div (F.of_nat c) (F.of_nat (sum_list counts)))
                   sorted_counts)
              (Matrix (ncols X) centers) (nrows X) ∧
    w' = write_to_bins_file
           (emit (emit w (EvPermutation (ncols X)))
                 (EvKMeans (number_of_bins self) X'))
           self' bins_file.
Proof.
  unfold cluster_and_store. intros H.
  ok_bind H as centered Ec. ok_bind H as W Ew.
  ok_bind H as [] Ek. destruct (decide (number_of_bins self = 0)); [done|].
  ok_bind H as X' EX. ok_bind H as labels El. ok_bind H as bc Ebc.
  ok_bind H as sorted_counts Es. ok_bind H as centers Ecs.
  injection H as <- <-.
  apply matrix_op_inv in Ec, Ew.
  assert (HW : rows W = map (whiten self) (rows X)).
  { rewrite Ew, Ec, map_map. done. }
  assert (Hbc : bc = label_means self X labels).
  { unfold label_means. rewrite <- HW.
    eapply for_each_inv_map; [|exact Ebc].
    intros i y Hy. cbv beta in Hy.
    ok_bind Hy as sel Esel. ok_bind Hy as [] Ed.
    case_decide as Hd; [|done]. rewrite Hd in Hy.
    unfold mask_index in Esel. case_decide; by simplify_eq. }
  subst bc.
  exists X', labels, sorted_counts, centers. simpl.
  repeat split; try done.
  destruct (number_of_bins self) as [|k]; [done|].
  rewrite <- cons_seq in Ebc. simpl in Ebc.
  ok_bind Ebc as y Ey. ok_bind Ey as sel Esel.
  unfold mask_index in Esel.
  destruct (decide (length (map _ labels) = length (rows W)))
    as [Hlen|]; [|done].
  rewrite length_map in Hlen. rewrite Hlen, HW, !length_map. done.
Qed.

(** ** The order of the bins *)




Lemma take_indices_elem_of {A : Type} (a : list A) idx r x :
  take_indices a idx = Ok r → x ∈ r → x ∈ a.
Proof.
  intros Ht Hx. apply take_indices_inv in Ht.
  apply list_elem_of_lookup_1 in Hx as [t Hx].
  destruct (Forall2_lookup_r _ _ _ _ _ Ht Hx) as (u & _ & Hu).
  by eapply list_elem_of_lookup_2.
Qed.



(** ** When a fit returns *)

Lemma permutation_indices_lt env d m :
  permutation_contract env d →
  forallb (λ i, bool_decide (i < d)) (take m (permutation env d)) = true.
Proof.
  intros Hp. apply forallb_forall. intros i Hi.
  apply bool_decide_eq_true_2. apply list_elem_of_In in Hi.
  apply elem_of_take in Hi as (j & Hj & _).
  apply list_elem_of_lookup_2 in Hj. rewrite Hp in Hj.
  apply elem_of_seq in Hj. lia.
Qed.

Lemma argsort_indices_lt (argsort : list Z → list nat) (a : list Z) :
  argsort_spec argsort → Forall (λ i, i < length a) (argsort a).
Proof.
  intros Hspec. destruct (Hspec a) as [Hperm _].
  apply Forall_forall. intros i Hi. rewrite Hperm in Hi.
  apply elem_of_seq in Hi. lia.
Qed.

Lemma cluster_and_store_returns env w self X bins_file :
  stat_fits (ncols X) (training_mean self) →
  stat_fits (ncols X) (training_std self) →
  number_of_bins self ≠ 0 →
  permutation_contract env (ncols X) →
  kmeans_contract env (number_of_bins self) (nrows X) →
  argsort_spec (np_argsort env) →
  ∃ self' w', cluster_and_store env w self X bins_file = Ok (self', w').
Proof.
  intros Hm Hs Hk Hperm Hkm Hspec. unfold cluster_and_store.
  rewrite matrix_op_fits by done. simpl.
  rewrite matrix_op_fits by exact Hs. simpl.
  destruct (decide (number_of_bins self = 0)) as [|_]; [done|]. simpl.
  unfold take_columns. simpl.
  rewrite permutation_indices_lt by done. simpl.
  match goal with
  | |- context [kmeans_fit env _ ?M] =>
      destruct (Hkm M) as (labels & El & Hlen & Hlt)
  end.
  { unfold nrows. simpl. by rewrite !length_map. }
  rewrite El. simpl.
  erewrite (for_each_ok _ (λ i, np_mean_axis0 (Matrix _ (select _ _)))).
  2:{ apply Forall_forall. intros i _. unfold mask_index.
      rewrite !decide_True
        by (done || (rewrite !length_map; exact Hlen)).
      simpl. reflexivity. }
  simpl.
  pose proof (argsort_indices_lt _
                (map (λ c, (- Z.of_nat c)%Z) (np_unique labels).2) Hspec)
    as Hidx.
  rewrite length_map in Hidx.
  destruct (take_indices_ok (np_unique labels).2 _ Hidx) as [sc Hsc].
  rewrite Hsc. simpl.
  match goal with
  | |- context [take_indices ?bc ?o ≫= _] =>
      destruct (take_indices_ok bc o) as [centers Hc]
  end.
  { eapply Forall_impl; [exact Hidx|]. intros i Hi. simpl in Hi.
    rewrite length_map, length_seq.
    pose proof (unique_length_le labels _ Hlt). lia. }
  rewrite Hc. simpl. eauto.
Qed.

Lemma fit_prepare_number_of_bins self X :
  number_of_bins (fit_prepare self X) = number_of_bins self.
Proof.
  unfold fit_prepare. destruct self as [k a wh eps m s md bc bp n c].
  destruct wh, md; simpl; try done; by case_bool_decide.
Qed.

Lemma fit_prepare_stats self X :
  training_mean (fit_prepare self X)
  = (if whitening self then Vector (np_mean_axis0 X)
     else training_mean self) ∧
  training_std (fit_prepare self X)
  = (if whitening self
     then Vector (map (λ s, F.add s (ndb_eps self)) (np_std_axis0 X))
     else training_std self).
Proof.
  unfold fit_prepare. destruct self as [k a wh eps m s md bc bp n c].
  destruct wh, md; simpl; try done; by case_bool_decide.
Qed.

Lemma fit_prepare_fits self X :
  (whitening self = false →
   stat_fits (ncols X) (training_mean self) ∧
   stat_fits (ncols X) (training_std self)) →
  stat_fits (ncols X) (training_mean (fit_prepare self X)) ∧
  stat_fits (ncols X) (training_std (fit_prepare self X)).
Proof.
  intros H. destruct (fit_prepare_stats self X) as [-> ->].
  destruct (whitening self); [|by apply H].
  unfold np_mean_axis0, np_std_axis0. simpl.
  by rewrite !length_map, length_seq.
Qed.

(** A fit from samples does call the clustering primitive. *)
Lemma fit_calls_kmeans env w self X bins_file self' w' :
  no_snapshot w bins_file →
  construct_bins env w self X bins_file = Ok (self', w') →
  ∃ X', EvKMeans (number_of_bins self) X' ∈ trace w'.
Proof.
  intros Hno H. rewrite construct_bins_fit in H by done.
  apply cluster_and_store_inv in H
    as (X' & labels & sc & centers & _ & _ & _ & _ & _ & _ & ->).
  exists X'. rewrite fit_prepare_number_of_bins.
  unfold write_to_bins_file.
  destruct bins_file as [path|]; [destruct (truthy (Some path))|];
    simpl; set_solver.
Qed.

(** A fit from samples returns when the collaborators keep their
    contracts. *)
Lemma construct_bins_returns env w self X bins_file :
  no_snapshot w bins_file →
  (whitening self = false →
   stat_fits (ncols X) (training_mean self) ∧
   stat_fits (ncols X) (training_std self)) →
  number_of_bins self ≠ 0 →
  permutation_contract env (ncols X) →
  kmeans_contract env (number_of_bins self) (nrows X) →
  argsort_spec (np_argsort env) →
  ∃ self' w', construct_bins env w self X bins_file = Ok (self', w').
Proof.
  intros Hno Hfit Hk Hperm Hkm Hspec. rewrite construct_bins_fit by done.
  destruct (fit_prepare_fits self X Hfit) as [Hm Hs].
  apply cluster_and_store_returns; try done;
    by rewrite fit_prepare_number_of_bins.
Qed.


Lemma example_permutation_contract d : permutation_contract example_env d.
Proof. unfold permutation_contract. done. Qed.

Lemma example_kmeans_contract k n : k ≠ 0 → kmeans_contract example_env k n.
Proof.
  intros Hk X Hn. eexists. split; [reflexivity|]. split.
  - by rewrite length_map, length_seq.
  - apply Forall_map, Forall_forall. intros i _. simpl. lia.
Qed.

(** ** The whitening statistics *)

Lemma foldl_add_finite (l : list float) (a : R) :
  Forall (λ x, F.isfinite x = true) l → ∃ r, foldl F.add (Fin a) l = Fin r.
Proof.
  intros Hl. revert a. induction Hl as [|x l Hx _ IH]; intros a; simpl.
  - eauto.
  - destruct x; try done. unfold F.add. apply IH.
Qed.

Lemma foldl_add_nonneg (l : list float) (a : R) :
  (0 <= a)%R → nonneg_finite l →
  ∃ r, foldl F.add (Fin a) l = Fin r ∧ (0 <= r)%R.
Proof.
  intros Ha Hl. revert a Ha.
  induction Hl as [|x l (rx & -> & Hx) _ IH]; intros a Ha; simpl.
  - eauto.
  - unfold F.add. apply IH. lra.
Qed.

Lemma column_finite X j :
  finite_matrix X → Forall (λ x, F.isfinite x = true) (column X j).
Proof.
  intros HX. unfold column. apply Forall_map.
  eapply Forall_impl; [exact HX|]. intros r Hr. simpl.
  destruct (nth_in_or_default j r F.zero) as [Hin | ->]; [|done].
  rewrite Forall_forall in Hr. apply Hr. by apply list_elem_of_In.
Qed.

Lemma std_entry_nonneg (col : list float) (n : nat) :
  n ≠ 0 → Forall (λ x, F.isfinite x = true) col →
  ∃ s : R,
    F.sqrt (F.div (np_sum (map (λ x, F.mul x x)
                     (map (λ x, F.sub x (F.div (np_sum col) (F.of_nat n)))
                          col)))
                  (F.of_nat n)) = Fin s ∧ (0 <= s)%R.
Proof.
  intros Hn Hcol.
  assert (HnR : (0 < INR n)%R) by (apply lt_0_INR; lia).
  destruct (foldl_add_finite col 0 Hcol) as [t Ht].
  unfold np_sum, F.zero. rewrite Ht.
  unfold F.div at 2, F.of_nat.
  rewrite bool_decide_eq_false_2 by lra.
  destruct (foldl_add_nonneg
              (map (λ x, F.mul x x)
                   (map (λ x, F.sub x (Fin (t / INR n))) col)) 0)
    as (v & -> & Hv); [lra| |].
  { apply Forall_map, Forall_map. eapply Forall_impl; [exact Hcol|].
    intros [x| | |] Hx; try done. simpl.
    exists ((x + - (t / INR n)) * (x + - (t / INR n)))%R.
    split; [done|]. apply (Rle_0_sqr (x + - (t / INR n))). }
  unfold F.div. rewrite bool_decide_eq_false_2 by lra.
  assert (0 <= v / INR n)%R.
  { apply Rmult_le_pos; [done|]. left. by apply Rinv_0_lt_compat. }
  unfold F.sqrt. rewrite bool_decide_eq_false_2 by lra.
  eexists. split; [done|]. apply sqrt_pos.
Qed.

Lemma map_Fin_nonneg {A : Type} (f : A → float) (l : list A) :
  (∀ x, ∃ s : R, f x = Fin s ∧ (0 <= s)%R) →
  ∃ ss : list R, map f l = map Fin ss ∧ Forall (λ s, (0 <= s)%R) ss.
Proof.
  intros Hf. induction l as [|x l (ss & IH & Hss)]; simpl.
  - exists []. by split.
  - destruct (Hf x) as (s & -> & Hs). exists (s :: ss). rewrite IH.
    split; [done | by constructor].
Qed.

(** On finite samples every per-dimension std is a non-negative real. *)
Lemma np_std_axis0_finite X :
  finite_matrix X → nrows X ≠ 0 →
  ∃ stds : list R,
    np_std_axis0 X = map Fin stds ∧ Forall (λ s, (0 <= s)%R) stds.
Proof.
  intros HX Hn. unfold np_std_axis0. apply map_Fin_nonneg.
  intros j. apply std_entry_nonneg; [done | by apply column_finite].
Qed.





(** ** Evaluation on finite values *)

Lemma add_Fin x y : F.add (Fin x) (Fin y) = Fin (x + y).
Proof. reflexivity. Qed.

Lemma sub_Fin x y : F.sub (Fin x) (Fin y) = Fin (x - y).
Proof. reflexivity. Qed.

Lemma mul_Fin x y : F.mul (Fin x) (Fin y) = Fin (x * y).
Proof. reflexivity. Qed.

Lemma div_Fin x y : y ≠ 0%R → F.div (Fin x) (Fin y) = Fin (x / y).
Proof. intros Hy. unfold F.div. by rewrite bool_decide_eq_false_2. Qed.

Lemma sqrt_Fin x : (0 <= x)%R → F.sqrt (Fin x) = Fin (sqrt x).
Proof.
  intros Hx. unfold F.sqrt. rewrite bool_decide_eq_false_2; [done | lra].
Qed.

Ltac float_eval :=
  unfold F.of_nat, F.zero, F.one; simpl;
  repeat first
    [ rewrite add_Fin | rewrite sub_Fin | rewrite mul_Fin
    | rewrite div_Fin by lra | rewrite sqrt_Fin by lra ].


Lemma example_fit_returns X k wh :
  k ≠ 0 →
  ∃ self' w',
    NDB_init example_env empty_world (Some X) k (Fin 0.05) wh None None
    = Ok (self', w').
Proof.
  intros Hk. unfold NDB_init. apply construct_bins_returns; try done.
  - apply example_permutation_contract.
  - by apply example_kmeans_contract.
  - apply example_argsort_spec.
Qed.



(** ** A fit with an empty cluster *)

Lemma unique_skipping : np_unique [0; 0; 2] = ([0; 2], [2; 1]).
Proof. vm_compute. reflexivity. Qed.

Lemma mean_of_no_rows : np_mean_axis0 (Matrix 1 []) = [NaN].
Proof.
  unfold np_mean_axis0, column, np_sum, nrows, F.of_nat, F.zero. simpl.
  unfold F.div, F.signed_inf.
  rewrite bool_decide_eq_true_2 by done.
  by rewrite !bool_decide_eq_false_2 by lra.
Qed.

(** C2 fails when K-means leaves a cluster empty.  Three samples, two of
    them equal, are fitted with three bins and K-means labels them 0, 0, 2:
    the fit returns, and it stores two proportions and two centers for its
    three bins; the second proportion, 1/3, is the share of label 2, and
    the center stored with it is the mean of the empty cluster 1, NaN. *)
Theorem fit_with_empty_cluster :
  ∃ self' w' c0,
    NDB_init skipping_env empty_world (Some duplicate_samples) 3 (Fin 0.05)
             false None None = Ok (self', w') ∧
    number_of_bins self' = 3 ∧
    bin_proportions self'
    = Some [F.div (F.of_nat 2) (F.of_nat 3);
            F.div (F.of_nat 1) (F.of_nat 3)] ∧
    bin_centers self' = Some (Matrix 1 [c0; [NaN]]).
Proof.
  unfold NDB_init.
  set (self := MkNDB 3 _ _ _ _ _ _ _ _ _ _).
  assert (Hret : ∃ self' w',
             construct_bins skipping_env empty_world self
               duplicate_samples None = Ok (self', w')).
  { apply construct_bins_returns; try done.
    - unfold permutation_contract. done.
    - intros X _. exists [0; 0; 2]. split; [done|]. split; [done|].
      repeat constructor.
    - apply example_argsort_spec. }
  destruct Hret as (self' & w' & H).
  exists self', w'. pose proof H as H'.
  rewrite construct_bins_fit in H' by done.
  apply cluster_and_store_inv in H'
    as (X' & labels & sc & centers & _ & El & _ & Hsc & Hc & -> & _).
  simpl in El. injection El as <-.
  rewrite unique_skipping in *. simpl in Hsc, Hc.
  assert (Ho : example_argsort [(- Z.of_nat 2)%Z; (- Z.of_nat 1)%Z] = [0; 1])
    by (vm_compute; reflexivity).
  rewrite Ho in Hsc, Hc. simpl in Hsc. injection Hsc as <-.
  unfold label_means in Hc.
  rewrite fit_prepare_number_of_bins in Hc. simpl in Hc.
  rewrite mean_of_no_rows in Hc. injection Hc as <-.
  eexists. split; [exact H|]. simpl. done.
Qed.

(** ** What does hold of the proportions *)

Lemma take_indices_nth {A : Type} (a : list A) idx r (d : A) :
  take_indices a idx = Ok r → r = map (λ i, nth i a d) idx.
Proof.
  intros H. apply take_indices_inv in H.
  induction H as [|i x idx r Hi _ IH]; simpl; [done|].
  f_equal; [|done]. symmetry. apply nth_lookup_Some with (d := d) in Hi.
  done.
Qed.




(** ** The hypotheses can be met *)


Lemma construct_bins_restores_witness :
  "bins.pkl"%string ≠ ""%string ∧
  files snapshot_world !! "bins.pkl"%string = Some (Pickled example_bins) ∧
  ∃ self' w',
    construct_bins example_env snapshot_world example_fitted three_samples
                   (Some "bins.pkl"%string) = Ok (self', w') ∧
    bin_proportions self' = bd_proportions example_bins ∧
    bin_centers self' = bd_centers example_bins ∧
    ref_sample_size self' = bd_n example_bins ∧
    training_mean self' = bd_mean example_bins ∧
    training_std self' = bd_std example_bins ∧
    trace w' = trace snapshot_world ++ [EvLoad "bins.pkl"%string] ∧
    (∀ env' X', construct_bins env' snapshot_world example_fitted X'
                  (Some "bins.pkl"%string) = Ok (self', w')).
Proof.
  assert (Hne : "bins.pkl"%string ≠ ""%string) by done.
  assert (Hf : files snapshot_world !! "bins.pkl"%string
               = Some (Pickled example_bins)) by apply lookup_singleton_eq.
  split; [exact Hne|]. split; [exact Hf|].
  exact (construct_bins_restores example_env snapshot_world example_fitted
           three_samples "bins.pkl"%string example_bins Hne Hf).
Defined.

Lemma two_proportions_z_test_spec_witness :
  let p1 := [Fin 0.75; Fin 0.25] in
  let p2 := [Fin 0.5; Fin 0.5] in
  length p1 = length p2 ∧ 100 ≠ 0 ∧ 10 ≠ 0 ∧
  two_proportions_z_test (norm_cdf example_env) p1 100 p2 10 (Fin 0.05)
  = Ok (zip_with (significantly_different (norm_cdf example_env) 100 10
                    (Fin 0.05)) p1 p2).
Proof.
  assert (H1 : 100 ≠ 0) by lia. assert (H2 : 10 ≠ 0) by lia.
  split; [reflexivity|]. split; [exact H1|]. split; [exact H2|].
  exact (two_proportions_z_test_spec (norm_cdf example_env)
           [Fin 0.75; Fin 0.25] [Fin 0.5; Fin 0.5] 100 10 (Fin 0.05)
           eq_refl H1 H2).
Defined.

Lemma example_evaluate_returns label :
  ∃ res self',
    evaluate example_env example_fitted example_query label
    = Ok (res, self').
Proof.
  eapply (evaluate_returns _ _ _ _ (Matrix 1 [[Fin 0]; [Fin 1]])
            [Fin 0.75; Fin 0.25] 4); try done.
  - repeat constructor.
  - repeat constructor; eexists; (split; [reflexivity | lra]).
Qed.

Lemma example_distance_0 :
  l2_distance (whiten example_fitted [Fin 0.5]) [Fin 0] = Fin (sqrt 0.25).
Proof.
  unfold l2_distance, whiten, np_sum. simpl. unfold zip_broadcast. simpl.
  float_eval.
  match goal with |- context [sqrt ?v] => replace v with 0.25%R by lra end.
  done.
Qed.

Lemma example_distance_1 :
  l2_distance (whiten example_fitted [Fin 0.5]) [Fin 1] = Fin (sqrt 0.25).
Proof.
  unfold l2_distance, whiten, np_sum. simpl. unfold zip_broadcast. simpl.
  float_eval.
  match goal with |- context [sqrt ?v] => replace v with 0.25%R by lra end.
  done.
Qed.

Lemma example_distances_not_nan :
  Forall (λ c, F.isnan (l2_distance (whiten example_fitted [Fin 0.5]) c)
               = false)
         [[Fin 0]; [Fin 1]].
Proof.
  repeat constructor.
  - by rewrite example_distance_0.
  - by rewrite example_distance_1.
Qed.


(** The first query sample is as far from center 0 as from center 1, and
    it is assigned to bin 0. *)
Lemma tie_goes_to_lowest_index label res self' :
  evaluate example_env example_fitted example_query label = Ok (res, self') →
  res_Bin_Assignment res !! 0 = Some 0.
Proof.
  intros H. apply evaluate_inv in H as [H _].
  destruct (nearest_center _ _ _ _ (Matrix 1 [[Fin 0]; [Fin 1]]) 0 [Fin 0.5]
              H eq_refl eq_refl example_distances_not_nan)
    as (j & cj & Hj & Hcj & Hmin).
  destruct j as [|[|j]]; simpl in Hcj; [done| |done].
  injection Hcj as <-.
  destruct (Hmin 0 [Fin 0] eq_refl) as [_ Hlt].
  specialize (Hlt ltac:(lia)).
  rewrite example_distance_0, example_distance_1 in Hlt.
  unfold F.ltb in Hlt. apply bool_decide_eq_true in Hlt. lra.
Qed.

Lemma evaluate_frame_witness :
  ∃ res self',
    evaluate example_env example_fitted example_query (Some "Test"%string)
    = Ok (res, self') ∧
    self' = set_cached_results example_fitted (cached_results self') ∧
    fitted_state self' = fitted_state example_fitted ∧
    cached_results self'
    = <["Test"%string := res]> (cached_results example_fitted).
Proof.
  destruct (example_evaluate_returns (Some "Test"%string))
    as (res & self' & H).
  exists res, self'. split; [exact H|].
  exact (evaluate_frame example_env example_fitted example_query
           (Some "Test"%string) res self' H).
Defined.

Lemma evaluate_empty_label_not_cached_witness :
  ∃ res self',
    evaluate example_env example_fitted example_query (Some ""%string)
    = Ok (res, self') ∧
    self' = example_fitted ∧
    cached_results self' = cached_results example_fitted ∧
    evaluate example_env example_fitted example_query None
    = Ok (res, example_fitted).
Proof.
  destruct (example_evaluate_returns (Some ""%string)) as (res & self' & H).
  exists res, self'. split; [exact H|].
  exact (evaluate_empty_label_not_cached example_env example_fitted
           example_query res self' H).
Defined.

(** C9 as stated fails: with the empty string a label is given and the
    evaluation returns, yet nothing is stored under that label. *)
Lemma empty_label_is_not_stored :
  ∃ res self',
    evaluate example_env example_fitted example_query (Some ""%string)
    = Ok (res, self') ∧
    cached_results self' = cached_results example_fitted ∧
    cached_results self' !! ""%string = None ∧
    cached_results self'
    ≠ <[""%string := res]> (cached_results example_fitted).
Proof.
  destruct (example_evaluate_returns (Some ""%string)) as (res & self' & H).
  exists res, self'. split; [exact H|].
  apply evaluate_outcome in H. simpl in H. subst self'. simpl.
  split; [done|]. split; [done|].
  intros Heq. apply (f_equal (λ m, m !! ""%string)) in Heq.
  by rewrite lookup_insert_eq in Heq.
Qed.

(** ** Distances of finite data *)

Lemma zip_broadcast_Forall {A B C : Type}
    (P : A → Prop) (Q : B → Prop) (R : C → Prop) (f : A → B → C) a b :
  (∀ x y, P x → Q y → R (f x y)) →
  Forall P a → Forall Q b → Forall R (zip_broadcast f a b).
Proof.
  intros Hf Ha Hb. unfold zip_broadcast. case_decide.
  - clear H. revert b Hb. induction Ha as [|x a Hx _ IH]; intros b Hb.
    + constructor.
    + destruct Hb as [|y b Hy Hb]; simpl; constructor; auto.
  - destruct a as [|x [|x' a]], b as [|y [|y' b]]; cbv beta iota;
      try (by constructor);
      apply Forall_map;
      first
        [ eapply Forall_impl; [exact Hb|];
          intros z Hz; apply Hf; [by apply Forall_inv in Ha | done]
        | eapply Forall_impl; [exact Ha|];
          intros z Hz; apply Hf; [done | by apply Forall_inv in Hb] ].
Qed.

Lemma row_op_sub_finite x s :
  finite_array x → finite_stat s → finite_array (row_op F.sub x s).
Proof.
  intros Hx Hs. destruct s as [a|v]; simpl in *.
  - apply Forall_map. eapply Forall_impl; [exact Hx|].
    intros [t| | |] Ht; try done. by destruct a.
  - eapply zip_broadcast_Forall; [|exact Hx|exact Hs].
    by intros [t| | |] [u| | |].
Qed.

Lemma div_finite a b :
  F.isfinite a = true → F.isfinite b = true → b ≠ F.zero →
  F.isfinite (F.div a b) = true.
Proof.
  destruct a as [x| | |], b as [y| | |]; try done. intros _ _ Hy.
  rewrite div_Fin; [done|]. intros ->. by apply Hy.
Qed.

Lemma row_op_div_finite x s :
  finite_array x → finite_stat s → nonzero_stat s →
  finite_array (row_op F.div x s).
Proof.
  intros Hx Hs Hz. destruct s as [a|v]; simpl in *.
  - apply Forall_map. eapply Forall_impl; [exact Hx|].
    intros t Ht. by apply div_finite.
  - assert (Hv : Forall (λ b, F.isfinite b = true ∧ b ≠ F.zero) v).
    { apply Forall_and. by split. }
    eapply zip_broadcast_Forall; [|exact Hx|exact Hv].
    intros t b Ht [Hb Hb0]. by apply div_finite.
Qed.

Lemma l2_distance_finite x c :
  finite_array x → finite_array c → F.isfinite (l2_distance x c) = true.
Proof.
  intros Hx Hc. unfold l2_distance, np_sum, F.zero.
  destruct (foldl_add_nonneg
              (map (λ t, F.mul t t) (zip_broadcast F.sub x c)) 0)
    as (v & -> & Hv); [lra| |].
  - apply Forall_map.
    eapply zip_broadcast_Forall; [|exact Hx|exact Hc].
    intros [t| | |] [u| | |] Ht Hu; try done.
    exists ((t - u) * (t - u))%R. split; [done|]. apply (Rle_0_sqr (t - u)).
  - by rewrite sqrt_Fin.
Qed.

(** For a finite sample, finite centers and finite statistics whose std
    has no zero, the distances are finite, so that none is NaN. *)
Lemma distances_not_nan self x (centers : list (list float)) :
  finite_array x → Forall finite_array centers →
  finite_stat (training_mean self) →
  finite_stat (training_std self) → nonzero_stat (training_std self) →
  Forall (λ c, F.isnan (l2_distance (whiten self x) c) = false) centers.
Proof.
  intros Hx Hc Hm Hs Hz. eapply Forall_impl; [exact Hc|].
  intros c Hfin. simpl.
  assert (H : F.isfinite (l2_distance (whiten self x) c) = true).
  { apply l2_distance_finite; [|done]. unfold whiten.
    by apply row_op_div_finite; [apply row_op_sub_finite|..]. }
  by destruct (l2_distance (whiten self x) c).
Qed.

(** * Further properties of the class *)

(** ** The results of an evaluation *)

Lemma evaluate_inv_full env self X label res self' :
  evaluate env self X label = Ok (res, self') →
  ∃ ps nref,
    bin_proportions self = Some ps ∧ ref_sample_size self = Some nref ∧
    calculate_bin_proportions self X
    = Ok (res_Proportions res, res_Bin_Assignment res) ∧
    two_proportions_z_test (norm_cdf env) ps nref (res_Proportions res)
      (nrows X) (significance_level self) = Ok (res_Different_Bins res) ∧
    jensen_shannon_divergence ps (res_Proportions res) = Ok (res_JS res) ∧
    res_NDB res = count_nonzero (res_Different_Bins res) ∧
    res_N res = nrows X.
Proof.
  unfold evaluate. intros H.
  ok_bind H as [qp qa] Ec. ok_bind H as ps Ep. ok_bind H as nref En.
  ok_bind H as db Ed. ok_bind H as js Ej.
  exists ps, nref.
  destruct (bin_proportions self) as [ps'|]; [|done].
  destruct (ref_sample_size self) as [nref'|]; [|done]. simpl in Ep, En.
  destruct label as [lbl|]; [destruct (truthy (Some lbl))|];
    simplify_eq; simpl; done.
Qed.

Lemma argmin_scan_bound (l : list float) (mp : float) (min_ind i : nat) :
  argmin_scan mp min_ind i l = min_ind ∨
  (i ≤ argmin_scan mp min_ind i l < i + length l).
Proof.
  revert mp min_ind i. induction l as [|x l IH]; intros mp m i; simpl.
  { by left. }
  destruct (F.leb mp x); simpl.
  - destruct (IH mp m (S i)) as [->|?]; [by left | right; lia].
  - destruct (F.isnan x); [right; lia|].
    destruct (IH x i (S i)) as [->|?]; right; lia.
Qed.

Lemma np_argmin_bound (l : list float) : l ≠ [] → np_argmin l < length l.
Proof.
  destruct l as [|x l]; [done|]. intros _. simpl.
  destruct (F.isnan x); [lia|].
  destruct (argmin_scan_bound l x 0 1) as [->|?]; lia.
Qed.

Lemma scatter_fold_lookup (g : nat → float) (vals : list nat)
    (acc : list float) (j : nat) :
  j < length acc →
  foldl (λ probs vc, <[vc.1 := g vc.2]> probs) acc
        (map (λ v, (v, v)) vals) !! j
  = if decide (j ∈ vals) then Some (g j) else acc !! j.
Proof.
  revert acc. induction vals as [|v vals IH]; intros acc Hj; simpl.
  { done. }
  rewrite IH by (by rewrite length_insert).
  destruct (decide (j ∈ vals)) as [Hin|Hnin].
  - rewrite decide_True; [done | by right].
  - destruct (decide (j = v)) as [->|Hne].
    + rewrite decide_True by left. by rewrite list_lookup_insert_eq.
    + rewrite decide_False by (by intros [?|?]%elem_of_cons).
      by rewrite list_lookup_insert_ne.
Qed.

(** The proportion that [__calculate_bin_proportions] gives to bin [j]:
    the share of the labels equal to [j], and zero for a bin that no
    label names. *)
Lemma scatter_proportions_lookup (k n : nat) (labels : list nat) (j : nat) :
  j < k →
  scatter_proportions k n (np_unique labels).1 (np_unique labels).2 !! j
  = Some (if decide (j ∈ labels)
          then F.div (F.of_nat (count j labels)) (F.of_nat n)
          else F.zero).
Proof.
  intros Hj. unfold scatter_proportions. rewrite np_unique_counts.
  assert (Hzip : ∀ vals : list nat,
            zip vals (map (λ v, count v labels) vals)
            = map (λ v, (v, count v labels)) vals).
  { induction vals as [|v vals IH]; simpl; [done | by rewrite IH]. }
  rewrite Hzip.
  assert (Hfold : ∀ (vals : list nat) (acc : list float),
            foldl (λ probs vc,
                     <[vc.1 := F.div (F.of_nat vc.2) (F.of_nat n)]> probs)
                  acc (map (λ v, (v, count v labels)) vals)
            = foldl (λ probs vc,
                       <[vc.1 := F.div (F.of_nat (count vc.2 labels))
                                       (F.of_nat n)]> probs)
                    acc (map (λ v, (v, v)) vals)).
  { induction vals as [|v vals IH]; intros acc; simpl; [done | by rewrite IH]. }
  rewrite Hfold.
  rewrite (scatter_fold_lookup
             (λ v, F.div (F.of_nat (count v labels)) (F.of_nat n)))
    by (by rewrite length_replicate).
  destruct (decide (j ∈ labels)) as [Hin|Hnin].
  - rewrite decide_True; [done | by apply elem_of_unique_values].
  - rewrite decide_False by (by rewrite elem_of_unique_values).
    by rewrite lookup_replicate_2.
Qed.

Lemma z_test_length Phi p1 n1 p2 n2 alpha db :
  two_proportions_z_test Phi p1 n1 p2 n2 alpha = Ok db →
  length p1 = length p2 → length db = length p1.
Proof.
  intros H Hlen.
  destruct (decide (n1 = 0)) as [->|Hn1].
  { unfold two_proportions_z_test in H.
    rewrite (broadcast2_same F.add) in H by (by rewrite !length_map).
    simpl in H.
    rewrite (broadcast2_same F.mul) in H by (by rewrite !length_map).
    done. }
  destruct (decide (n2 = 0)) as [->|Hn2].
  { unfold two_proportions_z_test in H.
    rewrite (broadcast2_same F.add) in H by (by rewrite !length_map).
    simpl in H.
    rewrite (broadcast2_same F.mul) in H by (by rewrite !length_map).
    simpl in H. rewrite py_truediv_one in H by done. done. }
  rewrite z_test_elementwise in H by done. injection H as <-.
  rewrite length_zip_with. lia.
Qed.

Lemma calculate_bin_proportions_labels self X probs labels centers :
  calculate_bin_proportions self X = Ok (probs, labels) →
  bin_centers self = Some centers →
  length labels = nrows X ∧ Forall (λ j, j < nrows centers) labels ∧
  probs = scatter_proportions (nrows centers) (nrows X)
            (np_unique labels).1 (np_unique labels).2.
Proof.
  intros H Hc. apply calculate_bin_proportions_inv in H
    as (centers' & Hc' & _ & Hk & Hl & Hp).
  simplify_eq. split; [|split; [|done]].
  - by rewrite length_map.
  - apply Forall_map, Forall_forall. intros x _. simpl.
    pose proof (np_argmin_bound
                  (map (l2_distance (whiten self x)) (rows centers'))) as Hb.
    rewrite length_map in Hb. apply Hb.
    intros Hnil. apply (f_equal length) in Hnil.
    rewrite length_map in Hnil. by apply Hk.
Qed.

(** The shape of the results: the sample count, one bin below [k] for
    each query sample, [k] proportions and [k] flags, and an NDB score of
    at most [k]. *)
Theorem evaluate_result_shape env self X label res self' centers ps :
  evaluate env self X label = Ok (res, self') →
  bin_centers self = Some centers →
  bin_proportions self = Some ps → length ps = nrows centers →
  res_N res = nrows X ∧
  length (res_Bin_Assignment res) = nrows X ∧
  Forall (λ j, j < nrows centers) (res_Bin_Assignment res) ∧
  length (res_Proportions res) = nrows centers ∧
  length (res_Different_Bins res) = nrows centers ∧
  res_NDB res ≤ nrows centers.
Proof.
  intros H Hc Hps Hlen.
  apply evaluate_inv_full in H
    as (ps' & nref & Hps' & _ & Hcalc & Hz & _ & Hndb & HN).
  simplify_eq.
  destruct (calculate_bin_proportions_labels _ _ _ _ _ Hcalc Hc)
    as (Hl & Hlt & Hp).
  assert (Hpl : length (res_Proportions res) = nrows centers).
  { rewrite Hp. apply scatter_proportions_length. }
  assert (Hdb : length (res_Different_Bins res) = nrows centers).
  { rewrite <- Hlen. apply (z_test_length _ _ _ _ _ _ _ Hz). congruence. }
  repeat split; try done.
  rewrite Hndb, <- Hdb. unfold count_nonzero. apply length_filter.
Qed.

Lemma evaluate_result_shape_witness :
  ∃ res self',
    evaluate example_env example_fitted example_query None
    = Ok (res, self') ∧
    res_N res = 2 ∧
    length (res_Bin_Assignment res) = 2 ∧
    Forall (λ j, j < 2) (res_Bin_Assignment res) ∧
    length (res_Proportions res) = 2 ∧
    length (res_Different_Bins res) = 2 ∧
    res_NDB res ≤ 2.
Proof.
  destruct (example_evaluate_returns None) as (res & self' & H).
  exists res, self'. split; [exact H|].
  exact (evaluate_result_shape example_env example_fitted example_query
           None res self' (Matrix 1 [[Fin 0]; [Fin 1]])
           [Fin 0.75; Fin 0.25] H eq_refl eq_refl eq_refl).
Defined.

(** The query proportion of a bin is the number of query samples assigned
    to it over the number of query samples, and a bin that receives no
    sample has proportion zero. *)
Theorem evaluate_proportion_of_bin env self X label res self' centers j :
  evaluate env self X label = Ok (res, self') →
  bin_centers self = Some centers → j < nrows centers →
  res_Proportions res !! j
  = Some (if decide (j ∈ res_Bin_Assignment res)
          then F.div (F.of_nat (count j (res_Bin_Assignment res)))
                     (F.of_nat (nrows X))
          else F.zero).
Proof.
  intros H Hc Hj. apply evaluate_inv in H as [H _].
  destruct (calculate_bin_proportions_labels _ _ _ _ _ H Hc)
    as (_ & _ & ->).
  by apply scatter_proportions_lookup.
Qed.

Lemma evaluate_proportion_of_bin_witness :
  ∃ res self',
    evaluate example_env example_fitted example_query None
    = Ok (res, self') ∧
    bin_centers example_fitted = Some (Matrix 1 [[Fin 0]; [Fin 1]]) ∧
    1 < nrows (Matrix 1 [[Fin 0]; [Fin 1]]) ∧
    res_Proportions res !! 1
    = Some (if decide (1 ∈ res_Bin_Assignment res)
            then F.div (F.of_nat (count 1 (res_Bin_Assignment res)))
                       (F.of_nat (nrows example_query))
            else F.zero).
Proof.
  destruct (example_evaluate_returns None) as (res & self' & H).
  assert (Hk : 1 < nrows (Matrix 1 [[Fin 0]; [Fin 1]]))
    by (unfold nrows; simpl; lia).
  exists res, self'. split; [exact H|]. split; [reflexivity|].
  split; [exact Hk|].
  exact (evaluate_proportion_of_bin example_env example_fitted example_query
           None res self' (Matrix 1 [[Fin 0]; [Fin 1]]) 1 H eq_refl Hk).
Defined.

Lemma indicator_sum (x k : nat) :
  sum_list (map (λ j, if decide (x = j) then 1 else 0) (seq 0 k))
  = if decide (x < k) then 1 else 0.
Proof.
  induction k as [|k IH]; [done|].
  rewrite seq_S, map_app, sum_list_with_app, IH. simpl.
  repeat case_decide; lia.
Qed.

Lemma count_cons (j x : nat) (labels : list nat) :
  count j (x :: labels) = (if decide (x = j) then 1 else 0) + count j labels.
Proof. unfold count. rewrite filter_cons. by case_decide. Qed.

Lemma sum_list_map_add {A : Type} (f g : A → nat) (l : list A) :
  sum_list (map (λ x, f x + g x) l)
  = sum_list (map f l) + sum_list (map g l).
Proof. induction l as [|x l IH]; simpl; lia. Qed.

Lemma count_sum (labels : list nat) (k : nat) :
  Forall (λ l, l < k) labels →
  sum_list (map (λ j, count j labels) (seq 0 k)) = length labels.
Proof.
  induction 1 as [|x labels Hx _ IH]; simpl.
  - induction (seq 0 k) as [|j s IHs]; simpl; [done | by rewrite IHs].
  - rewrite (map_ext _ _ (λ j, count_cons j x labels)).
    rewrite sum_list_map_add, IH, indicator_sum.
    by rewrite decide_True.
Qed.






(** ** Errors of an evaluation *)

(** An object built without training data has no bins, and every
    evaluation on it raises AttributeError. *)
Theorem evaluate_before_fit env w k alpha wh md bins_file :
  ∃ self,
    NDB_init env w None k alpha wh md bins_file = Ok (self, w) ∧
    ∀ X label, evaluate env self X label = Raise AttributeError.
Proof. eexists. split; [reflexivity|]. done. Qed.

(** A query whose width differs from that of the bin centers fails the
    assertion. *)
Theorem evaluate_width_mismatch env self X label centers :
  bin_centers self = Some centers → ncols X ≠ ncols centers →
  evaluate env self X label = Raise AssertionError.
Proof.
  intros Hc Hd. unfold evaluate, calculate_bin_proportions.
  rewrite Hc. unfold assert. by rewrite bool_decide_eq_false_2.
Qed.

Lemma evaluate_width_mismatch_witness :
  bin_centers example_fitted = Some (Matrix 1 [[Fin 0]; [Fin 1]]) ∧
  ncols (Matrix 2 [[Fin 0; Fin 0]]) ≠ ncols (Matrix 1 [[Fin 0]; [Fin 1]]) ∧
  evaluate example_env example_fitted (Matrix 2 [[Fin 0; Fin 0]]) None
  = Raise AssertionError.
Proof.
  assert (Hd : ncols (Matrix 2 [[Fin 0; Fin 0]])
               ≠ ncols (Matrix 1 [[Fin 0]; [Fin 1]])) by (simpl; lia).
  split; [reflexivity|]. split; [exact Hd|].
  exact (evaluate_width_mismatch example_env example_fitted
           (Matrix 2 [[Fin 0; Fin 0]]) None (Matrix 1 [[Fin 0]; [Fin 1]])
           eq_refl Hd).
Defined.

(** A query without samples cannot be evaluated: the bins are assigned
    (to nobody), and the z-test then divides one by the sample count. *)
Theorem evaluate_empty_query env self X label centers ps nref :
  bin_centers self = Some centers → wf_matrix centers →
  nrows centers ≠ 0 → ncols X = ncols centers →
  stat_fits (ncols X) (training_mean self) →
  stat_fits (ncols X) (training_std self) →
  bin_proportions self = Some ps → length ps = nrows centers →
  ref_sample_size self = Some nref →
  nrows X = 0 →
  evaluate env self X label = Raise ZeroDivisionError.
Proof.
  intros Hc Hwf Hk Hd Hm Hs Hps Hlen Hn HX.
  destruct (calculate_bin_proportions_returns self X centers)
    as [labels Hcalc]; try done.
  unfold evaluate. rewrite Hcalc, Hps, Hn. simpl.
  unfold two_proportions_z_test.
  rewrite (broadcast2_same F.add)
    by (by rewrite !length_map, scatter_proportions_length).
  simpl. rewrite (broadcast2_same F.mul) by (by rewrite !length_map).
  simpl. rewrite HX. unfold py_truediv.
  destruct (decide (nref = 0)); done.
Qed.

Lemma evaluate_empty_query_witness :
  let centers := Matrix 1 [[Fin 0]; [Fin 1]] in
  let X := Matrix 1 [] in
  bin_centers example_fitted = Some centers ∧ wf_matrix centers ∧
  nrows centers ≠ 0 ∧ ncols X = ncols centers ∧
  stat_fits (ncols X) (training_mean example_fitted) ∧
  stat_fits (ncols X) (training_std example_fitted) ∧
  bin_proportions example_fitted = Some [Fin 0.75; Fin 0.25] ∧
  length [Fin 0.75; Fin 0.25] = nrows centers ∧
  ref_sample_size example_fitted = Some 4 ∧
  nrows X = 0 ∧
  evaluate example_env example_fitted X (Some "Test"%string)
  = Raise ZeroDivisionError.
Proof.
  assert (Hwf : wf_matrix (Matrix 1 [[Fin 0]; [Fin 1]]))
    by (repeat constructor).
  assert (Hk : nrows (Matrix 1 [[Fin 0]; [Fin 1]]) ≠ 0)
    by (unfold nrows; simpl; lia).
  repeat (split; [first [exact Hwf | exact Hk | exact I | reflexivity]|]).
  exact (evaluate_empty_query example_env example_fitted (Matrix 1 [])
           (Some "Test"%string) (Matrix 1 [[Fin 0]; [Fin 1]])
           [Fin 0.75; Fin 0.25] 4 eq_refl Hwf Hk eq_refl I I eq_refl
           eq_refl eq_refl eq_refl).
Defined.

(** ** Successive evaluations *)

Lemma evaluate_cache_irrelevant env self X label c :
  evaluate env (set_cached_results self c) X label
  = match evaluate env self X label with
    | Ok (r, _) =>
        Ok (r, if truthy label
               then set_cached_results self
                      (<[default ""%string label := r]> c)
               else set_cached_results self c)
    | Raise e => Raise e
    end.
Proof.
  unfold evaluate.
  change (calculate_bin_proportions (set_cached_results self c) X)
    with (calculate_bin_proportions self X).
  destruct (calculate_bin_proportions self X) as [[qp qa]|e]; [|done].
  simpl.
  destruct (get_attr (bin_proportions self)) as [ps|e]; [|done]. simpl.
  destruct (get_attr (ref_sample_size self)) as [nref|e]; [|done]. simpl.
  destruct (two_proportions_z_test _ _ _ _ _ _) as [db|e]; [|done]. simpl.
  destruct (jensen_shannon_divergence ps qp) as [js|e]; [|done]. simpl.
  destruct label as [l|]; [destruct (truthy (Some l)) eqn:E|]; simpl;
    rewrite ?E; done.
Qed.

(** The results of an evaluation do not depend on what the cache holds,
    and a second evaluation under the same label replaces the first: the
    object is the one that the second evaluation alone would have left. *)
Theorem evaluate_same_label_twice env self X1 X2 l r1 s1 r2 s2 :
  l ≠ ""%string →
  evaluate env self X1 (Some l) = Ok (r1, s1) →
  evaluate env s1 X2 (Some l) = Ok (r2, s2) →
  cached_results s2 = <[l := r2]> (cached_results self) ∧
  evaluate env self X2 (Some l) = Ok (r2, s2).
Proof.
  intros Hl H1 H2.
  assert (Ht : truthy (Some l) = true).
  { simpl. apply negb_true_iff. by apply String.eqb_neq. }
  apply evaluate_outcome in H1. rewrite Ht in H1. simpl in H1. subst s1.
  rewrite evaluate_cache_irrelevant in H2.
  destruct (evaluate env self X2 (Some l)) as [[r s]|e] eqn:E; [|done].
  rewrite Ht in H2. simpl in H2. injection H2 as -> <-.
  apply evaluate_outcome in E. rewrite Ht in E. simpl in E. subst s.
  simpl. by rewrite insert_insert_eq.
Qed.

Lemma evaluate_same_label_twice_witness :
  ∃ r1 s1 r2 s2,
    "Test"%string ≠ ""%string ∧
    evaluate example_env example_fitted example_query (Some "Test"%string)
    = Ok (r1, s1) ∧
    evaluate example_env s1 example_query (Some "Test"%string)
    = Ok (r2, s2) ∧
    cached_results s2
    = <["Test"%string := r2]> (cached_results example_fitted) ∧
    evaluate example_env example_fitted example_query (Some "Test"%string)
    = Ok (r2, s2).
Proof.
  destruct (example_evaluate_returns (Some "Test"%string))
    as (r1 & s1 & H1).
  assert (Hne : "Test"%string ≠ ""%string) by done.
  assert (H2 : evaluate example_env s1 example_query (Some "Test"%string)
               = Ok (r1, s1)).
  { pose proof (evaluate_outcome _ _ _ _ _ _ H1) as Hs. simpl in Hs.
    rewrite Hs at 1. rewrite evaluate_cache_irrelevant, H1. simpl.
    rewrite Hs. simpl. by rewrite insert_insert_eq. }
  exists r1, s1, r1, s1. split; [exact Hne|]. split; [exact H1|].
  split; [exact H2|].
  exact (evaluate_same_label_twice example_env example_fitted example_query
           example_query "Test"%string r1 s1 r1 s1 Hne H1 H2).
Defined.

(** Two non-empty labels: both results are kept, nothing else changes. *)
Theorem evaluate_two_labels env self X1 X2 l1 l2 r1 s1 r2 s2 :
  l1 ≠ ""%string → l2 ≠ ""%string → l1 ≠ l2 →
  evaluate env self X1 (Some l1) = Ok (r1, s1) →
  evaluate env s1 X2 (Some l2) = Ok (r2, s2) →
  cached_results s2 !! l1 = Some r1 ∧
  cached_results s2 !! l2 = Some r2 ∧
  (∀ l, l ≠ l1 → l ≠ l2 →
        cached_results s2 !! l = cached_results self !! l) ∧
  fitted_state s2 = fitted_state self.
Proof.
  intros Hl1 Hl2 Hne H1 H2.
  assert (Ht : ∀ l, l ≠ ""%string → truthy (Some l) = true).
  { intros l Hl. simpl. apply negb_true_iff. by apply String.eqb_neq. }
  apply evaluate_outcome in H1, H2.
  rewrite Ht in H1, H2 by done. simpl in H1, H2. subst s1 s2. simpl.
  split; [by rewrite lookup_insert_ne, lookup_insert_eq|].
  split; [by rewrite lookup_insert_eq|].
  split; [|by destruct self].
  intros l Hn1 Hn2. by rewrite !lookup_insert_ne.
Qed.

Lemma evaluate_two_labels_witness :
  ∃ r1 s1 r2 s2,
    "Good"%string ≠ ""%string ∧ "Bad"%string ≠ ""%string ∧
    "Good"%string ≠ "Bad"%string ∧
    evaluate example_env example_fitted example_query (Some "Good"%string)
    = Ok (r1, s1) ∧
    evaluate example_env s1 example_query (Some "Bad"%string)
    = Ok (r2, s2) ∧
    cached_results s2 !! "Good"%string = Some r1 ∧
    cached_results s2 !! "Bad"%string = Some r2 ∧
    (∀ l, l ≠ "Good"%string → l ≠ "Bad"%string →
          cached_results s2 !! l = cached_results example_fitted !! l) ∧
    fitted_state s2 = fitted_state example_fitted.
Proof.
  destruct (example_evaluate_returns (Some "Good"%string))
    as (r1 & s1 & H1).
  destruct (example_evaluate_returns (Some "Bad"%string))
    as (r2 & s2' & H2').
  assert (H2 : ∃ s2, evaluate example_env s1 example_query
                       (Some "Bad"%string) = Ok (r2, s2)).
  { pose proof (evaluate_outcome _ _ _ _ _ _ H1) as Hs. simpl in Hs.
    rewrite Hs. rewrite evaluate_cache_irrelevant, H2'. eauto. }
  destruct H2 as [s2 H2].
  assert (Hg : "Good"%string ≠ ""%string) by done.
  assert (Hb : "Bad"%string ≠ ""%string) by done.
  assert (Hgb : "Good"%string ≠ "Bad"%string) by done.
  exists r1, s1, r2, s2.
  split; [exact Hg|]. split; [exact Hb|]. split; [exact Hgb|].
  split; [exact H1|]. split; [exact H2|].
  exact (evaluate_two_labels example_env example_fitted example_query
           example_query "Good"%string "Bad"%string r1 s1 r2 s2
           Hg Hb Hgb H1 H2).
Defined.

(** ** The divergences *)












(** ** The z-test and the shapes of its arguments *)

Lemma sub_neg (a b : float) : F.sub a b = F.neg (F.sub b a).
Proof.
  destruct a, b; unfold F.sub, F.add, F.neg; try done. f_equal. lra.
Qed.

Lemma div_neg (x y : float) : F.div (F.neg x) y = F.neg (F.div x y).
Proof.
  destruct x as [x| | |], y as [y| | |]; unfold F.div, F.neg; try done.
  - case_bool_decide.
    + unfold F.signed_inf.
      repeat case_bool_decide; try done; try lra.
    + f_equal. unfold Rdiv. lra.
  - f_equal. lra.
  - f_equal. lra.
  - by case_bool_decide.
  - by case_bool_decide.
Qed.

Lemma abs_neg (x : float) : F.abs (F.neg x) = F.abs x.
Proof.
  destruct x; unfold F.abs, F.neg; try done. by rewrite Rabs_Ropp.
Qed.

Lemma significantly_different_swap Phi n1 n2 alpha a b :
  significantly_different Phi n1 n2 alpha a b
  = significantly_different Phi n2 n1 alpha b a.
Proof.
  unfold significantly_different, two_tailed_p_value.
  assert (Hp : pooled_proportion n1 n2 a b = pooled_proportion n2 n1 b a).
  { unfold pooled_proportion.
    by rewrite (add_comm (F.mul a _)), (add_comm (F.of_nat n1)). }
  assert (Hse : standard_error n1 n2 a b = standard_error n2 n1 b a).
  { unfold standard_error. by rewrite Hp, (add_comm (F.div _ (F.of_nat n1))). }
  assert (Hz : z_score n1 n2 a b = F.neg (z_score n2 n1 b a)).
  { unfold z_score. by rewrite Hse, (sub_neg a b), div_neg. }
  by rewrite Hz, abs_neg.
Qed.

Lemma z_test_zero_left Phi p1 p2 n2 alpha :
  length p1 = length p2 →
  two_proportions_z_test Phi p1 0 p2 n2 alpha = Raise ZeroDivisionError.
Proof.
  intros Hlen. unfold two_proportions_z_test.
  rewrite (broadcast2_same F.add) by (by rewrite !length_map). simpl.
  by rewrite (broadcast2_same F.mul) by (by rewrite !length_map).
Qed.

Lemma z_test_zero_right Phi p1 n1 p2 alpha :
  length p1 = length p2 →
  two_proportions_z_test Phi p1 n1 p2 0 alpha = Raise ZeroDivisionError.
Proof.
  intros Hlen. unfold two_proportions_z_test.
  rewrite (broadcast2_same F.add) by (by rewrite !length_map). simpl.
  rewrite (broadcast2_same F.mul) by (by rewrite !length_map). simpl.
  unfold py_truediv. by destruct (decide (n1 = 0)).
Qed.

(** The test does not depend on which of the two samples is named first:
    swapping the proportions with their sample sizes gives the same flags,
    or the same exception. *)
Theorem two_proportions_z_test_swap Phi p1 n1 p2 n2 alpha :
  length p1 = length p2 →
  two_proportions_z_test Phi p1 n1 p2 n2 alpha
  = two_proportions_z_test Phi p2 n2 p1 n1 alpha.
Proof.
  intros Hlen.
  destruct (decide (n1 = 0)) as [->|Hn1].
  { by rewrite z_test_zero_left, z_test_zero_right. }
  destruct (decide (n2 = 0)) as [->|Hn2].
  { by rewrite z_test_zero_left, z_test_zero_right. }
  rewrite !z_test_elementwise by done. f_equal.
  clear Hn1 Hn2. revert p2 Hlen.
  induction p1 as [|a p1 IH]; intros [|b p2] Hlen; simpl in *; try done.
  f_equal; [apply significantly_different_swap | apply IH; lia].
Qed.

Lemma two_proportions_z_test_swap_witness :
  let p1 := [Fin 0.75; Fin 0.25] in
  let p2 := [Fin 0.5; Fin 0.5] in
  length p1 = length p2 ∧
  two_proportions_z_test (norm_cdf example_env) p1 100 p2 10 (Fin 0.05)
  = two_proportions_z_test (norm_cdf example_env) p2 10 p1 100 (Fin 0.05).
Proof.
  split; [reflexivity|].
  exact (two_proportions_z_test_swap (norm_cdf example_env)
           [Fin 0.75; Fin 0.25] 100 [Fin 0.5; Fin 0.5] 10 (Fin 0.05)
           eq_refl).
Defined.

(** A sample size of zero makes the test raise ZeroDivisionError. *)
Theorem two_proportions_z_test_zero_size Phi p1 n1 p2 n2 alpha :
  length p1 = length p2 → n1 = 0 ∨ n2 = 0 →
  two_proportions_z_test Phi p1 n1 p2 n2 alpha = Raise ZeroDivisionError.
Proof.
  intros Hlen [-> | ->].
  - by apply z_test_zero_left.
  - by apply z_test_zero_right.
Qed.

Lemma two_proportions_z_test_zero_size_witness :
  length [Fin 0.75; Fin 0.25] = length [Fin 0.5; Fin 0.5] ∧
  (4 = 0 ∨ 0 = 0) ∧
  two_proportions_z_test (norm_cdf example_env) [Fin 0.75; Fin 0.25] 4
    [Fin 0.5; Fin 0.5] 0 (Fin 0.05) = Raise ZeroDivisionError.
Proof.
  assert (H0 : 4 = 0 ∨ 0 = 0) by (right; reflexivity).
  split; [reflexivity|]. split; [exact H0|].
  exact (two_proportions_z_test_zero_size (norm_cdf example_env)
           [Fin 0.75; Fin 0.25] 4 [Fin 0.5; Fin 0.5] 0 (Fin 0.05)
           eq_refl H0).
Defined.

(** Arrays of different lengths, neither of length one, cannot be
    compared. *)
Theorem two_proportions_z_test_shape_mismatch Phi p1 n1 p2 n2 alpha :
  length p1 ≠ length p2 → length p1 ≠ 1 → length p2 ≠ 1 →
  two_proportions_z_test Phi p1 n1 p2 n2 alpha = Raise ValueError.
Proof.
  intros Hne H1 H2. unfold two_proportions_z_test, broadcast2.
  rewrite !length_map. unfold broadcast_shape.
  by rewrite !decide_False.
Qed.

Lemma two_proportions_z_test_shape_mismatch_witness :
  length [Fin 0.5; Fin 0.25; Fin 0.25] ≠ length [Fin 0.5; Fin 0.5] ∧
  length [Fin 0.5; Fin 0.25; Fin 0.25] ≠ 1 ∧
  length [Fin 0.5; Fin 0.5] ≠ 1 ∧
  two_proportions_z_test (norm_cdf example_env)
    [Fin 0.5; Fin 0.25; Fin 0.25] 4 [Fin 0.5; Fin 0.5] 4 (Fin 0.05)
  = Raise ValueError.
Proof.
  assert (Hne : length [Fin 0.5; Fin 0.25; Fin 0.25]
                ≠ length [Fin 0.5; Fin 0.5]) by (simpl; lia).
  assert (H1 : length [Fin 0.5; Fin 0.25; Fin 0.25] ≠ 1) by (simpl; lia).
  assert (H2 : length [Fin 0.5; Fin 0.5] ≠ 1) by (simpl; lia).
  split; [exact Hne|]. split; [exact H1|]. split; [exact H2|].
  exact (two_proportions_z_test_shape_mismatch (norm_cdf example_env)
           [Fin 0.5; Fin 0.25; Fin 0.25] 4 [Fin 0.5; Fin 0.5] 4 (Fin 0.05)
           Hne H1 H2).
Defined.

(** ** The divergences on arrays of different lengths *)

(** [kl_divergence] never returns on arrays of different lengths: where
    the comparison broadcasts, the boolean mask of [p] does not fit [q]. *)
Theorem kl_divergence_length_mismatch (p q : list float) :
  length p ≠ length q → ∃ e, kl_divergence p q = Raise e.
Proof.
  intros Hne. unfold kl_divergence.
  destruct (assert (np_all (map F.isfinite p))); simpl; [|eauto].
  destruct (assert (np_all (map F.isfinite q))); simpl; [|eauto].
  destruct (broadcast2 andb _ _) as [bad|]; simpl; [|eauto].
  destruct (assert (negb (np_any bad))); simpl; [|eauto].
  rewrite (mask_index_same p) by (by rewrite length_map). simpl.
  unfold mask_index. rewrite length_map.
  rewrite decide_False by done. simpl. eauto.
Qed.

Lemma kl_divergence_length_mismatch_witness :
  length [Fin 1] ≠ length [Fin 0.5; Fin 0.5] ∧
  ∃ e, kl_divergence [Fin 1] [Fin 0.5; Fin 0.5] = Raise e.
Proof.
  assert (Hne : length [Fin 1] ≠ length [Fin 0.5; Fin 0.5])
    by (simpl; lia).
  split; [exact Hne|].
  exact (kl_divergence_length_mismatch [Fin 1] [Fin 0.5; Fin 0.5] Hne).
Defined.

Lemma broadcast2_length {A B C : Type} (f : A → B → C) a b r :
  broadcast2 f a b = Ok r →
  length r = if decide (length a = 1) then length b else length a.
Proof.
  unfold broadcast2, broadcast_shape, zip_broadcast. intros H.
  destruct (decide (length a = length b)) as [Heq|Hne]; simpl in H.
  { injection H as <-. rewrite length_zip_with. case_decide; lia. }
  destruct (decide (length a = 1)) as [Ha|Ha]; simpl in H.
  { destruct a as [|x [|]]; try done. injection H as <-.
    by rewrite length_map. }
  destruct (decide (length b = 1)) as [Hb|Hb]; simpl in H; [|done].
  destruct b as [|y [|]]; try done. injection H as <-.
  destruct a as [|x [|x' a]]; simpl in *; try done.
  by rewrite length_map.
Qed.

(** Nor does [jensen_shannon_divergence]: the sum [p + q] may broadcast,
    but one of the two calls of [kl_divergence] then raises. *)
Theorem jensen_shannon_divergence_length_mismatch (p q : list float) :
  length p ≠ length q → ∃ e, jensen_shannon_divergence p q = Raise e.
Proof.
  intros Hne. unfold jensen_shannon_divergence.
  destruct (broadcast2 F.add p q) as [s|] eqn:Es; simpl; [|eauto].
  apply broadcast2_length in Es.
  set (m := map (λ x, F.mul x (Fin 0.5)) s).
  assert (Hm : length m
               = if decide (length p = 1) then length q else length p).
  { unfold m. by rewrite length_map. }
  destruct (decide (length p = length m)) as [Hp|Hp].
  - destruct (kl_divergence p m); simpl; [|eauto].
    destruct (kl_divergence_length_mismatch q m) as [e ->].
    { case_decide; lia. }
    simpl. eauto.
  - destruct (kl_divergence_length_mismatch p m Hp) as [e ->].
    simpl. eauto.
Qed.

Lemma jensen_shannon_divergence_length_mismatch_witness :
  length [Fin 0.5; Fin 0.5] ≠ length [Fin 1] ∧
  ∃ e, jensen_shannon_divergence [Fin 0.5; Fin 0.5] [Fin 1] = Raise e.
Proof.
  assert (Hne : length [Fin 0.5; Fin 0.5] ≠ length [Fin 1])
    by (simpl; lia).
  split; [exact Hne|].
  exact (jensen_shannon_divergence_length_mismatch
           [Fin 0.5; Fin 0.5] [Fin 1] Hne).
Defined.

(** ** The bins file *)

Lemma truthy_Some (path : string) :
  truthy (Some path) = true ↔ path ≠ ""%string.
Proof.
  simpl. rewrite negb_true_iff. apply String.eqb_neq.
Qed.

Lemma construct_bins_restores_eq env w self X path d :
  path ≠ ""%string → files w !! path = Some (Pickled d) →
  construct_bins env w self X (Some path)
  = Ok (restore self d, emit w (EvLoad path)).
Proof.
  intros Hne Hf. unfold construct_bins.
  by rewrite (read_from_bins_file_found _ _ _ d).
Qed.

(** The two ways in which [construct_bins] returns. *)
Lemma construct_bins_cases env w self X bins_file self' w' :
  construct_bins env w self X bins_file = Ok (self', w') →
  (∃ path d, bins_file = Some path ∧ path ≠ ""%string ∧
     files w !! path = Some (Pickled d) ∧
     self' = restore self d ∧ w' = emit w (EvLoad path)) ∨
  (no_snapshot w bins_file ∧
   cluster_and_store env w (fit_prepare self X) X bins_file
   = Ok (self', w')).
Proof.
  intros H.
  destruct bins_file as [path|]; [|right; split; [done|]].
  2:{ by rewrite construct_bins_fit in H. }
  destruct (truthy (Some path) && isfile w path) eqn:E.
  - left. apply andb_true_iff in E as [Ht Hf].
    apply truthy_Some in Ht. unfold isfile in Hf.
    apply bool_decide_eq_true in Hf as [f Hf].
    destruct f as [d|].
    + rewrite (construct_bins_restores_eq env w self X path d) in H by done.
      exists path, d. by simplify_eq.
    + unfold construct_bins, read_from_bins_file, isfile, pickle_load in H.
      rewrite Hf in H. simpl in H.
      replace (String.eqb path "") with false in H
        by (symmetry; by apply String.eqb_neq).
      simpl in H. done.
  - right. split; [done|]. by rewrite construct_bins_fit in H.
Qed.

Lemma write_to_bins_file_lookup w self path :
  path ≠ ""%string →
  files (write_to_bins_file w self (Some path)) !! path
  = Some (Pickled (BinsData (bin_proportions self) (bin_centers self)
                            (ref_sample_size self) (training_mean self)
                            (training_std self))).
Proof.
  intros Hne. unfold write_to_bins_file.
  rewrite (proj2 (truthy_Some path) Hne). simpl.
  apply lookup_insert_eq.
Qed.

(** A fit that is given the path of a bins file which does not exist yet
    leaves a snapshot there, and a later [construct_bins] with that path,
    on any object, with any samples and collaborators, restores the
    fitted state of the first. *)
Theorem snapshot_round_trip env w self X path self' w' :
  path ≠ ""%string → files w !! path = None →
  construct_bins env w self X (Some path) = Ok (self', w') →
  ∀ env2 self2 X2, ∃ s2 w2,
    construct_bins env2 w' self2 X2 (Some path) = Ok (s2, w2) ∧
    fitted_state s2 = fitted_state self' ∧
    files w2 = files w'.
Proof.
  intros Hne Hnone H env2 self2 X2.
  assert (Hno : no_snapshot w (Some path)).
  { unfold no_snapshot, isfile. rewrite Hnone.
    rewrite bool_decide_eq_false_2; [apply andb_false_r|].
    by intros [? ?]. }
  rewrite construct_bins_fit in H by done.
  apply cluster_and_store_inv in H
    as (X' & labels & sc & centers & _ & _ & _ & _ & _ & Hs & ->).
  eexists _, _. split.
  - apply construct_bins_restores_eq; [done|].
    by apply write_to_bins_file_lookup.
  - by rewrite Hs.
Qed.

Lemma snapshot_round_trip_witness :
  ∃ self' w',
    "bins.pkl"%string ≠ ""%string ∧
    files empty_world !! "bins.pkl"%string = None ∧
    construct_bins example_env empty_world example_fitted three_samples
                   (Some "bins.pkl"%string) = Ok (self', w') ∧
    ∀ env2 self2 X2, ∃ s2 w2,
      construct_bins env2 w' self2 X2 (Some "bins.pkl"%string)
      = Ok (s2, w2) ∧
      fitted_state s2 = fitted_state self' ∧
      files w2 = files w'.
Proof.
  assert (Hne : "bins.pkl"%string ≠ ""%string) by done.
  assert (Hnone : files empty_world !! "bins.pkl"%string = None)
    by apply lookup_empty.
  destruct (construct_bins_returns example_env empty_world example_fitted
              three_samples (Some "bins.pkl"%string))
    as (self' & w' & H).
  { unfold no_snapshot, isfile. by rewrite Hnone. }
  { done. }
  { done. }
  { apply example_permutation_contract. }
  { by apply example_kmeans_contract. }
  { apply example_argsort_spec. }
  exists self', w'. split; [exact Hne|]. split; [exact Hnone|].
  split; [exact H|].
  exact (snapshot_round_trip example_env empty_world example_fitted
           three_samples "bins.pkl"%string self' w' Hne Hnone H).
Defined.

(** [construct_bins] touches no file but the bins file, and none at all
    when no path, or the empty path, is given. *)
Theorem construct_bins_files_frame env w self X bins_file self' w' :
  construct_bins env w self X bins_file = Ok (self', w') →
  (∀ p, bins_file ≠ Some p → files w' !! p = files w !! p) ∧
  (truthy bins_file = false → files w' = files w).
Proof.
  intros H. apply construct_bins_cases in H
    as [(path & d & -> & Hne & Hf & -> & ->) | [Hno H]].
  { split; [done|]. intros Ht. by apply truthy_Some in Hne; congruence. }
  apply cluster_and_store_inv in H
    as (X' & labels & sc & centers & _ & _ & _ & _ & _ & _ & ->).
  unfold write_to_bins_file.
  destruct bins_file as [path|]; [|done].
  destruct (truthy (Some path)) eqn:Ht; simpl; [|done].
  split; [|done]. intros p Hp.
  apply lookup_insert_ne. congruence.
Qed.

Lemma construct_bins_files_frame_witness :
  ∃ self' w',
    construct_bins example_env snapshot_world example_fitted three_samples
                   None = Ok (self', w') ∧
    (∀ p, None ≠ Some p → files w' !! p = files snapshot_world !! p) ∧
    (truthy None = false → files w' = files snapshot_world).
Proof.
  destruct (construct_bins_returns example_env snapshot_world example_fitted
              three_samples None) as (self' & w' & H); try done.
  { apply example_permutation_contract. }
  { by apply example_kmeans_contract. }
  { apply example_argsort_spec. }
  exists self', w'. split; [exact H|].
  exact (construct_bins_files_frame example_env snapshot_world
           example_fitted three_samples None self' w' H).
Defined.



(** ** The call of the clustering primitive *)

Lemma cluster_and_store_inv_full env w self X bins_file self' w' :
  cluster_and_store env w self X bins_file = Ok (self', w') →
  ∃ labels sorted_counts centers,
    let counts := (np_unique labels).2 in
    let order := np_argsort env (map (λ c, (- Z.of_nat c)%Z) counts) in
    number_of_bins self ≠ 0 ∧
    kmeans_fit env (number_of_bins self) (kmeans_input env self X)
    = Ok labels ∧
    length labels = nrows X ∧
    take_indices counts order = Ok sorted_counts ∧
    take_indices (label_means self X labels) order = Ok centers ∧
    self' = set_bins self
              (map (λ c, F.div (F.of_nat c) (F.of_nat (sum_list counts)))
                   sorted_counts)
              (Matrix (ncols X) centers) (nrows X) ∧
    w' = write_to_bins_file
           (emit (emit w (EvPermutation (ncols X)))
                 (EvKMeans (number_of_bins self) (kmeans_input env self X)))
           self' bins_file.
Proof.
  unfold cluster_and_store. intros H.
  ok_bind H as centered Ec. ok_bind H as W Ew.
  ok_bind H as [] Ek. destruct (decide (number_of_bins self = 0)); [done|].
  ok_bind H as X' EX. ok_bind H as labels El. ok_bind H as bc Ebc.
  ok_bind H as sorted_counts Es. ok_bind H as centers Ecs.
  injection H as <- <-.
  apply matrix_op_inv in Ec, Ew.
  assert (HW : rows W = map (whiten self) (rows X)).
  { rewrite Ew, Ec, map_map. done. }
  assert (HX : X' = kmeans_input env self X).
  { unfold take_columns in EX. ok_bind EX as [] Ea. injection EX as <-.
    unfold kmeans_input, clustering_columns. by rewrite HW. }
  subst X'.
  assert (Hbc : bc = label_means self X labels).
  { unfold label_means. rewrite <- HW.
    eapply for_each_inv_map; [|exact Ebc].
    intros i y Hy. cbv beta in Hy.
    ok_bind Hy as sel Esel. ok_bind Hy as [] Ed.
    case_decide as Hd; [|done]. rewrite Hd in Hy.
    unfold mask_index in Esel. case_decide; by simplify_eq. }
  subst bc.
  exists labels, sorted_counts, centers. simpl.
  repeat split; try done.
  destruct (number_of_bins self) as [|k]; [done|].
  rewrite <- cons_seq in Ebc. simpl in Ebc.
  ok_bind Ebc as y Ey. ok_bind Ey as sel Esel.
  unfold mask_index in Esel.
  destruct (decide (length (map _ labels) = length (rows W)))
    as [Hlen|]; [|done].
  rewrite length_map in Hlen. rewrite Hlen, HW, !length_map. done.
Qed.

(** ** A fit in which no cluster is empty *)

Lemma filter_Forall_id {A : Type} (P : A → Prop) `{∀ x, Decision (P x)}
    (l : list A) :
  Forall P l → filter P l = l.
Proof.
  induction 1 as [|x l Hx _ IH]; [done|].
  rewrite filter_cons, decide_True by done. by rewrite IH.
Qed.

Lemma unique_values_all (k : nat) (labels : list nat) :
  all_clusters_used k labels → (np_unique labels).1 = seq 0 k.
Proof.
  intros [Hlt Hall]. rewrite np_unique_values.
  destruct k as [|k].
  { destruct labels as [|x labels]; [done|].
    apply Forall_cons in Hlt as [? _]. lia. }
  assert (Hmax : max_list labels = k).
  { assert (Hk : k ∈ labels) by (apply Hall; lia).
    pose proof (max_list_elem_of_le _ _ Hk).
    assert (Hne : labels ≠ []) by (intros ->; by apply not_elem_of_nil in Hk).
    pose proof (max_list_elem_of _ Hne) as Hm.
    rewrite Forall_forall in Hlt. apply Hlt in Hm. lia. }
  rewrite Hmax. apply filter_Forall_id, Forall_forall.
  intros j Hj. apply elem_of_seq in Hj. apply Hall. lia.
Qed.

Lemma map_nth_indices {B : Type} (f : nat → B) (k : nat) (d : B)
    (order : list nat) :
  Forall (λ u, u < k) order →
  map (λ i, nth i (map f (seq 0 k)) d) order = map f order.
Proof.
  intros H. apply map_ext_Forall. eapply Forall_impl; [exact H|].
  intros u Hu. simpl in *.
  rewrite (nth_indep _ d (f 0)) by (rewrite length_map, length_seq; lia).
  rewrite (map_nth f). by rewrite seq_nth.
Qed.

(** When K-means leaves no cluster empty, the fit stores exactly
    [number_of_bins] bins: they are the clusters in some order, each
    proportion being the share of the samples of one cluster and the
    center stored with it the mean of the whitened samples of that same
    cluster. *)
Theorem fit_bins_co_indexed env w self X bins_file self' w' :
  argsort_spec (np_argsort env) → no_snapshot w bins_file →
  (∀ labels,
     kmeans_fit env (number_of_bins self)
                (kmeans_input env (fit_prepare self X) X) = Ok labels →
     all_clusters_used (number_of_bins self) labels) →
  construct_bins env w self X bins_file = Ok (self', w') →
  ∃ labels order,
    kmeans_fit env (number_of_bins self)
               (kmeans_input env (fit_prepare self X) X) = Ok labels ∧
    order ≡ₚ seq 0 (number_of_bins self) ∧
    bin_proportions self'
    = Some (map (λ u, F.div (F.of_nat (count u labels))
                            (F.of_nat (nrows X))) order) ∧
    bin_centers self'
    = Some (Matrix (ncols X) (map (cluster_mean self' X labels) order)).
Proof.
  intros Hspec Hno Hfill H. rewrite construct_bins_fit in H by done.
  apply cluster_and_store_inv_full in H
    as (labels & sc & centers & Hk & El & Hlen & Hsc & Hc & -> & _).
  rewrite fit_prepare_number_of_bins in *.
  destruct (Hfill _ El) as [Hlt Hall].
  assert (Hcounts : (np_unique labels).2
                    = map (λ v, count v labels)
                          (seq 0 (number_of_bins self))).
  { by rewrite np_unique_counts, (unique_values_all (number_of_bins self)). }
  rewrite Hcounts in *.
  set (order := np_argsort env _) in *.
  assert (Hperm : order ≡ₚ seq 0 (number_of_bins self)).
  { destruct (Hspec (map (λ c, (- Z.of_nat c)%Z)
                         (map (λ v, count v labels)
                              (seq 0 (number_of_bins self))))) as [Hp _].
    by rewrite !length_map, length_seq in Hp. }
  assert (Hord : Forall (λ u, u < number_of_bins self) order).
  { apply Forall_forall. intros u Hu. rewrite Hperm in Hu.
    apply elem_of_seq in Hu. lia. }
  exists labels, order. split; [done|]. split; [done|].
  rewrite (take_indices_nth _ _ _ 0 Hsc), (take_indices_nth _ _ _ [] Hc).
  unfold label_means. rewrite fit_prepare_number_of_bins.
  rewrite !map_nth_indices by done.
  rewrite count_sum by done. rewrite Hlen. simpl.
  split; [by rewrite map_map|]. done.
Qed.

Lemma example_all_clusters_used labels :
  kmeans_fit example_env 2
    (kmeans_input example_env (fit_prepare example_fitted three_samples)
                  three_samples) = Ok labels →
  all_clusters_used 2 labels.
Proof.
  unfold example_env. simpl kmeans_fit.
  unfold example_kmeans, nrows, kmeans_input. simpl rows.
  simpl. intros [= <-]. split.
  - repeat constructor.
  - intros [|[|j]] Hj; [set_solver..|lia].
Qed.

Lemma fit_bins_co_indexed_witness :
  ∃ self' w',
    construct_bins example_env empty_world example_fitted three_samples None
    = Ok (self', w') ∧
    ∃ labels order,
      kmeans_fit example_env 2
        (kmeans_input example_env (fit_prepare example_fitted three_samples)
                      three_samples) = Ok labels ∧
      order ≡ₚ seq 0 2 ∧
      bin_proportions self'
      = Some (map (λ u, F.div (F.of_nat (count u labels))
                              (F.of_nat (nrows three_samples))) order) ∧
      bin_centers self'
      = Some (Matrix 1 (map (cluster_mean self' three_samples labels) order)).
Proof.
  destruct (construct_bins_returns example_env empty_world example_fitted
              three_samples None) as (self' & w' & H); try done.
  { apply example_permutation_contract. }
  { by apply example_kmeans_contract. }
  { apply example_argsort_spec. }
  exists self', w'. split; [exact H|].
  exact (fit_bins_co_indexed example_env empty_world example_fitted
           three_samples None self' w' example_argsort_spec I
           example_all_clusters_used H).
Defined.

(** ** What a fit hands to the clustering primitive *)

(** A fit draws one permutation of the [d] columns and calls K-means
    exactly once, before any dump: on a matrix with one row per training
    sample and with [min d max_dims] columns, where an unset [max_dims]
    means all [d] columns up to 1000 of them and [d // 6] columns
    beyond. *)
Theorem fit_clusters_selected_columns env w self X bins_file self' w' :
  no_snapshot w bins_file → permutation_contract env (ncols X) →
  construct_bins env w self X bins_file = Ok (self', w') →
  let X' := kmeans_input env (fit_prepare self X) X in
  trace w'
  = trace w ++ [EvPermutation (ncols X); EvKMeans (number_of_bins self) X']
            ++ dump_events bins_file ∧
  nrows X' = nrows X ∧
  ncols X'
  = match max_dims self with
    | Some m => ncols X `min` m
    | None => if bool_decide (1000 < ncols X) then ncols X / 6 else ncols X
    end.
Proof.
  intros Hno Hperm H. rewrite construct_bins_fit in H by done.
  apply cluster_and_store_inv_full in H
    as (labels & sc & centers & _ & _ & _ & _ & _ & _ & ->).
  rewrite fit_prepare_number_of_bins. simpl. split; [|split].
  - unfold write_to_bins_file, dump_events.
    destruct bins_file as [path|]; [destruct (truthy (Some path))|];
      simpl; by rewrite <- ?app_assoc.
  - unfold nrows, kmeans_input. simpl. by rewrite !length_map.
  - unfold kmeans_input, clustering_columns. simpl.
    rewrite length_take, Hperm, length_seq.
    unfold fit_prepare. destruct self as [k a wh eps m s md bc bp n c].
    pose proof (Nat.Div0.div_le_upper_bound (ncols X) 6 (ncols X)).
    destruct wh, md as [md|]; simpl;
      repeat case_bool_decide; simpl;
      change (fst (Nat.divmod (ncols X) 5 0 5)) with (ncols X / 6); lia.
Qed.

Lemma fit_clusters_selected_columns_witness :
  ∃ self' w',
    construct_bins example_env empty_world example_fitted three_samples None
    = Ok (self', w') ∧
    let X' := kmeans_input example_env
                (fit_prepare example_fitted three_samples) three_samples in
    trace w' = [EvPermutation 1; EvKMeans 2 X'] ∧
    nrows X' = 3 ∧ ncols X' = 1.
Proof.
  destruct (construct_bins_returns example_env empty_world example_fitted
              three_samples None) as (self' & w' & H); try done.
  { apply example_permutation_contract. }
  { by apply example_kmeans_contract. }
  { apply example_argsort_spec. }
  exists self', w'. split; [exact H|].
  exact (fit_clusters_selected_columns example_env empty_world
           example_fitted three_samples None self' w' I
           (example_permutation_contract 1) H).
Defined.

(** ** The proportions of a fit *)


(** ** A fitted object can be queried *)

Lemma label_means_length self X labels c :
  c ∈ label_means self X labels → length c = ncols X.
Proof.
  unfold label_means. intros Hc. apply list_elem_of_fmap_1 in Hc as (i & -> & _).
  unfold np_mean_axis0. simpl. by rewrite length_map, length_seq.
Qed.

Lemma fit_then_evaluate env w self X bins_file self' w' Q label :
  argsort_spec (np_argsort env) → no_snapshot w bins_file →
  nrows X ≠ 0 →
  (whitening self = false →
   stat_fits (ncols X) (training_mean self) ∧
   stat_fits (ncols X) (training_std self)) →
  construct_bins env w self X bins_file = Ok (self', w') →
  ncols Q = ncols X → nrows Q ≠ 0 →
  ∃ res self'', evaluate env self' Q label = Ok (res, self'').
Proof.
  intros Hspec Hno HX Hfit H HQ HnQ.
  rewrite construct_bins_fit in H by done.
  destruct (fit_prepare_fits self X) as [Hm Hs]; [done|].
  apply cluster_and_store_inv_full in H
    as (labels & sc & centers & _ & _ & Hlen & Hsc & Hc & -> & _).
  set (counts := (np_unique labels).2) in *.
  assert (Hne : counts ≠ []).
  { apply unique_counts_nonempty. intros ->. simpl in Hlen. lia. }
  assert (Hord : length (np_argsort env (map (λ c, (- Z.of_nat c)%Z) counts))
                 = length counts).
  { destruct (Hspec (map (λ c, (- Z.of_nat c)%Z) counts)) as [Hp _].
    by rewrite Hp, length_seq, length_map. }
  assert (Htotal : sum_list counts ≠ 0).
  { pose proof (unique_counts_pos labels) as Hpos. fold counts in Hpos.
    destruct counts as [|c counts']; [done|].
    apply Forall_cons in Hpos as [Hc0 _]. simpl. lia. }
  pose proof (for_each_length _ _ _ Hsc) as Hlsc.
  pose proof (for_each_length _ _ _ Hc) as Hlc.
  eapply (evaluate_returns env _ Q label (Matrix (ncols X) centers));
    try reflexivity; simpl; try (by rewrite HQ).
  - apply Forall_forall. intros c Hin. simpl.
    eapply label_means_length, take_indices_elem_of; [exact Hc|done].
  - unfold nrows. simpl. rewrite Hlc, Hord.
    destruct counts; [done|simpl; lia].
  - unfold nrows. simpl. rewrite length_map. congruence.
  - apply Forall_map, Forall_forall. intros c _. by apply div_of_nat.
  - done.
  - done.
Qed.

(** An object constructed from a non-empty training sample evaluates
    every non-empty query of the training width: no assertion fails, no
    shape mismatch and no division by zero or invalid divergence arises,
    also when K-means left clusters empty. *)
Theorem fitted_object_evaluates env w X k alpha wh md bins_file self w'
    Q label :
  argsort_spec (np_argsort env) → no_snapshot w bins_file →
  nrows X ≠ 0 →
  NDB_init env w (Some X) k alpha wh md bins_file = Ok (self, w') →
  ncols Q = ncols X → nrows Q ≠ 0 →
  ∃ res self', evaluate env self Q label = Ok (res, self').
Proof.
  intros Hspec Hno HX H HQ HnQ. unfold NDB_init in H.
  eapply (fit_then_evaluate env w _ X bins_file self w' Q label);
    [done|done|done| |exact H|done|done].
  intros _. by split.
Qed.

Lemma fitted_object_evaluates_witness :
  ∃ self w' res self',
    NDB_init skipping_env empty_world (Some duplicate_samples) 3 (Fin 0.05)
             true None None = Ok (self, w') ∧
    evaluate skipping_env self example_query (Some "model"%string)
    = Ok (res, self').
Proof.
  destruct (construct_bins_returns skipping_env empty_world
              (MkNDB 3 (Fin 0.05) true (Fin 1e-6) (Scalar (Fin 0))
                     (Scalar (Fin 1)) None None None None ∅)
              duplicate_samples None) as (self & w' & H); try done.
  { apply example_permutation_contract. }
  { intros X _. exists [0; 0; 2]. split; [done|]. split; [done|].
    repeat constructor. }
  { apply example_argsort_spec. }
  assert (HX : nrows duplicate_samples ≠ 0) by (unfold nrows; simpl; lia).
  assert (HQ : nrows example_query ≠ 0) by (unfold nrows; simpl; lia).
  destruct (fitted_object_evaluates skipping_env empty_world
              duplicate_samples 3 (Fin 0.05) true None None self w'
              example_query (Some "model"%string)
              example_argsort_spec I HX H eq_refl HQ)
    as (res & self' & He).
  exists self, w', res, self'. split; [exact H|exact He].
Defined.

(** * Plotting the cached results *)

(** ** What fitting and evaluating keep *)

Lemma fit_prepare_cache self X :
  cached_results (fit_prepare self X) = cached_results self.
Proof.
  unfold fit_prepare. destruct self as [k a wh eps m s md bc bp n c].
  destruct wh, md; simpl; try done; by case_bool_decide.
Qed.

Lemma construct_bins_keeps env w self X bins_file self' w' :
  construct_bins env w self X bins_file = Ok (self', w') →
  number_of_bins self' = number_of_bins self ∧
  cached_results self' = cached_results self.
Proof.
  intros H.
  apply construct_bins_cases in H as [(path & d & _ & _ & _ & -> & _)|[_ H]].
  - done.
  - apply cluster_and_store_inv_full in H
      as (labels & sc & centers & _ & _ & _ & _ & _ & -> & _).
    simpl. by rewrite fit_prepare_number_of_bins, fit_prepare_cache.
Qed.

Lemma NDB_init_cache env w data k alpha wh md bins_file self w' :
  NDB_init env w data k alpha wh md bins_file = Ok (self, w') →
  number_of_bins self = k ∧ cached_results self = ∅.
Proof.
  unfold NDB_init. destruct data as [X|].
  - intros H. by apply construct_bins_keeps in H as [-> ->].
  - by intros [= <- _].
Qed.

Lemma evaluate_keeps env s Q label res s' :
  evaluate env s Q label = Ok (res, s') →
  number_of_bins s' = number_of_bins s ∧ fitted_state s' = fitted_state s.
Proof.
  intros H. apply evaluate_outcome in H as ->.
  by destruct (truthy label).
Qed.

Lemma evaluated_keeps env self s :
  evaluated env self s →
  number_of_bins s = number_of_bins self ∧
  fitted_state s = fitted_state self.
Proof.
  induction 1 as [|self s Q label res s' _ [IHk IHf] H]; [done|].
  apply evaluate_keeps in H as [-> ->]. done.
Qed.

(** ** Nothing to plot *)

(** Evaluations without a label leave nothing to plot: on a new object
    that was only evaluated without a label, or with the empty one,
    [plot_results] fails its assertion before any call of pyplot. *)
Theorem plot_results_needs_label env w data k alpha wh md bins_file self w'
    Q label res self' plt models :
  NDB_init env w data k alpha wh md bins_file = Ok (self, w') →
  truthy label = false →
  evaluate env self Q label = Ok (res, self') →
  plot_results plt self' models [] = ([], Failed (Exn AssertionError)).
Proof.
  intros Hinit Hl H. apply NDB_init_cache in Hinit as [_ Hc].
  pose proof (evaluate_outcome _ _ _ _ _ _ H) as ->. rewrite Hl.
  apply evaluate_inv_full in H as (ps & nref & Hps & _).
  unfold plot_results, mbind, plotting_bind, lift. rewrite Hps, Hc. simpl.
  by case_bool_decide.
Qed.

Lemma plot_results_needs_label_witness :
  ∃ self w' res self',
    NDB_init example_env empty_world (Some three_samples) 2 (Fin 0.05)
             true None None = Ok (self, w') ∧
    truthy (Some ""%string) = false ∧
    evaluate example_env self example_query (Some ""%string)
    = Ok (res, self') ∧
    plot_results accepting_plt self' None []
    = ([], Failed (Exn AssertionError)).
Proof.
  destruct (example_fit_returns three_samples 2 true ltac:(done))
    as (self & w' & H).
  assert (HX : nrows three_samples ≠ 0) by (unfold nrows; simpl; lia).
  assert (HQ : nrows example_query ≠ 0) by (unfold nrows; simpl; lia).
  destruct (fit_then_evaluate example_env empty_world
              (MkNDB 2 (Fin 0.05) true (Fin 1e-6) (Scalar (Fin 0))
                     (Scalar (Fin 1)) None None None None ∅)
              three_samples None self w' example_query (Some ""%string)
              example_argsort_spec I HX ltac:(done) H eq_refl HQ)
    as (res & self' & He).
  exists self, w', res, self'.
  split; [exact H|]. split; [reflexivity|]. split; [exact He|].
  exact (plot_results_needs_label example_env empty_world
           (Some three_samples) 2 (Fin 0.05) true None None self w'
           example_query (Some ""%string) res self' accepting_plt None
           H eq_refl He).
Defined.

(** ** Plotting after a fit with an empty cluster *)

Lemma unique_length_lt (labels : list nat) (k j : nat) :
  Forall (λ l, l < k) labels → j < k → j ∉ labels →
  length (np_unique labels).2 < k.
Proof.
  intros Hlt Hj Hn. rewrite np_unique_counts, length_map.
  assert (Hnd : NoDup (j :: (np_unique labels).1)).
  { apply NoDup_cons. split.
    - by rewrite elem_of_unique_values.
    - rewrite np_unique_values. apply NoDup_filter, NoDup_seq. }
  assert (Hsub : j :: (np_unique labels).1 ⊆ seq 0 k).
  { intros v Hv. apply elem_of_cons in Hv as [->|Hv].
    - apply elem_of_seq. lia.
    - apply (proj1 (elem_of_unique_values _ _)) in Hv.
      rewrite Forall_forall in Hlt. apply Hlt in Hv.
      apply elem_of_seq. lia. }
  pose proof (submseteq_length _ _ (NoDup_submseteq _ _ Hnd Hsub)) as Hle.
  rewrite length_seq in Hle. simpl in Hle. lia.
Qed.

(** When K-means left a cluster empty, the fit stores fewer proportions
    than [number_of_bins], and the fitted object can never be plotted:
    after any evaluations, [plot_results] fails its first assertion
    before any call of pyplot. *)
Theorem plot_results_after_empty_cluster env w self X bins_file self' w'
    labels j s plt models :
  argsort_spec (np_argsort env) → no_snapshot w bins_file →
  construct_bins env w self X bins_file = Ok (self', w') →
  kmeans_fit env (number_of_bins self)
             (kmeans_input env (fit_prepare self X) X) = Ok labels →
  Forall (λ l, l < number_of_bins self) labels →
  j < number_of_bins self → j ∉ labels →
  evaluated env self' s →
  plot_results plt s models [] = ([], Failed (Exn AssertionError)).
Proof.
  intros Hspec Hno H El Hlt Hj Hn Hev.
  apply evaluated_keeps in Hev as [Hk Hf].
  pose proof (construct_bins_keeps _ _ _ _ _ _ _ H) as [Hk' _].
  rewrite construct_bins_fit in H by done.
  apply cluster_and_store_inv_full in H
    as (labels' & sc & centers & _ & El' & _ & Hsc & _ & -> & _).
  rewrite fit_prepare_number_of_bins in El'.
  rewrite El in El'. injection El' as <-.
  pose proof (for_each_length _ _ _ Hsc) as Hlsc.
  destruct (Hspec (map (λ c, (- Z.of_nat c)%Z) (np_unique labels).2))
    as [Hp _].
  rewrite Hp, length_seq, length_map in Hlsc.
  pose proof (unique_length_lt labels _ j Hlt Hj Hn) as Hu.
  unfold fitted_state in Hf. simpl in Hf.
  assert (Hbp : bin_proportions s
                = Some (map (λ c, F.div (F.of_nat c)
                                   (F.of_nat (sum_list (np_unique labels).2)))
                            sc)) by congruence.
  unfold plot_results, mbind, plotting_bind, lift. rewrite Hbp. simpl.
  rewrite bool_decide_false; [done|].
  rewrite length_map, Hk, Hk'. lia.
Qed.

Lemma plot_results_after_empty_cluster_witness :
  ∃ self' w',
    construct_bins skipping_env empty_world
      (MkNDB 3 (Fin 0.05) false (Fin 1e-6) (Scalar (Fin 0)) (Scalar (Fin 1))
             None None None None ∅)
      duplicate_samples None = Ok (self', w') ∧
    plot_results accepting_plt self' None []
    = ([], Failed (Exn AssertionError)).
Proof.
  destruct (construct_bins_returns skipping_env empty_world
              (MkNDB 3 (Fin 0.05) false (Fin 1e-6) (Scalar (Fin 0))
                     (Scalar (Fin 1)) None None None None ∅)
              duplicate_samples None) as (self' & w' & H); try done.
  { apply example_permutation_contract. }
  { intros X _. exists [0; 0; 2]. split; [done|]. split; [done|].
    repeat constructor. }
  { apply example_argsort_spec. }
  exists self', w'. split; [exact H|].
  refine (plot_results_after_empty_cluster skipping_env empty_world _
            duplicate_samples None self' w' [0; 0; 2] 1 self'
            accepting_plt None example_argsort_spec I H eq_refl _ _ _
            (evaluated_refl _ _)).
  - repeat constructor.
  - simpl. lia.
  - rewrite !elem_of_cons, elem_of_nil. lia.
Defined.

(** ** A label that was never evaluated *)

Lemma stops_bind_l {A B : Type} (m : plotting A) (f : A → plotting B) h :
  stops m h → stops (m ≫= f) h.
Proof.
  intros (calls & e & Hm & Hs). exists calls, e.
  unfold mbind, plotting_bind. by rewrite Hm.
Qed.

Lemma stops_bind_r {A B : Type} (m : plotting A) (f : A → plotting B) h :
  quiet m → PltShow ∉ h →
  (∀ a h', PltShow ∉ h' → stops (f a) h') →
  stops (m ≫= f) h.
Proof.
  intros Hq Hh Hf. specialize (Hq h Hh).
  unfold stops, mbind, plotting_bind.
  destruct (m h) as [h' [a|e]]; simpl in Hq.
  - by apply Hf.
  - by exists h', e.
Qed.

Lemma quiet_lift {A : Type} (r : result A) : quiet (lift r).
Proof. by intros h Hh. Qed.

Lemma quiet_dict_get d key : quiet (dict_get d key).
Proof. by intros h Hh. Qed.

Lemma quiet_call plt c : c ≠ PltShow → quiet (call plt c).
Proof.
  intros Hc h Hh. simpl. rewrite elem_of_app, list_elem_of_singleton.
  intros [?|?]; congruence.
Qed.

Lemma plot_models_stops plt self K w m ms :
  m ∈ ms → cached_results self !! m = None →
  ∀ i ymax h, PltShow ∉ h → stops (plot_models plt self K w i ymax ms) h.
Proof.
  intros Hin Hm. induction ms as [|model rest IH]; intros i ymax h Hh.
  { by apply elem_of_nil in Hin. }
  simpl. destruct (decide (model = m)) as [->|Hne].
  - apply stops_bind_l. exists h, (KeyError m).
    unfold dict_get. by rewrite Hm.
  - apply elem_of_cons in Hin as [->|Hin]; [done|].
    apply stops_bind_r; [apply quiet_dict_get|done|]. intros r h1 Hh1.
    apply stops_bind_r; [apply quiet_lift|done|]. intros top h2 Hh2.
    apply stops_bind_r; [|done|].
    { case_bool_decide; by apply quiet_call. }
    intros [] h3 Hh3. by apply IH.
Qed.

(** A requested label that is not in the cache ends [plot_results] in an
    exception, whatever pyplot does and whatever else is requested, and
    [plt.show] is never called. *)
Theorem plot_results_unknown_label plt self ms m :
  m ∈ ms → cached_results self !! m = None →
  ∃ calls e,
    plot_results plt self (Some ms) [] = (calls, Failed e) ∧
    PltShow ∉ calls.
Proof.
  intros Hin Hm. change (stops (plot_results plt self (Some ms)) []).
  assert (Hnil : PltShow ∉ @nil plt_call) by apply not_elem_of_nil.
  destruct ms as [|m0 ms]; [by apply elem_of_nil in Hin|].
  unfold plot_results, selected_models.
  apply stops_bind_r; [apply quiet_lift|done|]. intros bp h1 Hh1.
  apply stops_bind_r; [apply quiet_lift|done|]. intros [] h2 Hh2.
  apply stops_bind_r; [apply quiet_lift|done|]. intros [] h3 Hh3.
  cbv zeta.
  apply stops_bind_r; [apply quiet_lift|done|]. intros first h4 Hh4.
  apply stops_bind_r; [apply quiet_dict_get|done|]. intros r0 h5 Hh5.
  apply stops_bind_r; [apply quiet_lift|done|]. intros n1 h6 Hh6.
  apply stops_bind_r; [apply quiet_lift|done|]. intros se h7 Hh7.
  apply stops_bind_r; [apply quiet_lift|done|]. intros bottom h8 Hh8.
  apply stops_bind_r; [by apply quiet_call|done|]. intros [] h9 Hh9.
  apply stops_bind_l. by eapply plot_models_stops.
Qed.

Lemma plot_results_unknown_label_witness :
  ∃ calls e,
    plot_results accepting_plt example_cached
                 (Some ["Good"%string; "Bad"%string]) []
    = (calls, Failed e) ∧
    PltShow ∉ calls.
Proof.
  refine (plot_results_unknown_label accepting_plt example_cached
            ["Good"%string; "Bad"%string] "Bad"%string _ _).
  - rewrite !elem_of_cons. tauto.
  - by apply lookup_singleton_ne.
Defined.

(** ** When the plot is drawn *)

Lemma calc_se_returns p n1 n2 :
  n1 ≠ 0 → n2 ≠ 0 →
  ∃ se, calc_se p n1 p n2 = Ok se ∧ length se = length p.
Proof.
  intros Hn1 Hn2. unfold calc_se.
  rewrite (broadcast2_same F.add) by (by rewrite !length_map). simpl.
  rewrite (broadcast2_same F.mul) by (by rewrite !length_map). simpl.
  rewrite !py_truediv_one by done. simpl.
  eexists. split; [reflexivity|].
  repeat (rewrite ?length_map, ?length_zip_with). lia.
Qed.

Lemma np_max_returns a : a ≠ [] → ∃ m, np_max a = Ok m.
Proof. destruct a; [done|]. intros _. by eexists. Qed.

Lemma string_le_total : Total string_le.
Proof. intros a b. apply String.leb_total. Qed.

Lemma sorted_keys_perm d : sorted_keys d ≡ₚ (map_to_list d).*1.
Proof. apply merge_sort_Permutation. Qed.

Lemma sorted_keys_sorted d : Sorted string_le (sorted_keys d).
Proof. apply Sorted_merge_sort, string_le_total. Qed.

Lemma sorted_keys_lookup d l : l ∈ sorted_keys d → ∃ r, d !! l = Some r.
Proof.
  rewrite sorted_keys_perm. intros H.
  apply list_elem_of_fmap_1 in H as ([l' r] & -> & H).
  apply elem_of_map_to_list in H. by exists r.
Qed.

Lemma sorted_keys_length d : length (sorted_keys d) = size d.
Proof.
  rewrite sorted_keys_perm, length_fmap. apply length_map_to_list.
Qed.

Lemma drawn_models_app a b :
  drawn_models (a ++ b) = drawn_models a ++ drawn_models b.
Proof. apply omap_app. Qed.

Lemma plot_models_returns plt self K w ms :
  accepts plt → results_plottable self →
  Forall (λ m, is_Some (cached_results self !! m)) ms →
  ∀ i ymax h, ∃ calls ymax',
    plot_models plt self K w i ymax ms h = (h ++ calls, Done ymax') ∧
    drawn_models calls = ms ∧ PltShow ∉ calls.
Proof.
  intros Hplt Hwf. induction 1 as [|m ms [r Hr] _ IH]; intros i ymax h.
  { exists [], ymax. simpl. rewrite app_nil_r.
    split; [done|]. split; [done|]. apply not_elem_of_nil. }
  destruct (Hwf _ _ Hr) as [_ Hp].
  destruct (np_max_returns _ Hp) as [top Htop].
  simpl. unfold mbind, plotting_bind, dict_get, lift, call.
  rewrite Hr, Htop.
  case_bool_decide; rewrite Hplt.
  - match goal with
    | |- context [plot_models _ _ _ _ (S i) ?y ms (h ++ [?c])] =>
        destruct (IH (S i) y (h ++ [c])) as (calls & ymax' & -> & Hd & Hs);
        exists (c :: calls), ymax'
    end.
    split; [by rewrite <- app_assoc|]. split; [simpl; by rewrite Hd|].
    rewrite not_elem_of_cons. done.
  - match goal with
    | |- context [plot_models _ _ _ _ (S i) ?y ms (h ++ [?c])] =>
        destruct (IH (S i) y (h ++ [c])) as (calls & ymax' & -> & Hd & Hs);
        exists (c :: calls), ymax'
    end.
    split; [by rewrite <- app_assoc|]. split; [simpl; by rewrite Hd|].
    rewrite not_elem_of_cons. done.
Qed.

Arguments plot_models : simpl never.

Lemma selected_models_first models d :
  size d ≠ 0 → selected_models models d ≠ [].
Proof.
  intros Hd. pose proof (sorted_keys_length d) as Hl.
  destruct models as [[|m ms]|]; simpl; try done;
    destruct (sorted_keys d); simpl in *; done || lia.
Qed.

Lemma plot_results_returns plt self models bp n :
  accepts plt →
  bin_proportions self = Some bp → length bp = number_of_bins self →
  bp ≠ [] → ref_sample_size self = Some n → n ≠ 0 →
  size (cached_results self) ≠ 0 → results_plottable self →
  Forall (λ m, is_Some (cached_results self !! m))
         (selected_models models (cached_results self)) →
  ∃ calls,
    plot_results plt self models [] = (calls, Done tt) ∧
    last calls = Some PltShow ∧
    drawn_models calls = selected_models models (cached_results self).
Proof.
  intros Hplt Hbp Hlen Hne Hn Hn0 Hsize Hwf Hall.
  pose proof (selected_models_first models _ Hsize) as Hsel.
  unfold plot_results.
  set (sel := selected_models models (cached_results self)) in *.
  destruct sel as [|m0 ms] eqn:Esel; [done|].
  pose proof (Forall_inv Hall) as [r0 Hr0].
  destruct (Hwf _ _ Hr0) as [HN0 _].
  destruct (calc_se_returns bp n (res_N r0) Hn0 HN0) as (se & Hse & Hlse).
  destruct (np_max_returns bp Hne) as [top Htop].
  destruct (plot_models_returns plt self (number_of_bins self)
              (F.div F.one (F.of_nat (size (cached_results self) + 1)))
              (m0 :: ms) Hplt Hwf Hall 0 (Fin 0)
              [PltBar (arange_plus (number_of_bins self) (Fin 0.5))
                      (map (λ x, F.mul x (Fin 2)) se)
                      (Some (zip_with F.sub bp se)) (Fin 1)
                      TrainLabel (Some "gray"%string)])
    as (calls & ymax & Hloop & Hdrawn & _).
  eexists. split; [|split].
  - unfold mbind, plotting_bind, lift, dict_get, call.
    rewrite Hbp, Hn. simpl.
    rewrite !bool_decide_true by done. simpl.
    rewrite Hr0, Hse, (broadcast2_same F.sub) by done.
    rewrite Hplt, Hloop, Hplt, Htop, !Hplt. reflexivity.
  - apply last_snoc.
  - rewrite !drawn_models_app. simpl. rewrite Hdrawn.
    by rewrite !app_nil_r.
Qed.

Lemma z_test_sizes Phi p1 n1 p2 n2 alpha db :
  two_proportions_z_test Phi p1 n1 p2 n2 alpha = Ok db → n1 ≠ 0 ∧ n2 ≠ 0.
Proof.
  unfold two_proportions_z_test. intros H.
  ok_bind H as num En. ok_bind H as pq Ep.
  ok_bind H as r1 E1. ok_bind H as r2 E2.
  unfold py_truediv in E1, E2. by repeat case_decide.
Qed.

Lemma evaluate_plottable env s Q label res s' :
  evaluate env s Q label = Ok (res, s') →
  results_plottable s → results_plottable s'.
Proof.
  intros H Hwf. pose proof (evaluate_outcome _ _ _ _ _ _ H) as ->.
  destruct (truthy label); [|done].
  apply evaluate_inv_full in H
    as (ps & nref & _ & _ & Hcalc & Hz & _ & _ & HN).
  apply z_test_sizes in Hz as [_ Hn].
  apply calculate_bin_proportions_inv in Hcalc
    as (centers & _ & _ & Hk & _ & Hp).
  intros l r. simpl. destruct (decide (default ""%string label = l)) as [->|].
  - rewrite lookup_insert_eq. intros [= <-]. split; [congruence|].
    rewrite Hp. intros Hnil.
    apply (f_equal length) in Hnil.
    rewrite scatter_proportions_length in Hnil. done.
  - rewrite lookup_insert_ne by done. apply Hwf.
Qed.

Lemma evaluated_plottable env self s :
  evaluated env self s → results_plottable self → results_plottable s.
Proof.
  induction 1 as [|self s Q label res s' _ IH H]; [done|].
  intros Hwf. eapply evaluate_plottable; [exact H|]. by apply IH.
Qed.

Lemma kmeans_input_nrows env self X : nrows (kmeans_input env self X) = nrows X.
Proof. unfold nrows, kmeans_input. simpl. by rewrite !length_map. Qed.

Lemma fit_all_used env w self X bins_file self' w' :
  argsort_spec (np_argsort env) → no_snapshot w bins_file →
  (∀ X' labels, nrows X' = nrows X →
     kmeans_fit env (number_of_bins self) X' = Ok labels →
     all_clusters_used (number_of_bins self) labels) →
  construct_bins env w self X bins_file = Ok (self', w') →
  ∃ bp, bin_proportions self' = Some bp ∧
    length bp = number_of_bins self ∧ bp ≠ [] ∧
    ref_sample_size self' = Some (nrows X) ∧ nrows X ≠ 0.
Proof.
  intros Hspec Hno Hfill H. rewrite construct_bins_fit in H by done.
  apply cluster_and_store_inv_full in H
    as (labels & sc & centers & Hk & El & Hlen & Hsc & _ & -> & _).
  rewrite fit_prepare_number_of_bins in *.
  destruct (Hfill _ _ (kmeans_input_nrows _ _ _) El) as [Hlt Hall].
  pose proof (for_each_length _ _ _ Hsc) as Hlsc.
  destruct (Hspec (map (λ c, (- Z.of_nat c)%Z) (np_unique labels).2))
    as [Hp _].
  rewrite Hp, length_seq, length_map in Hlsc.
  rewrite np_unique_counts, length_map,
    (unique_values_all (number_of_bins self)), length_seq in Hlsc by done.
  eexists. split; [reflexivity|]. rewrite length_map.
  split; [done|]. split.
  { intros Hnil. apply (f_equal length) in Hnil.
    rewrite length_map in Hnil. simpl in Hnil. lia. }
  split; [done|]. rewrite <- Hlen.
  assert (H0 : 0 ∈ labels) by (apply Hall; lia).
  destruct labels; [by apply elem_of_nil in H0|done].
Qed.

(** In normal use the plot is drawn.  On an object constructed from
    training samples, with no cluster left empty by K-means, that was then
    evaluated any number of times and at least once under a label,
    [plot_results] raises nothing of its own when the labels asked for
    are cached: if pyplot accepts the calls, it runs up to [plt.show] and
    draws one series for each label asked for, in the order given; with
    no labels given (None or an empty list) it draws each cached label
    once, in the sorted order of the labels. *)
Theorem plot_results_after_evaluations env w X k alpha wh md bins_file
    self w' s plt models :
  argsort_spec (np_argsort env) → no_snapshot w bins_file →
  (∀ X' labels, nrows X' = nrows X →
     kmeans_fit env k X' = Ok labels → all_clusters_used k labels) →
  NDB_init env w (Some X) k alpha wh md bins_file = Ok (self, w') →
  evaluated env self s → cached_results s ≠ ∅ →
  accepts plt →
  (∀ ms m, models = Some ms → m ∈ ms → is_Some (cached_results s !! m)) →
  ∃ calls,
    plot_results plt s models [] = (calls, Done tt) ∧
    last calls = Some PltShow ∧
    match models with
    | Some (m :: ms) => drawn_models calls = m :: ms
    | _ => drawn_models calls ≡ₚ (map_to_list (cached_results s)).*1 ∧
           Sorted string_le (drawn_models calls)
    end.
Proof.
  intros Hspec Hno Hfill Hinit Hev Hcache Hplt Hasked.
  pose proof (NDB_init_cache _ _ _ _ _ _ _ _ _ _ Hinit) as [Hk0 Hc0].
  unfold NDB_init in Hinit.
  apply fit_all_used in Hinit as (bp & Hbp & Hlen & Hne & Hn & Hn0);
    [|done..].
  simpl in Hlen.
  pose proof (evaluated_keeps _ _ _ Hev) as [Hk Hf].
  unfold fitted_state in Hf.
  assert (Hwf : results_plottable s).
  { eapply evaluated_plottable; [exact Hev|].
    intros l r. by rewrite Hc0, lookup_empty. }
  assert (Hkeys : Forall (λ m, is_Some (cached_results s !! m))
                         (sorted_keys (cached_results s))).
  { apply Forall_forall. intros m Hm.
    apply sorted_keys_lookup in Hm as [r Hr]. by exists r. }
  destruct (plot_results_returns plt s models bp (nrows X))
    as (calls & Hrun & Hlast & Hd); try done.
  - congruence.
  - congruence.
  - congruence.
  - by apply map_size_non_empty_iff.
  - destruct models as [[|m ms]|]; simpl; try done.
    apply Forall_forall. intros m' Hm'. by eapply Hasked.
  - exists calls. split; [done|]. split; [done|]. rewrite Hd.
    destruct models as [[|m ms]|]; simpl; try done;
      (split; [apply sorted_keys_perm|apply sorted_keys_sorted]).
Qed.

Lemma example_kmeans_all_used X' labels :
  nrows X' = nrows three_samples →
  kmeans_fit example_env 2 X' = Ok labels → all_clusters_used 2 labels.
Proof.
  simpl. unfold example_kmeans. intros -> [= <-]. split.
  - repeat constructor.
  - intros [|[|j]] Hj; [rewrite !elem_of_cons; by auto..|lia].
Qed.

Lemma plot_results_after_evaluations_witness :
  ∃ self w' res s calls,
    NDB_init example_env empty_world (Some three_samples) 2 (Fin 0.05)
             true None None = Ok (self, w') ∧
    evaluate example_env self example_query (Some "Test"%string)
    = Ok (res, s) ∧
    plot_results accepting_plt s (Some ["Test"%string]) []
    = (calls, Done tt) ∧
    last calls = Some PltShow ∧
    drawn_models calls = ["Test"%string].
Proof.
  destruct (example_fit_returns three_samples 2 true ltac:(done))
    as (self & w' & H).
  assert (HX : nrows three_samples ≠ 0) by (unfold nrows; simpl; lia).
  assert (HQ : nrows example_query ≠ 0) by (unfold nrows; simpl; lia).
  destruct (fit_then_evaluate example_env empty_world
              (MkNDB 2 (Fin 0.05) true (Fin 1e-6) (Scalar (Fin 0))
                     (Scalar (Fin 1)) None None None None ∅)
              three_samples None self w' example_query (Some "Test"%string)
              example_argsort_spec I HX ltac:(done) H eq_refl HQ)
    as (res & s & He).
  assert (Hs : cached_results s = <["Test"%string := res]> (cached_results self)).
  { by rewrite (evaluate_outcome _ _ _ _ _ _ He). }
  assert (Hc : cached_results s ≠ ∅).
  { rewrite Hs. apply insert_non_empty. }
  assert (Hasked : ∀ ms m, Some ["Test"%string] = Some ms → m ∈ ms →
                           is_Some (cached_results s !! m)).
  { intros ms m [= <-] Hm. apply list_elem_of_singleton in Hm as ->.
    rewrite Hs, lookup_insert_eq. by eexists. }
  destruct (plot_results_after_evaluations example_env empty_world
              three_samples 2 (Fin 0.05) true None None self w' s
              accepting_plt (Some ["Test"%string])
              example_argsort_spec I example_kmeans_all_used H
              (evaluated_step _ _ _ _ _ _ _ (evaluated_refl _ _) He) Hc
              ltac:(done) Hasked)
    as (calls & Hrun).
  by exists self, w', res, s, calls.
Defined.

(** * A sample compared with itself *)

Lemma z_score_same (x se : float) :
  F.neg (F.abs (F.div (F.sub x x) se)) = Fin 0 ∨
  F.neg (F.abs (F.div (F.sub x x) se)) = NaN.
Proof.
  assert (H0 : Fin (- Rabs 0) = Fin 0) by (by rewrite Rabs_R0, Ropp_0).
  destruct x as [r| | |], se as [y| | |];
    unfold F.sub, F.neg, F.add, F.div, F.abs, F.signed_inf;
    try (by right); try (by left).
  replace (r + - r)%R with 0%R by lra.
  repeat case_bool_decide; try lra; try (by right).
  left. unfold Rdiv. by rewrite Rmult_0_l.
Qed.

Lemma significantly_different_same Phi n1 n2 alpha x :
  Phi (Fin 0) = Fin 0.5 → Phi NaN = NaN → F.ltb (Fin 1) alpha = false →
  significantly_different Phi n1 n2 alpha x x = false.
Proof.
  intros H0 Hnan Halpha.
  unfold significantly_different, two_tailed_p_value, z_score.
  destruct (z_score_same x (standard_error n1 n2 x x)) as [-> | ->].
  - rewrite H0, mul_Fin. by replace (2 * 0.5)%R with 1%R by lra.
  - rewrite Hnan. by destruct alpha.
Qed.

(** Two samples with the same proportions differ in no bin: for a normal
    distribution function with [Phi 0 = 0.5] that maps NaN to NaN, and a
    significance level that is not above one, every flag is False,
    whatever the proportions and the (non-zero) sample sizes are. *)
Theorem two_proportions_z_test_same Phi p n1 n2 alpha :
  Phi (Fin 0) = Fin 0.5 → Phi NaN = NaN →
  n1 ≠ 0 → n2 ≠ 0 → F.ltb (Fin 1) alpha = false →
  two_proportions_z_test Phi p n1 p n2 alpha = Ok (map (λ _, false) p).
Proof.
  intros H0 Hnan Hn1 Hn2 Halpha.
  rewrite z_test_elementwise by done. f_equal.
  induction p as [|x p IH]; [done|]. simpl.
  by rewrite IH, significantly_different_same.
Qed.

Lemma two_proportions_z_test_same_witness :
  let Phi := λ x : float, match x with Fin _ => Fin 0.5 | _ => x end in
  Phi (Fin 0) = Fin 0.5 ∧ Phi NaN = NaN ∧
  F.ltb (Fin 1) (Fin 0.05) = false ∧
  two_proportions_z_test Phi [Fin 0.75; Fin 0.25] 4 [Fin 0.75; Fin 0.25] 2
                         (Fin 0.05)
  = Ok [false; false].
Proof.
  assert (Ha : F.ltb (Fin 1) (Fin 0.05) = false).
  { unfold F.ltb. apply bool_decide_eq_false. lra. }
  split; [reflexivity|]. split; [reflexivity|]. split; [exact Ha|].
  exact (two_proportions_z_test_same
           (λ x : float, match x with Fin _ => Fin 0.5 | _ => x end)
           [Fin 0.75; Fin 0.25] 4 2 (Fin 0.05) eq_refl eq_refl
           ltac:(lia) ltac:(lia) Ha).
Defined.

(** * A fit into no bins *)

(** Constructing an object with [number_of_bins = 0] from training data
    (no snapshot to restore) raises ZeroDivisionError, from [n // k],
    before K-means is called. *)
Theorem NDB_init_zero_bins env w X alpha wh md bins_file :
  no_snapshot w bins_file →
  NDB_init env w (Some X) 0 alpha wh md bins_file = Raise ZeroDivisionError.
Proof.
  intros Hno. unfold NDB_init.
  set (self := MkNDB 0 _ _ _ _ _ _ _ _ _ _).
  rewrite construct_bins_fit by done.
  destruct (fit_prepare_fits self X) as [Hm Hs]; [done|].
  unfold cluster_and_store.
  rewrite (matrix_op_fits F.sub) by done. simpl.
  rewrite (matrix_op_fits F.div) by done. simpl.
  by rewrite fit_prepare_number_of_bins.
Qed.

Lemma NDB_init_zero_bins_witness :
  no_snapshot empty_world None ∧
  NDB_init example_env empty_world (Some three_samples) 0 (Fin 0.05) true
           None None = Raise ZeroDivisionError.
Proof.
  split; [exact I|].
  exact (NDB_init_zero_bins example_env empty_world three_samples (Fin 0.05)
           true None None I).
Defined.

(** * Evaluating with restored bins *)

Lemma evaluate_reads env s1 s2 Q label :
  fitted_state s1 = fitted_state s2 →
  significance_level s1 = significance_level s2 →
  results_of (evaluate env s1 Q label) = results_of (evaluate env s2 Q label).
Proof.
  destruct s1 as [k1 a1 wh1 eps1 m1 sd1 md1 bc1 bp1 n1 c1],
           s2 as [k2 a2 wh2 eps2 m2 sd2 md2 bc2 bp2 n2 c2].
  unfold fitted_state. simpl. intros [= -> -> -> -> ->] ->.
  unfold evaluate. simpl.
  change (calculate_bin_proportions
            (MkNDB k1 a2 wh1 eps1 m2 sd2 md1 bc2 bp2 n2 c1) Q)
    with (calculate_bin_proportions
            (MkNDB k2 a2 wh2 eps2 m2 sd2 md2 bc2 bp2 n2 c2) Q).
  destruct (calculate_bin_proportions _ Q) as [[qp qa]|e]; [|done]. simpl.
  destruct (get_attr bp2) as [ps|e]; [|done]. simpl.
  destruct (get_attr n2) as [nref|e]; [|done]. simpl.
  destruct (two_proportions_z_test _ _ _ _ _ _) as [db|e]; [|done]. simpl.
  destruct (jensen_shannon_divergence ps qp) as [js|e]; [|done]. simpl.
  destruct label as [l|]; [destruct (truthy (Some l))|]; done.
Qed.

Lemma fit_prepare_significance_level self X :
  significance_level (fit_prepare self X) = significance_level self.
Proof.
  unfold fit_prepare. destruct self as [k a wh eps m s md bc bp n c].
  destruct wh, md; simpl; try done; by case_bool_decide.
Qed.

(** Bins restored from a bins file evaluate like the fit that wrote it:
    an object with the same significance level that restores the snapshot,
    whatever its own number of bins, whitening flag and training samples
    are, returns the same results, or raises the same exception, on every
    query. *)
Theorem restored_bins_evaluate_alike env w self X path self' w'
    env2 self2 X2 s2 w2 envq Q label :
  path ≠ ""%string → files w !! path = None →
  construct_bins env w self X (Some path) = Ok (self', w') →
  construct_bins env2 w' self2 X2 (Some path) = Ok (s2, w2) →
  significance_level self2 = significance_level self →
  results_of (evaluate envq s2 Q label)
  = results_of (evaluate envq self' Q label).
Proof.
  intros Hne Hnone H H2 Ha.
  assert (Hno : no_snapshot w (Some path)).
  { unfold no_snapshot, isfile. rewrite Hnone.
    rewrite bool_decide_eq_false_2; [apply andb_false_r|].
    by intros [? ?]. }
  rewrite construct_bins_fit in H by done.
  apply cluster_and_store_inv_full in H
    as (labels & sc & centers & _ & _ & _ & _ & _ & Hs & ->).
  rewrite (construct_bins_restores_eq env2 _ self2 X2 path _ Hne
             (write_to_bins_file_lookup _ self' path Hne)) in H2.
  injection H2 as <- _.
  apply evaluate_reads; [done|]. simpl. rewrite Ha, Hs. simpl.
  by rewrite fit_prepare_significance_level.
Qed.

Lemma restored_bins_evaluate_alike_witness :
  ∃ self' w' s2 w2,
    construct_bins example_env empty_world example_fitted three_samples
                   (Some "bins.pkl"%string) = Ok (self', w') ∧
    construct_bins skipping_env w'
      (MkNDB 7 (Fin 0.05) true (Fin 1e-6) (Scalar (Fin 0)) (Scalar (Fin 1))
             None None None None ∅)
      duplicate_samples (Some "bins.pkl"%string) = Ok (s2, w2) ∧
    results_of (evaluate example_env s2 example_query None)
    = results_of (evaluate example_env self' example_query None).
Proof.
  assert (Hne : "bins.pkl"%string ≠ ""%string) by done.
  assert (Hnone : files empty_world !! "bins.pkl"%string = None)
    by apply lookup_empty.
  destruct (construct_bins_returns example_env empty_world example_fitted
              three_samples (Some "bins.pkl"%string))
    as (self' & w' & H); try done.
  { apply example_permutation_contract. }
  { by apply example_kmeans_contract. }
  { apply example_argsort_spec. }
  destruct (construct_bins_cases _ _ _ _ _ _ _ H)
    as [(p' & d & _ & _ & Hf & _)|[_ Hfit]]; [done|].
  apply cluster_and_store_inv_full in Hfit
    as (labels & sc & centers & _ & _ & _ & _ & _ & _ & Hw).
  pose proof (construct_bins_restores_eq skipping_env w'
                (MkNDB 7 (Fin 0.05) true (Fin 1e-6) (Scalar (Fin 0))
                       (Scalar (Fin 1)) None None None None ∅)
                duplicate_samples "bins.pkl" _ Hne
                (eq_ind_r (λ x, files x !! "bins.pkl"%string = _)
                   (write_to_bins_file_lookup _ self' _ Hne) Hw)) as H2.
  eexists self', w', _, _. split; [exact H|]. split; [exact H2|].
  exact (restored_bins_evaluate_alike example_env empty_world example_fitted
           three_samples "bins.pkl" self' w' skipping_env _
           duplicate_samples _ _ example_env example_query None
           Hne Hnone H H2 eq_refl).
Defined.
